(** * Recurrence solver: asymptotic classification engine

    A shallow embedding of [tools/recurrence_solver.py] and of the parsing
    front end [tools/complexity_adapter.py].

    The Python code is glue around a computer-algebra library.  The glue is
    embedded function by function, under the names of the source.  The
    library is an interface, [Engine]: every call the source makes into it is
    a field, and a call that may raise returns a [result].  Python values
    that travel through the request and the response ([dict], [list], [str],
    [int], [float], [None]) are the type [pyval]. *)

From Stdlib Require Import ZArith QArith Qabs Qround Qpower String Ascii List Bool Lia Lqa.
From Stdlib Require Import DecimalString DecimalPos.
Import ListNotations.
Local Open Scope string_scope.
Local Open Scope Z_scope.
Set Warnings "-register-all".

(** ** Exceptions and the error monad *)

(** A raised Python exception: its class name and [str(e)].  Every class
    that occurs below derives from [Exception]. *)
Record exn : Type := Exn { exn_type : string; exn_msg : string }.

Inductive result (A : Type) : Type :=
| Ok (a : A)
| Raise (e : exn).
Arguments Ok {A} a.
Arguments Raise {A} e.

Definition bind {A B : Type} (c : result A) (k : A -> result B) : result B :=
  match c with
  | Ok a => k a
  | Raise e => Raise e
  end.

(** [try: c  except Exception as e: h e] *)
Definition try_except {A : Type} (c : result A) (h : exn -> result A) : result A :=
  match c with
  | Ok a => Ok a
  | Raise e => h e
  end.

Declare Scope py_scope.
Delimit Scope py_scope with py.
Notation "x <- c ;; k" := (bind c (fun x => k))
  (at level 61, c at next level, right associativity) : py_scope.
Notation "' pat <- c ;; k" := (bind c (fun x => match x with pat => k end))
  (at level 61, pat pattern, c at next level, right associativity) : py_scope.
Local Open Scope py_scope.

(** ** Python values *)

(** A Python [float]: a finite value (the rounding of the arithmetic is not
    modelled, a finite float is the rational it denotes) or one of the three
    special values. *)
Inductive pyfloat : Type :=
| FFin (q : Q)
| FInf
| FNegInf
| FNan.

Inductive pykey : Type :=
| KStr (s : string)
| KInt (z : Z).

Inductive pyval : Type :=
| VNone
| VBool (b : bool)
| VInt (z : Z)
| VFloat (f : pyfloat)
| VStr (s : string)
| VList (l : list pyval)
| VTuple (l : list pyval)
| VDict (d : list (pykey * pyval)).

(** A [dict] keeps insertion order; assigning an existing key replaces the
    value in place.  The order is kept in the model, an association list,
    because a loop over the items raises at the first item that fails. *)
Definition pydict : Type := list (pykey * pyval).

Definition pykey_eqb (a b : pykey) : bool :=
  match a, b with
  | KStr s, KStr t => String.eqb s t
  | KInt x, KInt y => Z.eqb x y
  | _, _ => false
  end.

Fixpoint dict_lookup (k : pykey) (d : pydict) : option pyval :=
  match d with
  | [] => None
  | (k', v) :: d' => if pykey_eqb k k' then Some v else dict_lookup k d'
  end.

(** [d.get(k, default)] *)
Definition dict_get (d : pydict) (k : string) (default : pyval) : pyval :=
  match dict_lookup (KStr k) d with
  | Some v => v
  | None => default
  end.

(** [d[k] = v] *)
Fixpoint dict_set (d : pydict) (k : pykey) (v : pyval) : pydict :=
  match d with
  | [] => [(k, v)]
  | (k', v') :: d' =>
      if pykey_eqb k k' then (k', v) :: d' else (k', v') :: dict_set d' k v
  end.

(** ** Floats *)

Definition flt (x y : pyfloat) : bool :=
  match x, y with
  | FNan, _ | _, FNan => false
  | FFin a, FFin b => negb (Qle_bool b a)
  | FFin _, FInf => true
  | FNegInf, FFin _ => true
  | FNegInf, FInf => true
  | _, _ => false
  end.

(** A Python float is a binary64 value: [FFin q] holds its exact value.
    The result of an operation is the exact result rounded to the nearest
    binary64 value, ties to the even significand. *)

(** [2^e] *)
Definition pow2 (e : Z) : Q := Qpower 2 e.

(** [floor(log2(x))] for a positive [x] *)
Definition ilog2 (x : Q) : Z :=
  let e := Z.log2 (Qnum x) - Z.log2 (Zpos (Qden x)) in
  if Qle_bool (pow2 e) x then e else e - 1.

(** The nearest integer, ties to the even one. *)
Definition round_half_even (t : Q) : Z :=
  let f := Qfloor t in
  match (t - inject_Z f ?= 1#2)%Q with
  | Lt => f
  | Gt => f + 1
  | Eq => if Z.even f then f else f + 1
  end.

(** The nearest binary64 value to a positive [x]: 53 significant bits, and
    the spacing [2^-1074] at the bottom of the range; the exponent is not
    bounded above here. *)
Definition round_pos (x : Q) : Q :=
  let u := Z.max (ilog2 x - 52) (-1074) in
  (inject_Z (round_half_even (x / pow2 u)) * pow2 u)%Q.

Definition round_val (x : Q) : Q :=
  match (x ?= 0)%Q with
  | Eq => 0%Q
  | Gt => round_pos x
  | Lt => (- round_pos (- x))%Q
  end.

(** The binary64 value of an exact [x]: round to nearest, overflow to an
    infinity. *)
Definition double_round (x : Q) : pyfloat :=
  let v := Qred (round_val x) in
  if Qle_bool (pow2 1024) (Qabs v)
  then (if Qle_bool 0 v then FInf else FNegInf)
  else FFin v.


(** [x - y] *)
Definition fsub (x y : pyfloat) : pyfloat :=
  match x, y with
  | FNan, _ | _, FNan => FNan
  | FFin a, FFin b => double_round (a - b)
  | FInf, FInf | FNegInf, FNegInf => FNan
  | FInf, _ => FInf
  | FNegInf, _ => FNegInf
  | FFin _, FInf => FNegInf
  | FFin _, FNegInf => FInf
  end.

Definition fabs (x : pyfloat) : pyfloat :=
  match x with
  | FFin a => FFin (Qabs a)
  | FInf | FNegInf => FInf
  | FNan => FNan
  end.

(** [x * c] for a finite non-zero constant [c] *)
Definition fscale (x : pyfloat) (c : Q) : pyfloat :=
  match x with
  | FFin a => FFin (a * c)
  | FInf => if Qle_bool 0 c then FInf else FNegInf
  | FNegInf => if Qle_bool 0 c then FNegInf else FInf
  | FNan => FNan
  end.

(** ** Strings *)

(** Text is held as its UTF-8 bytes.  The white space [str.strip] removes
    is the set of characters for which [str.isspace] holds: U+0009 to
    U+000D, U+001C to U+0020, U+0085, U+00A0, U+1680, U+2000 to U+200A,
    U+2028, U+2029, U+202F, U+205F and U+3000.  [int] removes the same
    characters but U+001C to U+001F: it leaves an ASCII character as it is
    and then skips the white space of C. *)

(** The white-space characters of one byte. *)
Definition is_space (c : ascii) : bool :=
  let k := nat_of_ascii c in
  orb (andb (Nat.leb 9 k) (Nat.leb k 13)) (andb (Nat.leb 28 k) (Nat.leb k 32)).

(** The white space of C: tab to carriage return, and the space. *)
Definition is_c_space (c : ascii) : bool :=
  let k := nat_of_ascii c in
  orb (andb (Nat.leb 9 k) (Nat.leb k 13)) (Nat.eqb k 32).

(** The white-space characters of two bytes: U+0085 and U+00A0. *)
Definition is_space2 (a b : ascii) : bool :=
  andb (Nat.eqb (nat_of_ascii a) 194)
       (orb (Nat.eqb (nat_of_ascii b) 133) (Nat.eqb (nat_of_ascii b) 160)).

(** The white-space characters of three bytes. *)
Definition is_space3 (a b c : ascii) : bool :=
  let x := nat_of_ascii a in
  let y := nat_of_ascii b in
  let z := nat_of_ascii c in
  orb (andb (Nat.eqb x 225) (andb (Nat.eqb y 154) (Nat.eqb z 128)))
      (orb (andb (Nat.eqb x 226)
                 (orb (andb (Nat.eqb y 128)
                            (orb (andb (Nat.leb 128 z) (Nat.leb z 138))
                                 (orb (Nat.eqb z 168) (orb (Nat.eqb z 169) (Nat.eqb z 175)))))
                      (andb (Nat.eqb y 129) (Nat.eqb z 159))))
           (andb (Nat.eqb x 227) (andb (Nat.eqb y 128) (Nat.eqb z 128)))).

(** White space removed from the front of [s]; [sp1], [sp2] and [sp3]
    recognise the characters of one, two and three bytes in the order the
    bytes are met. *)
Fixpoint lstrip_with (sp1 : ascii -> bool) (sp2 : ascii -> ascii -> bool)
  (sp3 : ascii -> ascii -> ascii -> bool) (s : string) : string :=
  match s with
  | String a s1 =>
      if sp1 a then lstrip_with sp1 sp2 sp3 s1
      else
        match s1 with
        | String b s2 =>
            if sp2 a b then lstrip_with sp1 sp2 sp3 s2
            else
              match s2 with
              | String c s3 => if sp3 a b c then lstrip_with sp1 sp2 sp3 s3 else s
              | EmptyString => s
              end
        | EmptyString => s
        end
  | EmptyString => EmptyString
  end.

Definition lstrip (sp1 : ascii -> bool) (s : string) : string :=
  lstrip_with sp1 is_space2 is_space3 s.

(** The same on a reversed text, where the bytes of a character are met
    last byte first. *)
Definition lstrip_reversed (sp1 : ascii -> bool) (s : string) : string :=
  lstrip_with sp1 (fun a b => is_space2 b a) (fun a b c => is_space3 c b a) s.

Fixpoint rev_string (s acc : string) : string :=
  match s with
  | EmptyString => acc
  | String c s' => rev_string s' (String c acc)
  end.

(** White space removed from both ends. *)
Definition strip_with (sp1 : ascii -> bool) (s : string) : string :=
  rev_string (lstrip_reversed sp1 (rev_string (lstrip sp1 s) "")) "".

(** [s.strip()] *)
Definition strip (s : string) : string := strip_with is_space s.

(** [s.startswith(p)]: the rest of [s] after [p] *)
Fixpoint strip_prefix (p s : string) : option string :=
  match p, s with
  | EmptyString, _ => Some s
  | String a p', String b s' => if Ascii.eqb a b then strip_prefix p' s' else None
  | String _ _, EmptyString => None
  end.

Definition startswith (s p : string) : bool :=
  match strip_prefix p s with Some _ => true | None => false end.

Definition endswith (s p : string) : bool :=
  startswith (rev_string s "") (rev_string p "").

(** [p in s] *)
Fixpoint contains (p s : string) : bool :=
  if startswith s p then true
  else match s with
       | EmptyString => false
       | String _ s' => contains p s'
       end.

(** [s.replace(c, r)] for a one-character [c] *)
Fixpoint replace_char (c : ascii) (r : string) (s : string) : string :=
  match s with
  | EmptyString => EmptyString
  | String a s' =>
      if Ascii.eqb a c then r ++ replace_char c r s' else String a (replace_char c r s')
  end.

(** [s[k:-1]] *)
Definition slice_inner (k : nat) (s : string) : string :=
  String.substring k (String.length s - k - 1) s.

Definition is_digit (c : ascii) : bool :=
  let k := nat_of_ascii c in andb (Nat.leb 48 k) (Nat.leb k 57).

Definition digit_val (c : ascii) : Z := Z.of_nat (nat_of_ascii c - 48).

(** The longest prefix of digits, [(\d+)] at the start of [s], as a number
    and the number of characters read. *)
Fixpoint take_digits (s : string) (acc : Z) (k : nat) : Z * nat :=
  match s with
  | String c s' => if is_digit c then take_digits s' (10 * acc + digit_val c) (S k) else (acc, k)
  | EmptyString => (acc, k)
  end.

(** Digits with single underscores between them, the literal [int] reads. *)
Fixpoint digits_value (s : string) (acc : Z) (expect_digit : bool) : option Z :=
  match s with
  | EmptyString => if expect_digit then None else Some acc
  | String c s' =>
      if is_digit c then digits_value s' (10 * acc + digit_val c) false
      else if andb (Ascii.eqb c "_") (negb expect_digit) then digits_value s' acc true
      else None
  end.

Definition ValueError (m : string) : exn := Exn "ValueError" m.
Definition TypeError (m : string) : exn := Exn "TypeError" m.
Definition AttributeError (m : string) : exn := Exn "AttributeError" m.

(** [int(s)] for a string: surrounding white space, an optional sign, then
    decimal digits with single underscores between them.  The digits read
    here are the ASCII ones; [int] also reads the decimal digits of other
    scripts. *)
Definition int_of_str (s : string) : result Z :=
  let t := strip_with is_c_space s in
  let bad := Raise (ValueError ("invalid literal for int() with base 10: '" ++ s ++ "'")) in
  match t with
  | String "-" r => match digits_value r 0 true with Some z => Ok (- z) | None => bad end
  | String "+" r => match digits_value r 0 true with Some z => Ok z | None => bad end
  | _ => match digits_value t 0 true with Some z => Ok z | None => bad end
  end.

(** [str(z)] *)
Definition string_of_Z (z : Z) : string := NilZero.string_of_int (Z.to_int z).

(** [int(k)] for a dictionary key *)
Definition int_of_key (k : pykey) : result Z :=
  match k with
  | KStr s => int_of_str s
  | KInt z => Ok z
  end.

(** ** Symbolic expressions *)

(** The assumptions a symbol is created with; two symbols are the same
    symbol when name and assumptions agree. *)
Inductive assumptions : Type :=
| PositiveInteger
| PositiveReal
| NoAssumption.

(** Expression trees, under the class names of the library.  [a - b] is
    [Add a (Mul (Integer (-1)) b)], [a / b] is [Mul a (Pow b (Integer (-1)))]
    and [sqrt a] is [Pow a (Rational (1#2))], as the library builds them. *)
Inductive Expr : Type :=
| Integer (z : Z)
| Rational (q : Q)
| Float (q : Q)
| Symbol (name : string) (a : assumptions)
| Add (a b : Expr)
| Mul (a b : Expr)
| Pow (a b : Expr)
| log (a : Expr)
| Abs (a : Expr)
| factorial (a : Expr)
| T_app (a : Expr)
| oo
| neg_oo
| zoo
| nan.

Definition Sub (a b : Expr) : Expr := Add a (Mul (Integer (-1)) b).
Definition Div (a b : Expr) : Expr := Mul a (Pow b (Integer (-1))).
Definition sqrt (a : Expr) : Expr := Pow a (Rational (1#2)).

(** [n - k] for a Python [int] [k]; [n - 0] is [n]. *)
Definition sub_int (n : Expr) (k : Z) : Expr :=
  if k =? 0 then n else Add n (Integer (- k)).

Definition assumptions_eqb (a b : assumptions) : bool :=
  match a, b with
  | PositiveInteger, PositiveInteger => true
  | PositiveReal, PositiveReal => true
  | NoAssumption, NoAssumption => true
  | _, _ => false
  end.

(** [a == b]: structural equality of expressions *)
Fixpoint expr_eqb (x y : Expr) : bool :=
  match x, y with
  | Integer a, Integer b => a =? b
  | Rational a, Rational b => Qeq_bool a b
  | Float a, Float b => Qeq_bool a b
  | Symbol s a, Symbol t b => andb (String.eqb s t) (assumptions_eqb a b)
  | Add a b, Add c d => andb (expr_eqb a c) (expr_eqb b d)
  | Mul a b, Mul c d => andb (expr_eqb a c) (expr_eqb b d)
  | Pow a b, Pow c d => andb (expr_eqb a c) (expr_eqb b d)
  | log a, log b => expr_eqb a b
  | Abs a, Abs b => expr_eqb a b
  | factorial a, factorial b => expr_eqb a b
  | T_app a, T_app b => expr_eqb a b
  | oo, oo | neg_oo, neg_oo | zoo, zoo | nan, nan => true
  | _, _ => false
  end.

(** [x in (a, b, ...)] *)
Definition expr_in (x : Expr) (l : list Expr) : bool := existsb (expr_eqb x) l.

(** [expr.has(log)] *)
Fixpoint has_log (e : Expr) : bool :=
  match e with
  | log _ => true
  | Add a b | Mul a b | Pow a b => orb (has_log a) (has_log b)
  | Abs a | factorial a | T_app a => has_log a
  | _ => false
  end.

(** A Python number standing where an expression is expected. *)
Definition expr_of_float (f : pyfloat) : Expr :=
  match f with
  | FFin q => Float q
  | FInf => oo
  | FNegInf => neg_oo
  | FNan => nan
  end.

(** [c * e] for a Python value [c]: numbers multiply, anything else is an
    unsupported operand. *)
Definition py_mul (c : pyval) (e : Expr) : result Expr :=
  match c with
  | VInt z => Ok (Mul (Integer z) e)
  | VFloat f => Ok (Mul (expr_of_float f) e)
  | _ => Raise (TypeError "unsupported operand type(s) for *")
  end.

(** Iterating a Python value, as [enumerate(coeffs)] does. *)
Definition py_iter (v : pyval) : result (list pyval) :=
  match v with
  | VList l | VTuple l => Ok l
  | VStr s => Ok (map (fun c => VStr (String c EmptyString)) (list_ascii_of_string s))
  | VDict d => Ok (map (fun kv => match fst kv with KStr s => VStr s | KInt z => VInt z end) d)
  | _ => Raise (TypeError "object is not iterable")
  end.

(** [v.items()] *)
Definition py_items (v : pyval) : result pydict :=
  match v with
  | VDict d => Ok d
  | _ => Raise (AttributeError "object has no attribute 'items'")
  end.

(** [int(x)] and [x == int(x)] for a float *)
Definition int_of_float (f : pyfloat) : result Z :=
  match f with
  | FFin q => Ok (Z.quot (Qnum q) (Zpos (Qden q)))
  | FNan => Raise (ValueError "cannot convert float NaN to integer")
  | _ => Raise (Exn "OverflowError" "cannot convert float infinity to integer")
  end.

Definition float_eq_int (f : pyfloat) (z : Z) : bool :=
  match f with
  | FFin q => Qeq_bool q (inject_Z z)
  | _ => false
  end.

(** A number of the request or of the degree table as a float, for the
    comparisons. *)
Definition float_of_num (v : pyval) : pyfloat :=
  match v with
  | VInt z => FFin (inject_Z z)
  | VFloat f => f
  | _ => FNan
  end.

(** ** The symbolic library *)

(** Every entry point of the library the two source files call.  A call
    that may raise returns a [result]; the assumption queries [is_number],
    [is_positive], ... are read for their truth value, as the [if] tests of
    the source read them. *)
Record Engine : Type := {
  (** [re.sub(pattern, repl, s)] *)
  re_sub : string -> string -> string -> string;
  (** [sympify(s, locals=local_dict)] *)
  sympify_locals : string -> result Expr;
  (** [parse_expr(s, local_dict, transformations)] *)
  parse_expr : string -> result Expr;
  (** [sympify(v)] *)
  sympify : pyval -> result Expr;
  simplify : Expr -> result Expr;
  (** [limit(e, n, oo)] *)
  limit : Expr -> Expr -> Expr -> result Expr;
  (** [rsolve(eq, T(n), init)]; the initial conditions [{T(k): v}] by [k] *)
  rsolve : Expr -> Expr -> list (Z * Expr) -> result (option Expr);
  (** [e.subs(old, new)] *)
  subs : Expr -> Expr -> Expr -> result Expr;
  LT : Expr -> Expr -> result Expr;
  is_constant : Expr -> result bool;
  is_polynomial : Expr -> Expr -> result bool;
  (** [float(degree(Poly(e, n), n))] *)
  poly_degree : Expr -> Expr -> result pyfloat;
  is_number : Expr -> bool;
  is_positive : Expr -> bool;
  is_finite : Expr -> bool;
  is_nonnegative : Expr -> bool;
  (** [log(a, b)] on the numbers of the request *)
  sym_log : pyval -> pyval -> result Expr;
  (** [float(e.evalf())] and [float(e)] *)
  evalf_float : Expr -> result pyfloat;
  float_of : Expr -> result pyfloat;
  (** [abs(complex(N(e)))] *)
  abs_complex_N : Expr -> result pyfloat;
  (** [str(e)], [latex(e)] *)
  str : Expr -> string;
  latex : Expr -> string;
  (** [f"{x:.kf}"] and [f"{v}"] *)
  format_float : nat -> pyfloat -> string;
  format_val : pyval -> string
}.

Definition response (fields : list (string * pyval)) : pydict :=
  map (fun kv => (KStr (fst kv), snd kv)) fields.

(** [{"success": False, "error": msg}] *)
Definition failure (msg : string) : pydict :=
  response [("success", VBool false); ("error", VStr msg)].

(** ** The parsing front end ([complexity_adapter.py]) *)

(** The complexity variable of the adapter, [Symbol("n", positive=True,
    integer=True)]. *)
Definition complexity_n : Expr := Symbol "n" PositiveInteger.

Definition newline : string := String (ascii_of_nat 10) EmptyString.
(** The two-byte capitals Theta and Omega, each followed by an opening
    parenthesis. *)
Definition theta_open : string := String (ascii_of_nat 206) (String (ascii_of_nat 152) "(").
Definition omega_open : string := String (ascii_of_nat 206) (String (ascii_of_nat 169) "(").

Section Solver.

Variable E : Engine.

(** [ComplexityParser.preprocess] *)
Definition preprocess (expr_str : string) : string :=
  let result := strip expr_str in
  let result :=
    if andb (startswith result "O(") (endswith result ")") then slice_inner 2 result
    else if andb (startswith result theta_open) (endswith result ")") then slice_inner 3 result
    else if andb (startswith result omega_open) (endswith result ")") then slice_inner 3 result
    else result in
  let result := replace_char "^" "**" result in
  let result := re_sub E "\bln\b" "log" result in
  let result := re_sub E "\blog2\b" "log" result in
  let result := re_sub E "\|([^|]+)\|" "Abs(\1)" result in
  let result := re_sub E "\bceil\b" "ceiling" result in
  let result := re_sub E "(\d)([a-zA-Z])(?!\*\*)" "\1*\2" result in
  let result := re_sub E "log\^(\d+)\(n\)" "log(n)**\1" result in
  let result := re_sub E "n\s*\*\s*log" "n*log" result in
  result.

(** [ComplexityParser.parse]: three attempts, then a [ValueError] that
    collects the three messages. *)
Definition parse (expr_str : string) : result Expr :=
  let original := expr_str in
  let processed := preprocess expr_str in
  match sympify_locals E processed with
  | Ok expr => Ok expr
  | Raise e1 =>
      match parse_expr E processed with
      | Ok expr => Ok expr
      | Raise e2 =>
          match sympify_locals E (replace_char "^" "**" expr_str) with
          | Ok expr => Ok expr
          | Raise e3 =>
              Raise (ValueError
                ("Could not parse complexity expression: '" ++ original ++ "'" ++ newline
                 ++ "Preprocessed to: '" ++ processed ++ "'" ++ newline
                 ++ "Errors: " ++ "Sympify: " ++ exn_msg e1 ++ "; "
                 ++ "Parse_expr: " ++ exn_msg e2 ++ "; "
                 ++ "Basic: " ++ exn_msg e3))
          end
      end
  end.

(** [parse_complexity]; a value that is not a string has no [strip]. *)
Definition parse_complexity (expr_str : pyval) : result Expr :=
  match expr_str with
  | VStr s => parse s
  | _ => Raise (AttributeError "object has no attribute 'strip'")
  end.

(** ** Classification ([extract_complexity]) *)

(** The table [candidates] of [extract_complexity], in the order of the
    source. *)
Definition candidates (n : Expr) : list (Expr * string) :=
  [ (Integer 1, "O(1)");
    (log n, "O(log(n))");
    (Pow (log n) (Integer 2), "O(log^2(n))");
    (sqrt n, "O(sqrt(n))");
    (n, "O(n)");
    (Mul n (log n), "O(n*log(n))");
    (Mul n (Pow (log n) (Integer 2)), "O(n*log^2(n))");
    (Pow n (Rational (3#2)), "O(n^(3/2))");
    (Pow n (Integer 2), "O(n^2)");
    (Mul (Pow n (Integer 2)) (log n), "O(n^2*log(n))");
    (Pow n (Integer 3), "O(n^3)");
    (Pow n (Integer 4), "O(n^4)");
    (Pow (Rational (3#2)) n, "O(1.5^n)");
    (Div (Add (Integer 1) (sqrt (Integer 5))) (Integer 2), "O(phi^n)");
    (Pow (Integer 2) n, "O(2^n)");
    (factorial n, "O(n!)") ].

(** [lim.is_number and lim.is_positive and lim.is_finite] *)
Definition positive_finite (lim : Expr) : bool :=
  andb (andb (is_number E lim) (is_positive E lim)) (is_finite E lim).

(** One turn of the loop over the candidates: [Some label] when the turn
    returns the label, [None] when it goes on to the next candidate. *)
Definition try_candidate (expr n : Expr) (c : Expr * string) : result (option string) :=
  try_except
    (ratio <- simplify E (Div expr (fst c)) ;;
     lim <- limit E ratio n oo ;;
     if positive_finite lim then Ok (Some (snd c))
     else if expr_eqb lim (Integer 0) then Ok None
     else if expr_in lim [oo; zoo] then Ok None
     else Ok None)
    (fun _ => Ok None).

Fixpoint scan_candidates (expr n : Expr) (cs : list (Expr * string)) : result (option string) :=
  match cs with
  | [] => Ok None
  | c :: cs' =>
      r <- try_candidate expr n c ;;
      match r with
      | Some label => Ok (Some label)
      | None => scan_candidates expr n cs'
      end
  end.

Definition extract_degree_via_limit (expr n : Expr) : result (option pyfloat) :=
  try_except
    (log_ratio <- simplify E (Div (log (Abs expr)) (log n)) ;;
     degree_limit <- limit E log_ratio n oo ;;
     if andb (is_number E degree_limit) (is_finite E degree_limit)
     then d <- float_of E degree_limit ;; Ok (Some d)
     else Ok None)
    (fun _ => Ok None).

(** The label for a degree: [O(n^k)] for a whole degree, two decimals
    otherwise. *)
Definition degree_label (degree : pyfloat) : result string :=
  k <- int_of_float degree ;;
  if float_eq_int degree k
  then Ok ("O(n^" ++ string_of_Z k ++ ")")
  else Ok ("O(n^" ++ format_float E 2 degree ++ ")").

(** The last resort inside the outer [try]: the leading term, or the
    expression itself when [LT] raises. *)
Definition leading_term_label (expr n : Expr) : result string :=
  try_except
    (leading <- LT E expr n ;; Ok ("O(" ++ str E leading ++ ")"))
    (fun _ => Ok ("O(" ++ str E expr ++ ")")).

Definition extract_complexity (expr n : Expr) : result string :=
  try_except
    (const <- is_constant E expr ;;
     if const then Ok "O(1)"
     else
       found <- scan_candidates expr n (candidates n) ;;
       match found with
       | Some label => Ok label
       | None =>
           degree <- extract_degree_via_limit expr n ;;
           match degree with
           | Some d => degree_label d
           | None => leading_term_label expr n
           end
       end)
    (fun _ => Ok "O(?)").

(** ** Comparison *)

Definition compare_asymptotic (f g n : Expr) : result string :=
  try_except
    (ratio <- simplify E (Div f g) ;;
     lim <- limit E ratio n oo ;;
     if expr_eqb lim (Integer 0) then Ok "f < g"
     else if expr_in lim [oo; zoo; neg_oo] then Ok "f > g"
     else if positive_finite lim then Ok "f ~ g"
     else
       inv_ratio <- simplify E (Div g f) ;;
       inv_lim <- limit E inv_ratio n oo ;;
       if expr_eqb inv_lim (Integer 0) then Ok "f > g"
       else if expr_in inv_lim [oo; zoo] then Ok "f < g"
       else Ok "?")
    (fun _ => Ok "?").

Definition verify_big_o (f g n : Expr) : result (bool * option pyfloat) :=
  try_except
    (ratio <- simplify E (Div f g) ;;
     lim <- limit E ratio n oo ;;
     if andb (andb (is_number E lim) (is_finite E lim)) (is_nonnegative E lim)
     then
       if negb (expr_eqb lim (Integer 0))
       then c <- float_of E lim ;; Ok (true, Some c)
       else Ok (true, Some (FFin 0))
     else if expr_eqb lim (Integer 0) then Ok (true, Some (FFin 0))
     else Ok (false, None))
    (fun _ => Ok (false, None)).

Definition verify_big_omega (f g n : Expr) : result (bool * option pyfloat) :=
  try_except
    (ratio <- simplify E (Div f g) ;;
     lim <- limit E ratio n oo ;;
     if expr_in lim [oo; zoo] then Ok (true, Some FInf)
     else if andb (is_number E lim) (is_positive E lim)
     then c <- float_of E lim ;; Ok (true, Some c)
     else Ok (false, None))
    (fun _ => Ok (false, None)).

Definition verify_big_theta (f g n : Expr) : result (bool * option (pyfloat * pyfloat)) :=
  try_except
    (ratio <- simplify E (Div f g) ;;
     lim <- limit E ratio n oo ;;
     if positive_finite lim
     then c <- float_of E lim ;; Ok (true, Some (fscale c (1#2), fscale c 2))
     else Ok (false, None))
    (fun _ => Ok (false, None)).

(** ** Helpers of the divide-and-conquer analysis *)

(** The degrees [get_polynomial_degree] tries: ints and floats as written
    in the source. *)
Definition degree_table : list pyval :=
  [ VInt 0; VFloat (FFin (1#2)); VInt 1; VFloat (FFin (3#2)); VInt 2;
    VFloat (FFin (5#2)); VInt 3; VInt 4; VInt 5 ].

(** [n**d] *)
Definition pow_num (n : Expr) (d : pyval) : Expr :=
  match d with
  | VInt z => Pow n (Integer z)
  | VFloat f => Pow n (expr_of_float f)
  | _ => nan
  end.

Fixpoint scan_degrees (expr n : Expr) (ds : list pyval) : result (option pyval) :=
  match ds with
  | [] => Ok None
  | d :: ds' =>
      ratio <- limit E (Div expr (pow_num n d)) n oo ;;
      if negb (expr_in ratio [Integer 0; oo; neg_oo; zoo; nan])
      then
        const <- is_constant E ratio ;;
        if const then Ok (Some d) else scan_degrees expr n ds'
      else scan_degrees expr n ds'
  end.

Definition get_polynomial_degree (expr n : Expr) : result (option pyval) :=
  try_except
    (poly <- is_polynomial E expr n ;;
     if poly
     then d <- poly_degree E expr n ;; Ok (Some (VFloat d))
     else scan_degrees expr n degree_table)
    (fun _ => Ok None).

(** [re.search(r"log\(n\)\*\*(\d+)", s)]: the leftmost place where the
    text [log(n)**] is followed by a digit, and the number read there. *)
Fixpoint search_log_power (s : string) : option Z :=
  let here :=
    match strip_prefix "log(n)**" s with
    | Some rest =>
        match take_digits rest 0 0 with
        | (_, O) => None
        | (v, S _) => Some v
        end
    | None => None
    end in
  match here with
  | Some v => Some v
  | None =>
      match s with
      | EmptyString => None
      | String _ s' => search_log_power s'
      end
  end.

Definition get_log_power (expr n : Expr) : result Z :=
  try_except
    (if negb (has_log expr) then Ok 0
     else
       let expr_str := str E expr in
       let found :=
         if contains "log(n)**" expr_str then search_log_power expr_str else None in
       match found with
       | Some k => Ok k
       | None => if contains "log(n)" expr_str then Ok 1 else Ok 0
       end)
    (fun _ => Ok 0).

(** ** Numeric check of a closed form *)

(** [range(a, b)] *)
Definition range (a b : Z) : list Z :=
  map (fun k => a + Z.of_nat k) (seq 0 (Z.to_nat (b - a))).

(** The inner loop: [T(n - offset)] is replaced by the closed form at
    [test_n - offset], for the offsets in turn. *)
Fixpoint substitute_offsets (solution n check : Expr) (test_n : Z) (offsets : list Z)
  : result Expr :=
  match offsets with
  | [] => Ok check
  | offset :: rest =>
      t_val <- subs E solution n (Integer (test_n - offset)) ;;
      check' <- subs E check (T_app (sub_int n offset)) t_val ;;
      substitute_offsets solution n check' test_n rest
  end.

(** The residual of the recurrence at one trial index, simplified. *)
Definition residual (solution n recurrence_eq : Expr) (order test_n : Z) : result Expr :=
  check <- substitute_offsets solution n recurrence_eq test_n (range 0 (order + 1)) ;;
  check <- subs E check n (Integer test_n) ;;
  simplify E check.

(** The literal [1e-10]: the binary64 value nearest to it,
    [7737125245533627 / 2^86]. *)
Definition tolerance : pyfloat := FFin (7737125245533627 # 77371252455336267181195264).

(** One turn of the outer loop: [false] when the turn returns [False]. *)
Definition trial_passes (solution n recurrence_eq : Expr) (order test_n : Z) : result bool :=
  r <- residual solution n recurrence_eq order test_n ;;
  if negb (expr_eqb r (Integer 0))
  then
    result_float <- abs_complex_N E r ;;
    if flt tolerance result_float then Ok false else Ok true
  else Ok true.

Fixpoint all_trials_pass (solution n recurrence_eq : Expr) (order : Z) (trials : list Z)
  : result bool :=
  match trials with
  | [] => Ok true
  | test_n :: rest =>
      ok <- trial_passes solution n recurrence_eq order test_n ;;
      if ok then all_trials_pass solution n recurrence_eq order rest else Ok false
  end.

(** The trial indices, [range(order + 1, order + 10)] with
    [order = len(init_conds)]. *)
Definition trial_indices (init_conds : list (Z * Expr)) : list Z :=
  let order := Z.of_nat (List.length init_conds) in
  range (order + 1) (order + 10).

Definition verify_solution_numerically
  (solution n recurrence_eq : Expr) (init_conds : list (Z * Expr)) : result bool :=
  try_except
    (let order := Z.of_nat (List.length init_conds) in
     all_trials_pass solution n recurrence_eq order (trial_indices init_conds))
    (fun _ => Ok false).

(** ** The four request handlers *)

(** [d[k] = v] for the initial conditions [{T(k): v}], keyed by [k]. *)
Fixpoint init_set (d : list (Z * Expr)) (k : Z) (v : Expr) : list (Z * Expr) :=
  match d with
  | [] => [(k, v)]
  | (k', v') :: d' => if k =? k' then (k', v) :: d' else (k', v') :: init_set d' k v
  end.

(** [for k, v in base_cases.items(): init_conds[T(int(k))] = sympify(v)];
    the right-hand side is evaluated before the key. *)
Fixpoint build_init_conds (items : pydict) (init_conds : list (Z * Expr))
  : result (list (Z * Expr)) :=
  match items with
  | [] => Ok init_conds
  | (k, v) :: rest =>
      value <- sympify E v ;;
      index <- int_of_key k ;;
      build_init_conds rest (init_set init_conds index value)
  end.

(** [for i, c in enumerate(coeffs): recurrence_eq -= c * T(n - 1 - i)] *)
Fixpoint subtract_terms (n recurrence_eq : Expr) (i : Z) (coeffs : list pyval) : result Expr :=
  match coeffs with
  | [] => Ok recurrence_eq
  | c :: rest =>
      term <- py_mul c (T_app (sub_int n (1 + i))) ;;
      subtract_terms n (Sub recurrence_eq term) (i + 1) rest
  end.

(** [parse_complexity(f_n_str).subs(complexity_n, n)] *)
Definition driving_term (f_n_str : pyval) (n : Expr) : result Expr :=
  parsed <- parse_complexity f_n_str ;; subs E parsed complexity_n n.

(** The driving term is an arithmetic expression, as every [Expr] is, and
    [T(n) - f_n] is formed without an error; a text that the parser reads
    as a truth value or a relation has no [Expr]. *)
Definition solve_linear_recurrence (data : pydict) : result pydict :=
  let n := Symbol "n" PositiveInteger in
  let coeffs := dict_get data "coeffs" (VList [VInt 1]) in
  let base_cases := dict_get data "base" (VDict [(KStr "0", VInt 0)]) in
  let f_n_str := dict_get data "f_n" (VStr "0") in
  match driving_term f_n_str n with
  | Raise e => Ok (failure ("Invalid f(n): " ++ exn_msg e))
  | Ok f_n =>
      coeff_list <- py_iter coeffs ;;
      recurrence_eq <- subtract_terms n (Sub (T_app n) f_n) 0 coeff_list ;;
      items <- py_items base_cases ;;
      init_conds <- build_init_conds items [] ;;
      try_except
        (solved <- rsolve E recurrence_eq (T_app n) init_conds ;;
         match solved with
         | None =>
             Ok (failure "rsolve returned None - recurrence may be unsolvable")
         | Some solution =>
             solution <- simplify E solution ;;
             complexity <- extract_complexity solution n ;;
             verified <- verify_solution_numerically solution n recurrence_eq init_conds ;;
             Ok (response
                   [ ("success", VBool true);
                     ("closed_form", VStr (str E solution));
                     ("complexity", VStr complexity);
                     ("latex", VStr (latex E solution));
                     ("verified", VBool verified);
                     ("error", VNone) ])
         end)
        (fun e => Ok (failure (exn_msg e)))
  end.

(** The literal [0.01]: the binary64 value nearest to it,
    [5764607523034235 / 2^59]. *)
Definition epsilon_value : Q := 5764607523034235 # 576460752303423488.
Definition epsilon : pyfloat := FFin epsilon_value.

Definition solve_divide_conquer (data : pydict) : result pydict :=
  let n := Symbol "n" PositiveReal in
  let a := dict_get data "a" (VInt 2) in
  let b := dict_get data "b" (VInt 2) in
  let f_n_str := dict_get data "f_n" (VStr "n") in
  match driving_term f_n_str n with
  | Raise e => Ok (failure ("Invalid f(n): " ++ exn_msg e))
  | Ok f_n =>
      critical_exp <- sym_log E a b ;;
      critical_exp_float <- evalf_float E critical_exp ;;
      f_degree <- get_polynomial_degree f_n n ;;
      try_except
        (match f_degree with
         | Some degree =>
             let d := float_of_num degree in
             ' (complexity, case) <-
               (if flt d (fsub critical_exp_float epsilon)
                then Ok ("O(n^" ++ str E critical_exp ++ ")", 1)
                else if flt (fabs (fsub d critical_exp_float)) epsilon
                then
                  log_power <- get_log_power f_n n ;;
                  if log_power =? 0
                  then Ok ("O(n^" ++ str E critical_exp ++ " * log(n))", 2)
                  else Ok ("O(n^" ++ str E critical_exp ++ " * log(n)^"
                           ++ string_of_Z (log_power + 1) ++ ")", 2)
                else Ok ("O(" ++ str E f_n ++ ")", 3)) ;;
             Ok (response
                   [ ("success", VBool true);
                     ("closed_form", VNone);
                     ("complexity", VStr complexity);
                     ("master_theorem_case", VInt case);
                     ("critical_exponent", VStr (str E critical_exp));
                     ("f_degree", degree);
                     ("verified", VBool true);
                     ("error", VNone) ])
         | None =>
             let p := critical_exp_float in
             let complexity := "O(n^" ++ format_float E 4 p ++ ")" in
             Ok (response
                   [ ("success", VBool true);
                     ("closed_form", VNone);
                     ("complexity", VStr complexity);
                     ("method", VStr "akra_bazzi");
                     ("critical_exponent", VStr (str E critical_exp));
                     ("verified", VBool false);
                     ("error", VNone) ])
         end)
        (fun e => Ok (failure (exn_msg e)))
  end.

(** The loop over the base cases of [verify_recurrence]: the flag
    [base_ok] and the per-index report [base_results]. *)
Fixpoint check_base_cases (solution n : Expr) (init_conds : list (Z * Expr))
  (base_ok : bool) (base_results : pydict) : result (bool * pydict) :=
  match init_conds with
  | [] => Ok (base_ok, base_results)
  | (idx, expected) :: rest =>
      actual <- subs E solution n (Integer idx) ;;
      diff <- simplify E (Sub actual expected) ;;
      let is_match := expr_eqb diff (Integer 0) in
      let base_results :=
        dict_set base_results (KInt idx)
          (VDict (response [ ("expected", VStr (str E expected));
                             ("actual", VStr (str E actual));
                             ("match", VBool is_match) ])) in
      check_base_cases solution n rest (if negb is_match then false else base_ok) base_results
  end.

Definition verify_recurrence (data : pydict) : result pydict :=
  let n := Symbol "n" PositiveInteger in
  let recurrence_str := dict_get data "recurrence" (VStr "") in
  let solution_str := dict_get data "solution" (VStr "") in
  let base_cases := dict_get data "base" (VDict []) in
  try_except
    (parsed <- parse_complexity solution_str ;;
     solution <- subs E parsed complexity_n n ;;
     items <- py_items base_cases ;;
     init_conds <- build_init_conds items [] ;;
     ' (base_ok, base_results) <- check_base_cases solution n init_conds true [] ;;
     complexity <- extract_complexity solution n ;;
     Ok (response
           [ ("success", VBool true);
             ("verified_base_cases", VBool base_ok);
             ("base_case_details", VDict base_results);
             ("complexity", VStr complexity);
             ("error", VNone) ]))
    (fun e => Ok (failure (exn_msg e))).

Definition is_str (v : pyval) (s : string) : bool :=
  match v with
  | VStr t => String.eqb t s
  | _ => false
  end.

Definition opt_float (c : option pyfloat) : pyval :=
  match c with Some f => VFloat f | None => VNone end.

Definition opt_float_pair (c : option (pyfloat * pyfloat)) : pyval :=
  match c with Some (x, y) => VTuple [VFloat x; VFloat y] | None => VNone end.

Definition compare_complexities (data : pydict) : result pydict :=
  let n := Symbol "n" PositiveInteger in
  let f_str := dict_get data "f" (VStr "n") in
  let g_str := dict_get data "g" (VStr "n") in
  let bound_type := dict_get data "bound_type" (VStr "Theta") in
  try_except
    (pf <- parse_complexity f_str ;;
     f <- subs E pf complexity_n n ;;
     pg <- parse_complexity g_str ;;
     g <- subs E pg complexity_n n ;;
     comparison <- compare_asymptotic f g n ;;
     if is_str bound_type "O" then
       ' (holds, constant) <- verify_big_o f g n ;;
       lim <- limit E (Div f g) n oo ;;
       Ok (response
             [ ("success", VBool true); ("bound_type", VStr "O");
               ("holds", VBool holds); ("constant", opt_float constant);
               ("comparison", VStr comparison); ("limit_ratio", VStr (str E lim)) ])
     else if is_str bound_type "Omega" then
       ' (holds, constant) <- verify_big_omega f g n ;;
       lim <- limit E (Div f g) n oo ;;
       Ok (response
             [ ("success", VBool true); ("bound_type", VStr "Omega");
               ("holds", VBool holds); ("constant", opt_float constant);
               ("comparison", VStr comparison); ("limit_ratio", VStr (str E lim)) ])
     else
       ' (holds, constants) <- verify_big_theta f g n ;;
       lim <- limit E (Div f g) n oo ;;
       Ok (response
             [ ("success", VBool true); ("bound_type", VStr "Theta");
               ("holds", VBool holds); ("constants", opt_float_pair constants);
               ("comparison", VStr comparison); ("limit_ratio", VStr (str E lim)) ]))
    (fun e => Ok (failure (exn_msg e))).

(** ** The entry point *)

(** What [json.loads(sys.stdin.read())] gives: a decoding error with its
    message, or the decoded value. *)
Inductive stdin_json : Type :=
| BadJson (msg : string)
| Json (v : pyval).

(** How a run of [main] ends: a response printed (and the exit status), or
    an exception that leaves [main]. *)
Inductive outcome : Type :=
| Printed (r : pydict) (exit_status : Z)
| Uncaught (e : exn).

(** [input_data.get(k, default)]; only a [dict] has [get]. *)
Definition py_get (v : pyval) (k : string) (default : pyval) : result pyval :=
  match v with
  | VDict d => Ok (dict_get d k default)
  | _ => Raise (AttributeError "object has no attribute 'get'")
  end.

Definition as_dict (v : pyval) : pydict :=
  match v with
  | VDict d => d
  | _ => []
  end.

Definition dispatch (input_data : pyval) : result pydict :=
  request_type <- py_get input_data "type" (VStr "linear") ;;
  if is_str request_type "linear" then solve_linear_recurrence (as_dict input_data)
  else if is_str request_type "divide_conquer" then solve_divide_conquer (as_dict input_data)
  else if is_str request_type "verify" then verify_recurrence (as_dict input_data)
  else if is_str request_type "compare" then compare_complexities (as_dict input_data)
  else Ok (failure ("Unknown type: " ++ format_val E request_type)).

Definition main (stdin : stdin_json) : outcome :=
  match stdin with
  | BadJson msg => Printed (failure ("Invalid JSON: " ++ msg)) 1
  | Json input_data =>
      match dispatch input_data with
      | Ok r => Printed r 0
      | Raise e => Uncaught e
      end
  end.

End Solver.

(** ** A reference engine

    An executable instance of [Engine] on a fragment of the expressions:
    finite sums of terms [c * factorial(n)^k * r^n * n^a * log(n)^b] with
    [c] and [r] in the field of the rationals extended by the square root of
    five.  On this fragment limits at infinity are decided exactly, by the
    growth order of the terms.  Outside the fragment a call raises, as a
    call of the library may.  The concrete runs below are runs of the
    embedded code against this instance. *)
Module Reference.

Local Open Scope Q_scope.

(** [q5_rat + q5_irr * sqrt(5)] *)
Record Q5 : Type := mkQ5 { q5_rat : Q; q5_irr : Q }.

Definition q5 (a b : Q) : Q5 := mkQ5 (Qred a) (Qred b).
Definition q5_of_Q (a : Q) : Q5 := q5 a 0.
Definition q5_zero : Q5 := q5 0 0.
Definition q5_one : Q5 := q5 1 0.
Definition q5_add (x y : Q5) : Q5 := q5 (q5_rat x + q5_rat y) (q5_irr x + q5_irr y).
Definition q5_opp (x : Q5) : Q5 := q5 (- q5_rat x) (- q5_irr x).
Definition q5_sub (x y : Q5) : Q5 := q5_add x (q5_opp y).
Definition q5_mul (x y : Q5) : Q5 :=
  q5 (q5_rat x * q5_rat y + 5 * (q5_irr x * q5_irr y))
     (q5_rat x * q5_irr y + q5_irr x * q5_rat y).
Definition q5_inv (x : Q5) : Q5 :=
  let nrm := q5_rat x * q5_rat x - 5 * (q5_irr x * q5_irr x) in
  q5 (q5_rat x / nrm) (- q5_irr x / nrm).
Definition q5_div (x y : Q5) : Q5 := q5_mul x (q5_inv y).

Definition Qsgn (a : Q) : Z := Z.sgn (Qnum a).

(** The sign of [a + b * sqrt(5)]: when the two parts pull in opposite
    directions, the larger of [a^2] and [5 * b^2] decides. *)
Definition q5_sgn (x : Q5) : Z :=
  let a := q5_rat x in
  let b := q5_irr x in
  if (Qsgn b =? 0)%Z then Qsgn a
  else if (Qsgn a =? 0)%Z then Qsgn b
  else if (Qsgn a =? Qsgn b)%Z then Qsgn a
  else if Qle_bool (5 * (b * b)) (a * a) then Qsgn a else Qsgn b.

Definition q5_is_zero (x : Q5) : bool := (q5_sgn x =? 0)%Z.
Definition q5_eqb (x y : Q5) : bool := q5_is_zero (q5_sub x y).
Definition q5_abs (x : Q5) : Q5 := if (q5_sgn x <? 0)%Z then q5_opp x else x.
Definition q5_cmp (x y : Q5) : comparison :=
  match q5_sgn (q5_sub x y) with
  | Z0 => Eq
  | Zpos _ => Gt
  | Zneg _ => Lt
  end.

Definition q5_pow (x : Q5) (z : Z) : Q5 :=
  match z with
  | Z0 => q5_one
  | Zpos p => Pos.iter_op q5_mul p x
  | Zneg p => q5_inv (Pos.iter_op q5_mul p x)
  end.

(** The square root of a non-negative rational, when it lies in the field. *)
Definition q5_sqrt (a : Q) : option Q5 :=
  let m := (Qnum a * Zpos (Qden a))%Z in
  let s := Z.sqrt m in
  if (m <? 0)%Z then None
  else if (s * s =? m)%Z then Some (q5 (s # Qden a) 0)
  else
    let m5 := (m / 5)%Z in
    let s5 := Z.sqrt m5 in
    if andb (m mod 5 =? 0)%Z (s5 * s5 =? m5)%Z then Some (q5 0 (s5 # Qden a)) else None.

Definition is_whole (a : Q) : option Z :=
  let r := Qred a in
  match Qden r with
  | xH => Some (Qnum r)
  | _ => None
  end.

(** A rational approximation of a field element, for [float]. *)
Definition q5_approx (x : Q5) : Q :=
  Qred (q5_rat x + q5_irr x * (2236067977499789696 # 1000000000000000000)).

(** The growth key [factorial(n)^k_fact * k_base^n * n^k_pow * log(n)^k_log]. *)
Record key : Type := mkKey { k_fact : Z; k_base : Q5; k_pow : Q; k_log : Q }.

Definition unit_key : key := mkKey 0 q5_one 0 0.
Definition key_n : key := mkKey 0 q5_one 1 0.
Definition key_log : key := mkKey 0 q5_one 0 1.
Definition key_fact : key := mkKey 1 q5_one 0 0.

Definition key_eqb (x y : key) : bool :=
  andb (andb (k_fact x =? k_fact y)%Z (q5_eqb (k_base x) (k_base y)))
       (andb (Qeq_bool (k_pow x) (k_pow y)) (Qeq_bool (k_log x) (k_log y))).

Definition key_mul (x y : key) : key :=
  mkKey (k_fact x + k_fact y) (q5_mul (k_base x) (k_base y))
        (Qred (k_pow x + k_pow y)) (Qred (k_log x + k_log y)).

Definition key_pow (x : key) (z : Z) : key :=
  mkKey (k_fact x * z) (q5_pow (k_base x) z)
        (Qred (k_pow x * inject_Z z)) (Qred (k_log x * inject_Z z)).

Definition lex (c d : comparison) : comparison :=
  match c with
  | Eq => d
  | _ => c
  end.

(** The growth order: factorial power, then the size of the base, then the
    power of [n], then the power of [log(n)]. *)
Definition key_cmp (x y : key) : comparison :=
  lex (k_fact x ?= k_fact y)%Z
    (lex (q5_cmp (q5_abs (k_base x)) (q5_abs (k_base y)))
       (lex (k_pow x ?= k_pow y) (k_log x ?= k_log y))).

Definition term : Type := (Q5 * key)%type.
Definition sum : Type := list term.

Fixpoint insert_term (t : term) (s : sum) : sum :=
  match s with
  | [] => [t]
  | u :: s' =>
      if key_eqb (snd t) (snd u) then (q5_add (fst t) (fst u), snd u) :: s'
      else u :: insert_term t s'
  end.

Definition normalise (s : sum) : sum :=
  filter (fun t => negb (q5_is_zero (fst t))) (fold_right insert_term [] s).

Definition sum_const (c : Q5) : sum := normalise [(c, unit_key)].
Definition sum_add (a b : sum) : sum := normalise (a ++ b)%list.
Definition term_mul (t u : term) : term := (q5_mul (fst t) (fst u), key_mul (snd t) (snd u)).
Definition sum_mul (a b : sum) : sum :=
  normalise (flat_map (fun t => map (term_mul t) b) a).

Fixpoint sum_pow_nat (a : sum) (k : nat) : sum :=
  match k with
  | O => sum_const q5_one
  | S k' => sum_mul a (sum_pow_nat a k')
  end.

Definition is_const_sum (s : sum) : option Q5 :=
  match s with
  | [] => Some q5_zero
  | [(c, k)] => if key_eqb k unit_key then Some c else None
  | _ => None
  end.

Definition is_rational (c : Q5) : option Q :=
  if (Qsgn (q5_irr c) =? 0)%Z then Some (q5_rat c) else None.

Definition sum_pow (a b : sum) : option sum :=
  match b with
  | [] => Some (sum_const q5_one)
  | [(e, k)] =>
      if key_eqb k unit_key then
        match is_rational e with
        | None => None
        | Some q =>
            match is_whole q, a with
            | Some z, [(c, ka)] =>
                if andb (q5_is_zero c) (z <? 0)%Z then None
                else Some (normalise [(q5_pow c z, key_pow ka z)])
            | Some z, _ => if (z <? 0)%Z then None else Some (sum_pow_nat a (Z.to_nat z))
            | None, [(c, ka)] =>
                if key_eqb ka unit_key then
                  match is_rational c with
                  | Some r =>
                      if Qeq_bool q (1#2) then option_map sum_const (q5_sqrt r)
                      else if Qeq_bool q (-1#2)
                      then option_map (fun v => sum_const (q5_inv v)) (q5_sqrt r)
                      else None
                  | None => None
                  end
                else if andb (q5_eqb c q5_one)
                          (andb (k_fact ka =? 0)%Z (q5_eqb (k_base ka) q5_one))
                then Some [(q5_one, mkKey 0 q5_one (Qred (k_pow ka * q)) (Qred (k_log ka * q)))]
                else None
            | None, _ => None
            end
        end
      else if andb (key_eqb k key_n) (q5_eqb e q5_one) then
        match is_const_sum a with
        | Some c => if q5_is_zero c then None else Some [(q5_one, mkKey 0 c 0 0)]
        | None => None
        end
      else None
  | _ => None
  end.

Fixpoint fact_pos (k : nat) : Z :=
  match k with
  | O => 1%Z
  | S k' => (Z.of_nat k * fact_pos k')%Z
  end.

Definition lift2 (f : sum -> sum -> sum) (a b : option sum) : option sum :=
  match a, b with
  | Some x, Some y => Some (f x y)
  | _, _ => None
  end.

(** The normal form of an expression in the variable [x], when the
    expression lies in the fragment. *)
Fixpoint nf (x e : Expr) : option sum :=
  match e with
  | Integer z => Some (sum_const (q5_of_Q (inject_Z z)))
  | Rational q | Float q => Some (sum_const (q5_of_Q q))
  | Symbol _ _ => if expr_eqb e x then Some [(q5_one, key_n)] else None
  | Add a b => lift2 sum_add (nf x a) (nf x b)
  | Mul a b => lift2 sum_mul (nf x a) (nf x b)
  | Pow a b =>
      match nf x a, nf x b with
      | Some sa, Some sb => sum_pow sa sb
      | _, _ => None
      end
  | log a =>
      match nf x a with
      | Some [(c, k)] =>
          if negb (q5_eqb c q5_one) then None
          else if key_eqb k unit_key then Some []
          else if key_eqb k key_n then Some [(q5_one, key_log)]
          else None
      | _ => None
      end
  | Abs a =>
      match nf x a with
      | Some [] => Some []
      | Some [(c, k)] => if (0 <? q5_sgn (k_base k))%Z then Some [(q5_abs c, k)] else None
      | _ => None
      end
  | factorial a =>
      match nf x a with
      | Some [] => Some (sum_const q5_one)
      | Some [(c, k)] =>
          if andb (q5_eqb c q5_one) (key_eqb k key_n) then Some [(q5_one, key_fact)]
          else if key_eqb k unit_key then
            match is_rational c with
            | Some q =>
                match is_whole q with
                | Some z =>
                    if (0 <=? z)%Z
                    then Some (sum_const (q5_of_Q (inject_Z (fact_pos (Z.to_nat z)))))
                    else None
                | None => None
                end
            | None => None
            end
          else None
      | _ => None
      end
  | _ => None
  end.

(** The term that dominates a normal form, when a single term does. *)
Fixpoint dominant (s : sum) : option term :=
  match s with
  | [] => None
  | [t] => Some t
  | t :: s' =>
      match dominant s' with
      | None => None
      | Some u =>
          match key_cmp (snd t) (snd u) with
          | Gt => Some t
          | Lt => Some u
          | Eq => None
          end
      end
  end.

Inductive growth : Type := Decays | Levels | Grows.

Definition growth_of (k : key) : growth :=
  match key_cmp k unit_key with
  | Lt => Decays
  | Eq => Levels
  | Gt => Grows
  end.

Definition rat_expr (a : Q) : Expr :=
  match is_whole a with
  | Some z => Integer z
  | None => Rational (Qred a)
  end.

Definition q5_expr (c : Q5) : Expr :=
  if (Qsgn (q5_irr c) =? 0)%Z then rat_expr (q5_rat c)
  else if (Qsgn (q5_rat c) =? 0)%Z then Mul (rat_expr (q5_irr c)) (sqrt (Integer 5))
  else Add (rat_expr (q5_rat c)) (Mul (rat_expr (q5_irr c)) (sqrt (Integer 5))).

Definition NotImplementedError (m : string) : exn := Exn "NotImplementedError" m.

(** The limit at infinity of a normal form. *)
Definition limit_sum (s : sum) : result Expr :=
  match s with
  | [] => Ok (Integer 0)
  | _ =>
      match dominant s with
      | None => Raise (NotImplementedError "no dominant term")
      | Some (c, k) =>
          match growth_of k with
          | Decays => Ok (Integer 0)
          | Levels =>
              if (0 <? q5_sgn (k_base k))%Z then Ok (q5_expr c)
              else Raise (NotImplementedError "oscillating term")
          | Grows =>
              if (0 <? q5_sgn (k_base k))%Z
              then Ok (if (0 <? q5_sgn c)%Z then oo else neg_oo)
              else Raise (NotImplementedError "oscillating term")
          end
      end
  end.

(** [limit(log(Abs(e)) / log(n))]: the power of [n] in the dominant term,
    or an infinity when the term grows or decays faster than any power. *)
Definition limit_log_ratio (s : sum) : result Expr :=
  match dominant s with
  | None => Raise (NotImplementedError "no dominant term")
  | Some (c, k) =>
      match lex (k_fact k ?= 0)%Z (q5_cmp (q5_abs (k_base k)) q5_one) with
      | Gt => Ok oo
      | Lt => Ok neg_oo
      | Eq => Ok (rat_expr (k_pow k))
      end
  end.

Definition limit (e n target : Expr) : result Expr :=
  if negb (expr_eqb target oo) then Raise (NotImplementedError "limit point")
  else
    match e with
    | Mul (log (Abs a)) (Pow (log m) (Integer (-1))) =>
        if expr_eqb m n then
          match nf n a with
          | Some s => limit_log_ratio s
          | None => Raise (NotImplementedError "limit")
          end
        else Raise (NotImplementedError "limit")
    | _ =>
        match nf n e with
        | Some s => limit_sum s
        | None => Raise (NotImplementedError "limit")
        end
    end.

Definition var_n : Expr := Symbol "n" PositiveInteger.

(** The value of a constant expression. *)
Definition const_value (e : Expr) : option Q5 :=
  match nf var_n e with
  | Some s => is_const_sum s
  | None => None
  end.

Fixpoint has_symbol (e : Expr) : bool :=
  match e with
  | Symbol _ _ => true
  | Add a b | Mul a b | Pow a b => orb (has_symbol a) (has_symbol b)
  | log a | Abs a | factorial a | T_app a => has_symbol a
  | _ => false
  end.

Fixpoint has_T (e : Expr) : bool :=
  match e with
  | T_app _ => true
  | Add a b | Mul a b | Pow a b => orb (has_T a) (has_T b)
  | log a | Abs a | factorial a => has_T a
  | _ => false
  end.

Definition is_number (e : Expr) : bool := negb (orb (has_symbol e) (has_T e)).

Definition sign_is (p : Z -> bool) (e : Expr) : bool :=
  match e with
  | Symbol _ _ => false
  | _ =>
      match const_value e with
      | Some c => p (q5_sgn c)
      | None => false
      end
  end.

Definition is_positive : Expr -> bool := sign_is (fun s => (0 <? s)%Z).
Definition is_nonnegative : Expr -> bool := sign_is (fun s => (0 <=? s)%Z).
Definition is_finite : Expr -> bool := sign_is (fun _ => true).

Fixpoint has_float (e : Expr) : bool :=
  match e with
  | Float _ => true
  | Add a b | Mul a b => orb (has_float a) (has_float b)
  | _ => false
  end.

Definition finite_value (f : pyfloat) : option Q :=
  match f with
  | FFin q => Some q
  | _ => None
  end.

(** The value of a sum or product of numbers one of which is a [Float]:
    the library computes it in floating point, every operand and every
    result rounded to 53 bits. *)
Fixpoint float_value (e : Expr) : option Q :=
  match e with
  | Integer z => finite_value (double_round (inject_Z z))
  | Rational q | Float q => finite_value (double_round q)
  | Add a b =>
      match float_value a, float_value b with
      | Some x, Some y => finite_value (double_round (x + y))
      | _, _ => None
      end
  | Mul a b =>
      match float_value a, float_value b with
      | Some x, Some y => finite_value (double_round (x * y))
      | _, _ => None
      end
  | _ => None
  end.

(** A floating-point result; the zero [0.0] compares equal to [0] and is
    given as [0]. *)
Definition float_expr (v : Q) : Expr := if Qeq_bool v 0 then Integer 0 else Float v.

(** [simplify]: a constant is reduced to its value, and a normal form that
    cancels to nothing is zero; other expressions are returned as they are.
    A sum or product of numbers with a [Float] among them has its
    floating-point value. *)
Definition simplify (e : Expr) : result Expr :=
  match e with
  | Symbol _ _ => Ok e
  | _ =>
      if has_T e then Ok e
      else
        match (if has_float e then float_value e else None) with
        | Some v => Ok (float_expr v)
        | None =>
        match nf var_n e with
        | Some s =>
            match is_const_sum s with
            | Some c => Ok (q5_expr c)
            | None => Ok e
            end
        | None =>
            match nf (Symbol "n" PositiveReal) e with
            | Some [] => Ok (Integer 0)
            | _ => Ok e
            end
        end
        end
  end.

Fixpoint subs_expr (e old new : Expr) : Expr :=
  if expr_eqb e old then new
  else
    match e with
    | Add a b => Add (subs_expr a old new) (subs_expr b old new)
    | Mul a b => Mul (subs_expr a old new) (subs_expr b old new)
    | Pow a b => Pow (subs_expr a old new) (subs_expr b old new)
    | log a => log (subs_expr a old new)
    | Abs a => Abs (subs_expr a old new)
    | factorial a => factorial (subs_expr a old new)
    | T_app a => T_app (subs_expr a old new)
    | _ => e
    end.

(** [e.subs(old, new)]: the replacement, evaluated when the result is a
    constant of the fragment. *)
Definition subs (e old new : Expr) : result Expr :=
  let r := subs_expr e old new in
  match r with
  | Symbol _ _ => Ok r
  | _ =>
      match const_value r with
      | Some c => Ok (q5_expr c)
      | None => Ok r
      end
  end.

Definition is_constant (e : Expr) : result bool := Ok (negb (has_symbol e)).

Definition poly_key (k : key) : option Z :=
  if andb (andb (k_fact k =? 0)%Z (q5_eqb (k_base k) q5_one)) (Qeq_bool (k_log k) 0)
  then match is_whole (k_pow k) with
       | Some z => if (0 <=? z)%Z then Some z else None
       | None => None
       end
  else None.

Definition is_polynomial_sum (s : sum) : bool :=
  forallb (fun t => match poly_key (snd t) with Some _ => true | None => false end) s.

Definition is_polynomial (e n : Expr) : result bool :=
  match nf n e with
  | Some s => Ok (is_polynomial_sum s)
  | None => Ok false
  end.

Definition PolynomialError (m : string) : exn := Exn "PolynomialError" m.

Definition poly_degree (e n : Expr) : result pyfloat :=
  match nf n e with
  | Some [] => Ok FNegInf
  | Some s =>
      if is_polynomial_sum s then
        match dominant s with
        | Some (_, k) => Ok (FFin (k_pow k))
        | None => Raise (PolynomialError "degree")
        end
      else Raise (PolynomialError "not a polynomial")
  | None => Raise (PolynomialError "not a polynomial")
  end.

Definition LT (e n : Expr) : result Expr :=
  match nf n e with
  | Some s =>
      if is_polynomial_sum s then
        match dominant s with
        | Some (c, k) =>
            Ok (if key_eqb k unit_key then q5_expr c
                else Mul (q5_expr c) (Pow n (rat_expr (k_pow k))))
        | None => Raise (PolynomialError "zero polynomial")
        end
      else Raise (PolynomialError "not a polynomial")
  | None => Raise (PolynomialError "not a polynomial")
  end.

Definition float_of (e : Expr) : result pyfloat :=
  match e with
  | oo => Ok FInf
  | neg_oo => Ok FNegInf
  | nan => Ok FNan
  | _ =>
      match const_value e with
      | Some c => Ok (FFin (q5_approx c))
      | None => Raise (TypeError "Cannot convert expression to float")
      end
  end.

Definition abs_complex_N (e : Expr) : result pyfloat :=
  match const_value e with
  | Some c => Ok (FFin (Qabs (q5_approx c)))
  | None => Raise (TypeError "Cannot convert expression to complex")
  end.

(** *** Solving recurrences

    Homogeneous linear recurrences of order one or two with constant
    coefficients, by the roots of the characteristic polynomial. *)

(** [j] when [a] is [n - j] *)
Definition shift_of (n a : Expr) : option Z :=
  if expr_eqb a n then Some 0%Z
  else
    match a with
    | Add m (Integer z) => if expr_eqb m n then Some (- z)%Z else None
    | _ => None
    end.

Definition linear_form : Type := (list (Z * Q5) * sum)%type.

Definition lin_add (x y : linear_form) : linear_form :=
  ((fst x ++ fst y)%list, sum_add (snd x) (snd y)).

Definition lin_scale (c : Q5) (x : linear_form) : linear_form :=
  (map (fun jc => (fst jc, q5_mul c (snd jc))) (fst x), sum_mul (sum_const c) (snd x)).

(** The coefficients of the [T(n - j)] in an expression that is linear in
    them, and the part free of [T]. *)
Fixpoint lin_T (n e : Expr) : option linear_form :=
  match e with
  | T_app a =>
      match shift_of n a with
      | Some j => Some ([(j, q5_one)], [])
      | None => None
      end
  | Add a b =>
      match lin_T n a, lin_T n b with
      | Some x, Some y => Some (lin_add x y)
      | _, _ => None
      end
  | Mul a b =>
      if has_T a then
        if has_T b then None
        else
          match const_value b, lin_T n a with
          | Some c, Some x => Some (lin_scale c x)
          | _, _ => None
          end
      else if has_T b then
        match const_value a, lin_T n b with
        | Some c, Some x => Some (lin_scale c x)
        | _, _ => None
        end
      else option_map (fun s => ([], s)) (nf n e)
  | _ => if has_T e then None else option_map (fun s => ([], s)) (nf n e)
  end.

Definition coef_at (cs : list (Z * Q5)) (j : Z) : Q5 :=
  fold_right (fun jc acc => if (fst jc =? j)%Z then q5_add (snd jc) acc else acc) q5_zero cs.

Fixpoint init_value (init : list (Z * Expr)) (k : Z) : option Q5 :=
  match init with
  | [] => None
  | (k', v) :: rest => if (k =? k')%Z then const_value v else init_value rest k
  end.

(** A closed form as its value at an index, and as an expression. *)
Record closed : Type := mkClosed { closed_at : Z -> Q5; closed_expr : Expr -> Expr }.

Definition geometric (c r : Q5) : closed :=
  mkClosed (fun k => q5_mul c (q5_pow r k))
           (fun n => if q5_eqb c q5_one then Pow (q5_expr r) n
                     else Mul (q5_expr c) (Pow (q5_expr r) n)).

Definition two_roots (a r1 b r2 : Q5) : closed :=
  mkClosed (fun k => q5_add (q5_mul a (q5_pow r1 k)) (q5_mul b (q5_pow r2 k)))
           (fun n => Add (Mul (q5_expr a) (Pow (q5_expr r1) n))
                         (Mul (q5_expr b) (Pow (q5_expr r2) n))).

Definition double_root (a b r : Q5) : closed :=
  mkClosed (fun k => q5_mul (q5_add a (q5_mul b (q5_of_Q (inject_Z k)))) (q5_pow r k))
           (fun n => Mul (Add (q5_expr a) (Mul (q5_expr b) n)) (Pow (q5_expr r) n)).

Definition consistent (c : closed) (init : list (Z * Expr)) : bool :=
  forallb (fun kv => match const_value (snd kv) with
                     | Some v => q5_eqb (closed_at c (fst kv)) v
                     | None => false
                     end) init.

Definition solve_order_one (r : Q5) (init : list (Z * Expr)) : result (option closed) :=
  match init with
  | [] => Raise (NotImplementedError "free constants")
  | (k, v) :: _ =>
      match const_value v with
      | None => Raise (NotImplementedError "symbolic initial condition")
      | Some t => Ok (Some (geometric (q5_div t (q5_pow r k)) r))
      end
  end.

Definition solve_order_two (c1 c2 : Q5) (init : list (Z * Expr)) : result (option closed) :=
  match is_rational c1, is_rational c2, init_value init 0, init_value init 1 with
  | Some p, Some q, Some t0, Some t1 =>
      match q5_sqrt (p * p + 4 * q) with
      | None => Raise (NotImplementedError "roots outside the field")
      | Some d =>
          let r1 := q5_div (q5_add (q5_of_Q p) d) (q5_of_Q 2) in
          let r2 := q5_div (q5_sub (q5_of_Q p) d) (q5_of_Q 2) in
          if q5_is_zero d
          then Ok (Some (double_root t0 (q5_sub (q5_div t1 r1) t0) r1))
          else
            let b := q5_div (q5_sub t1 (q5_mul t0 r1)) (q5_sub r2 r1) in
            Ok (Some (two_roots (q5_sub t0 b) r1 b r2))
      end
  | _, _, _, _ => Raise (NotImplementedError "initial conditions")
  end.

Definition rsolve (eq fn : Expr) (init : list (Z * Expr)) : result (option Expr) :=
  match fn with
  | T_app n =>
      match lin_T n eq with
      | None => Raise (NotImplementedError "not a linear recurrence")
      | Some (cs, rest) =>
          let lead := coef_at cs 0 in
          let c1 := q5_opp (q5_div (coef_at cs 1) lead) in
          let c2 := q5_opp (q5_div (coef_at cs 2) lead) in
          if orb (negb (forallb (fun jc => andb (0 <=? fst jc)%Z (fst jc <=? 2)%Z) cs))
                 (orb (q5_is_zero lead) (negb (match rest with [] => true | _ => false end)))
          then Raise (NotImplementedError "recurrence outside the fragment")
          else
            match (if q5_is_zero c2
                   then (if q5_is_zero c1
                         then Raise (NotImplementedError "order zero")
                         else solve_order_one c1 init)
                   else solve_order_two c1 c2 init) with
            | Raise e => Raise e
            | Ok None => Ok None
            | Ok (Some c) => if consistent c init then Ok (Some (closed_expr c n)) else Ok None
            end
      end
  | _ => Raise (NotImplementedError "rsolve")
  end.

(** *** Numbers of the request *)

Fixpoint find_power (b a : Z) (k : Z) (fuel : nat) : option Z :=
  match fuel with
  | O => None
  | S fuel' =>
      if (b ^ k =? a)%Z then Some k
      else if (a <? b ^ k)%Z then None
      else find_power b a (k + 1)%Z fuel'
  end.

(** [log(a, b)]: a whole number when [a] is a power of [b], the quotient of
    the two logarithms otherwise. *)
Definition sym_log (a b : pyval) : result Expr :=
  match a, b with
  | VInt x, VInt y =>
      if (y =? 1)%Z then Ok (if (x =? 1)%Z then nan else zoo)
      else if orb (x <=? 0)%Z (y <=? 0)%Z then Ok zoo
      else
        match find_power y x 0 64 with
        | Some k => Ok (Integer k)
        | None => Ok (Div (log (Integer x)) (log (Integer y)))
        end
  | _, _ => Raise (TypeError "log of a value that is not a number")
  end.

(** *** Printing *)

Definition is_atom (e : Expr) : bool :=
  match e with
  | Integer z => (0 <=? z)%Z
  | Symbol _ _ | log _ | Abs _ | factorial _ | T_app _ | oo | zoo | nan => true
  | Pow _ (Rational q) => Qeq_bool q (1#2)
  | _ => false
  end.

Definition parens (s : string) : string := "(" ++ s ++ ")".

Definition show_Q (q : Q) : string :=
  string_of_Z (Qnum q) ++ "/" ++ string_of_Z (Zpos (Qden q)).

Fixpoint show (e : Expr) : string :=
  let atom (a : Expr) (s : string) := if is_atom a then s else parens s in
  let factor (a : Expr) (s : string) :=
    match a with
    | Add _ _ => parens s
    | Integer z => if (z <? 0)%Z then parens s else s
    | _ => s
    end in
  match e with
  | Integer z => string_of_Z z
  | Rational q => show_Q q
  | Float q => "Float(" ++ show_Q q ++ ")"
  | Symbol s _ => s
  | Add a b => show a ++ " + " ++ show b
  | Mul a b => factor a (show a) ++ "*" ++ factor b (show b)
  | Pow a b =>
      match b with
      | Rational q =>
          if Qeq_bool q (1#2) then "sqrt(" ++ show a ++ ")"
          else atom a (show a) ++ "**" ++ parens (show_Q q)
      | _ => atom a (show a) ++ "**" ++ atom b (show b)
      end
  | log a => "log(" ++ show a ++ ")"
  | Abs a => "Abs(" ++ show a ++ ")"
  | factorial a => "factorial(" ++ show a ++ ")"
  | T_app a => "T(" ++ show a ++ ")"
  | oo => "oo"
  | neg_oo => "-oo"
  | zoo => "zoo"
  | nan => "nan"
  end.

(** [s] padded with zeros on the left to [width] characters. *)
Definition pad_zeros (width : nat) (s : string) : string :=
  Nat.iter (width - String.length s) (fun t => "0" ++ t) s.

(** [f"{x:.kf}"], rounding the last digit half up. *)
Definition format_float (k : nat) (f : pyfloat) : string :=
  match f with
  | FInf => "inf"
  | FNegInf => "-inf"
  | FNan => "nan"
  | FFin q =>
      let scale := (10 ^ Z.of_nat k)%Z in
      let scaled := Qfloor (Qabs q * inject_Z scale + (1#2)) in
      (if (Qsgn q <? 0)%Z then "-" else "")
      ++ string_of_Z (scaled / scale)%Z ++ "."
      ++ pad_zeros k (string_of_Z (scaled mod scale)%Z)
  end.

Definition format_val (v : pyval) : string :=
  match v with
  | VNone => "None"
  | VBool true => "True"
  | VBool false => "False"
  | VInt z => string_of_Z z
  | VStr s => s
  | VFloat f => format_float 1 f
  | VList _ => "[...]"
  | VTuple _ => "(...)"
  | VDict _ => "{...}"
  end.

(** *** Reading expressions

    The grammar of sums, products, powers, unary minus, parentheses and
    calls of [log], [ln], [sqrt], [factorial] and [Abs] over whole numbers
    and names. *)

Inductive token : Type :=
| TNum (z : Z)
| TId (s : string)
| TPlus
| TMinus
| TStar
| TSlash
| TPow
| TOpen
| TClose.

Inductive pending : Type :=
| PNone
| PNum (z : Z)
| PId (reversed : string).

Definition flush (p : pending) (acc : list token) : list token :=
  match p with
  | PNone => acc
  | PNum z => TNum z :: acc
  | PId r => TId (rev_string r "") :: acc
  end.

Definition is_letter (c : ascii) : bool :=
  let k := nat_of_ascii c in
  orb (orb (andb (Nat.leb 65 k) (Nat.leb k 90)) (andb (Nat.leb 97 k) (Nat.leb k 122)))
      (Nat.eqb k 95).

(** The tokens of a string, last token first. *)
Fixpoint tokenize (s : string) (p : pending) (acc : list token) : option (list token) :=
  match s with
  | EmptyString => Some (flush p acc)
  | String "*" (String "*" s') => tokenize s' PNone (TPow :: flush p acc)
  | String c s' =>
      if is_digit c then
        match p with
        | PNone => tokenize s' (PNum (digit_val c)) acc
        | PNum z => tokenize s' (PNum (10 * z + digit_val c)%Z) acc
        | PId r => tokenize s' (PId (String c r)) acc
        end
      else if is_letter c then
        match p with
        | PNone => tokenize s' (PId (String c EmptyString)) acc
        | PId r => tokenize s' (PId (String c r)) acc
        | PNum _ => None
        end
      else if is_space c then tokenize s' PNone (flush p acc)
      else if Ascii.eqb c "+" then tokenize s' PNone (TPlus :: flush p acc)
      else if Ascii.eqb c "-" then tokenize s' PNone (TMinus :: flush p acc)
      else if Ascii.eqb c "*" then tokenize s' PNone (TStar :: flush p acc)
      else if Ascii.eqb c "/" then tokenize s' PNone (TSlash :: flush p acc)
      else if Ascii.eqb c "(" then tokenize s' PNone (TOpen :: flush p acc)
      else if Ascii.eqb c ")" then tokenize s' PNone (TClose :: flush p acc)
      else None
  end.

(** A name: the entries of the local dictionary, or a fresh symbol. *)
Definition name_expr (locals : bool) (s : string) : Expr :=
  if String.eqb s "n" then (if locals then complexity_n else Symbol "n" NoAssumption)
  else if String.eqb s "oo" then oo
  else if andb locals (String.eqb s "phi")
  then Div (Add (Integer 1) (sqrt (Integer 5))) (Integer 2)
  else Symbol s NoAssumption.

Definition call_expr (f : string) (a : Expr) : option Expr :=
  if orb (String.eqb f "log") (String.eqb f "ln") then Some (log a)
  else if String.eqb f "sqrt" then Some (sqrt a)
  else if String.eqb f "factorial" then Some (factorial a)
  else if orb (String.eqb f "Abs") (String.eqb f "abs") then Some (Abs a)
  else None.

Definition parsed : Type := option (Expr * list token).

Fixpoint p_sum (locals : bool) (fuel : nat) (ts : list token) : parsed :=
  match fuel with
  | O => None
  | S f =>
      match p_product locals f ts with
      | Some (e, rest) => p_sum_tail locals f e rest
      | None => None
      end
  end
with p_sum_tail (locals : bool) (fuel : nat) (e : Expr) (ts : list token) : parsed :=
  match fuel with
  | O => None
  | S f =>
      match ts with
      | TPlus :: r =>
          match p_product locals f r with
          | Some (e2, r2) => p_sum_tail locals f (Add e e2) r2
          | None => None
          end
      | TMinus :: r =>
          match p_product locals f r with
          | Some (e2, r2) => p_sum_tail locals f (Sub e e2) r2
          | None => None
          end
      | _ => Some (e, ts)
      end
  end
with p_product (locals : bool) (fuel : nat) (ts : list token) : parsed :=
  match fuel with
  | O => None
  | S f =>
      match p_unary locals f ts with
      | Some (e, rest) => p_product_tail locals f e rest
      | None => None
      end
  end
with p_product_tail (locals : bool) (fuel : nat) (e : Expr) (ts : list token) : parsed :=
  match fuel with
  | O => None
  | S f =>
      match ts with
      | TStar :: r =>
          match p_unary locals f r with
          | Some (e2, r2) => p_product_tail locals f (Mul e e2) r2
          | None => None
          end
      | TSlash :: r =>
          match p_unary locals f r with
          | Some (e2, r2) => p_product_tail locals f (Div e e2) r2
          | None => None
          end
      | _ => Some (e, ts)
      end
  end
with p_unary (locals : bool) (fuel : nat) (ts : list token) : parsed :=
  match fuel with
  | O => None
  | S f =>
      match ts with
      | TMinus :: r =>
          match p_unary locals f r with
          | Some (e, r2) => Some (Mul (Integer (-1)) e, r2)
          | None => None
          end
      | _ =>
          match p_atom locals f ts with
          | Some (e, TPow :: r) =>
              match p_unary locals f r with
              | Some (e2, r2) => Some (Pow e e2, r2)
              | None => None
              end
          | other => other
          end
      end
  end
with p_atom (locals : bool) (fuel : nat) (ts : list token) : parsed :=
  match fuel with
  | O => None
  | S f =>
      match ts with
      | TNum z :: r => Some (Integer z, r)
      | TId g :: TOpen :: r =>
          match p_sum locals f r with
          | Some (a, TClose :: r2) =>
              match call_expr g a with
              | Some e => Some (e, r2)
              | None => None
              end
          | _ => None
          end
      | TId g :: r => Some (name_expr locals g, r)
      | TOpen :: r =>
          match p_sum locals f r with
          | Some (e, TClose :: r2) => Some (e, r2)
          | _ => None
          end
      | _ => None
      end
  end.

Definition SympifyError (s : string) : exn :=
  Exn "SympifyError" ("Sympify of expression 'could not parse '" ++ s ++ "'' failed").

Definition read_expr (locals : bool) (s : string) : result Expr :=
  match tokenize s PNone [] with
  | None => Raise (SympifyError s)
  | Some reversed =>
      let ts := rev reversed in
      match p_sum locals (8 * List.length ts + 8) ts with
      | Some (e, []) => Ok e
      | _ => Raise (SympifyError s)
      end
  end.

Definition sympify (v : pyval) : result Expr :=
  match v with
  | VInt z => Ok (Integer z)
  | VFloat f => Ok (expr_of_float f)
  | VStr s => read_expr false s
  | _ => Raise (SympifyError "value")
  end.

End Reference.

Definition reference_engine : Engine :=
  {| re_sub := fun _ _ s => s;
     sympify_locals := Reference.read_expr true;
     parse_expr := Reference.read_expr true;
     sympify := Reference.sympify;
     simplify := Reference.simplify;
     limit := Reference.limit;
     rsolve := Reference.rsolve;
     subs := Reference.subs;
     LT := Reference.LT;
     is_constant := Reference.is_constant;
     is_polynomial := Reference.is_polynomial;
     poly_degree := Reference.poly_degree;
     is_number := Reference.is_number;
     is_positive := Reference.is_positive;
     is_finite := Reference.is_finite;
     is_nonnegative := Reference.is_nonnegative;
     sym_log := Reference.sym_log;
     evalf_float := Reference.float_of;
     float_of := Reference.float_of;
     abs_complex_N := Reference.abs_complex_N;
     str := Reference.show;
     latex := Reference.show;
     format_float := Reference.format_float;
     format_val := Reference.format_val |}.

Definition fib_request : pydict :=
  [ (KStr "type", VStr "linear");
    (KStr "coeffs", VList [VInt 1; VInt 1]);
    (KStr "base", VDict [(KStr "0", VInt 0); (KStr "1", VInt 1)]);
    (KStr "f_n", VStr "0") ].


(** ** Requests used in the concrete runs *)

Definition golden : Expr := Div (Add (Integer 1) (sqrt (Integer 5))) (Integer 2).

Definition merge_sort_request : pydict :=
  [ (KStr "type", VStr "divide_conquer");
    (KStr "a", VInt 2); (KStr "b", VInt 2); (KStr "f_n", VStr "n") ].

(** [d] with the entries of [defaults] whose key [d] lacks, added. *)
Fixpoint with_defaults (defaults : list (string * pyval)) (d : pydict) : pydict :=
  match defaults with
  | [] => d
  | (k, v) :: rest =>
      with_defaults rest
        (match dict_lookup (KStr k) d with
         | Some _ => d
         | None => (d ++ [(KStr k, v)])%list
         end)
  end.

Definition linear_defaults : list (string * pyval) :=
  [ ("coeffs", VList [VInt 1]);
    ("base", VDict [(KStr "0", VInt 0)]);
    ("f_n", VStr "0") ].

Definition divide_conquer_defaults : list (string * pyval) :=
  [ ("a", VInt 2); ("b", VInt 2); ("f_n", VStr "n") ].

(** ** Statements

    The requests of the concrete runs, the responses, and the predicates
    the theorems are stated with. *)

(** The base case [T(idx) = expected] holds of the candidate closed form:
    the difference of the substituted closed form and the declared value
    simplifies to zero, as expressions. *)
Definition base_case_holds (E : Engine) (solution n : Expr) (kv : Z * Expr) : Prop :=
  exists actual diff,
    subs E solution n (Integer (fst kv)) = Ok actual
    /\ simplify E (Sub actual (snd kv)) = Ok diff
    /\ expr_eqb diff (Integer 0) = true.

(** The base case is evaluated without an exception, and does not hold. *)
Definition base_case_fails (E : Engine) (solution n : Expr) (kv : Z * Expr) : Prop :=
  exists actual diff,
    subs E solution n (Integer (fst kv)) = Ok actual
    /\ simplify E (Sub actual (snd kv)) = Ok diff
    /\ expr_eqb diff (Integer 0) = false.

(** The response of the Master Theorem branch. *)
Definition master_response (E : Engine) (complexity : string) (case : Z)
  (critical_exp : Expr) (degree : pyval) : pydict :=
  response
    [ ("success", VBool true);
      ("closed_form", VNone);
      ("complexity", VStr complexity);
      ("master_theorem_case", VInt case);
      ("critical_exponent", VStr (str E critical_exp));
      ("f_degree", degree);
      ("verified", VBool true);
      ("error", VNone) ].

(** The response of the fallback branch. *)
Definition akra_bazzi_response (E : Engine) (p : pyfloat) (critical_exp : Expr) : pydict :=
  response
    [ ("success", VBool true);
      ("closed_form", VNone);
      ("complexity", VStr ("O(n^" ++ format_float E 4 p ++ ")"));
      ("method", VStr "akra_bazzi");
      ("critical_exponent", VStr (str E critical_exp));
      ("verified", VBool false);
      ("error", VNone) ].


Definition bad_base_key_request : pydict :=
  [ (KStr "type", VStr "linear"); (KStr "base", VDict [(KStr "x", VInt 0)]) ].

Definition bad_base_key_verify_request : pydict :=
  [ (KStr "type", VStr "verify"); (KStr "solution", VStr "n");
    (KStr "base", VDict [(KStr "x", VInt 0)]) ].

(** The ladder of growth functions: the table [candidates], with the
    power [golden^n] on the rung labelled [O(phi^n)]. *)
Definition ladder (n : Expr) : list (Expr * string) :=
  [ (Integer 1, "O(1)");
    (log n, "O(log(n))");
    (Pow (log n) (Integer 2), "O(log^2(n))");
    (sqrt n, "O(sqrt(n))");
    (n, "O(n)");
    (Mul n (log n), "O(n*log(n))");
    (Mul n (Pow (log n) (Integer 2)), "O(n*log^2(n))");
    (Pow n (Rational (3#2)), "O(n^(3/2))");
    (Pow n (Integer 2), "O(n^2)");
    (Mul (Pow n (Integer 2)) (log n), "O(n^2*log(n))");
    (Pow n (Integer 3), "O(n^3)");
    (Pow n (Integer 4), "O(n^4)");
    (Pow (Rational (3#2)) n, "O(1.5^n)");
    (Pow golden n, "O(phi^n)");
    (Pow (Integer 2) n, "O(2^n)");
    (factorial n, "O(n!)") ].

Definition rung (n : Expr) (j : nat) : Expr := fst (nth j (ladder n) (nan, "")).
Definition rung_label (n : Expr) (j : nat) : string := snd (nth j (ladder n) (nan, "")).
Definition candidate (n : Expr) (j : nat) : Expr := fst (nth j (candidates n) (nan, "")).

(** [limit(simplify(f / g), n, oo)], the quantity every test reads. *)
Definition ratio_limit (E : Engine) (n f g : Expr) : result Expr :=
  ratio <- simplify E (Div f g) ;; limit E ratio n oo.

(** What the theorem on the ladder asks of the library: the limits of the
    quotients of the rungs are the true ones, zero and infinity carry their
    flags, and the power [golden^n], which no entry of the table matches,
    has no finite degree and no leading term, and does not print as the
    body of a label below it. *)
Record ladder_contract (E : Engine) (n : Expr) : Prop := {
  zero_is_number : is_number E (Integer 0) = true;
  zero_is_finite : is_finite E (Integer 0) = true;
  zero_is_nonnegative : is_nonnegative E (Integer 0) = true;
  zero_not_positive : is_positive E (Integer 0) = false;
  oo_not_finite : is_finite E oo = false;
  rung_not_constant :
    forall j, (1 <= j < 16)%nat -> is_constant E (rung n j) = Ok false;
  slower_vanishes :
    forall i j, (i < j < 16)%nat ->
                ratio_limit E n (rung n i) (rung n j) = Ok (Integer 0);
  faster_diverges :
    forall i j, (i < j < 16)%nat -> ratio_limit E n (rung n j) (candidate n i) = Ok oo;
  own_rung :
    forall j, (j < 16)%nat -> j <> 13%nat ->
              exists c, ratio_limit E n (rung n j) (candidate n j) = Ok c
                        /\ positive_finite E c = true;
  golden_degree :
    exists lr, simplify E (Div (log (Abs (Pow golden n))) (log n)) = Ok lr
               /\ limit E lr n oo = Ok oo;
  golden_leading : exists e, LT E (Pow golden n) n = Raise e;
  golden_printed :
    ~ In ("O(" ++ str E (Pow golden n) ++ ")") (map snd (firstn 13 (ladder n)))
}.

(** The symbol [n] of the linear solver. *)
Definition n_int : Expr := Symbol "n" PositiveInteger.

(** [T(n) - f_n - 1*T(n-1) - 1*T(n-2)], the equation the solver builds for
    the coefficients [[1, 1]]. *)
Definition fib_equation (f_n : Expr) : Expr :=
  Sub (Sub (Sub (T_app n_int) f_n)
           (Mul (Integer 1) (T_app (Add n_int (Integer (-1))))))
      (Mul (Integer 1) (T_app (Add n_int (Integer (-2))))).

(** An expression that no entry of [candidates] matches: it outgrows the
    first fourteen entries, the constant golden ratio among them, is
    outgrown by the last two, has no finite degree and no leading term. *)
Record unmatched (E : Engine) (n s : Expr) : Prop := {
  um_not_constant : is_constant E s = Ok false;
  um_outgrows :
    Forall (fun c => ratio_limit E n s (fst c) = Ok oo) (firstn 14 (candidates n));
  um_outgrown :
    Forall (fun c => ratio_limit E n s (fst c) = Ok (Integer 0)) (skipn 14 (candidates n));
  um_oo_not_finite : is_finite E oo = false;
  um_zero_not_positive : is_positive E (Integer 0) = false;
  um_degree :
    exists lr, simplify E (Div (log (Abs s)) (log n)) = Ok lr /\ limit E lr n oo = Ok oo;
  um_leading : exists e, LT E s n = Raise e
}.

(** What the theorem on the Fibonacci request asks of the library: the
    request is read, [rsolve] finds a closed form [s], and the limits of
    [s] against the entries of the table are the true ones. *)
Record fibonacci_contract (E : Engine) (f_n v0 v1 raw s : Expr) : Prop := {
  fib_driving : driving_term E (VStr "0") n_int = Ok f_n;
  fib_base0 : sympify E (VInt 0) = Ok v0;
  fib_base1 : sympify E (VInt 1) = Ok v1;
  fib_rsolve : rsolve E (fib_equation f_n) (T_app n_int) [(0, v0); (1, v1)] = Ok (Some raw);
  fib_simplify : simplify E raw = Ok s;
  fib_unmatched : unmatched E n_int s;
  fib_printed : str E s <> "phi^n"
}.

(** The closed form the reference engine finds for the Fibonacci request. *)
Definition fib_closed_form : Expr :=
  Eval vm_compute in
    match Reference.rsolve (fib_equation (Integer 0)) (T_app n_int)
            [(0, Integer 0); (1, Integer 1)] with
    | Ok (Some e) => e
    | _ => nan
    end.

Definition n_real : Expr := Symbol "n" PositiveReal.



Definition linearithmic_work_request : pydict :=
  [ (KStr "type", VStr "divide_conquer"); (KStr "f_n", VStr "n*log(n)") ].

Definition mismatch_request : pydict :=
  [ (KStr "type", VStr "verify");
    (KStr "recurrence", VStr "T(n) - T(n-1) - 2*n + 1");
    (KStr "solution", VStr "n**2");
    (KStr "base", VDict [(KStr "0", VInt 0); (KStr "1", VInt 1); (KStr "2", VInt 3)]) ].

Definition empty_base_request : pydict :=
  [ (KStr "type", VStr "verify");
    (KStr "recurrence", VStr "T(n) - T(n-1) - 1");
    (KStr "solution", VStr "n");
    (KStr "base", VDict []) ].

(** The order of the recurrence [T(n) = sum of coeffs[i] * T(n-1-i)]: the
    number of its coefficients. *)
Definition recurrence_order (coeffs : list pyval) : Z := Z.of_nat (List.length coeffs).

(** [T(n) = 2*T(n-1)] with [T(0) = 1] and [T(1) = 2]: an order of one, two
    base cases. *)
Definition doubling_request : pydict :=
  [ (KStr "type", VStr "linear");
    (KStr "coeffs", VList [VInt 2]);
    (KStr "base", VDict [(KStr "0", VInt 1); (KStr "1", VInt 2)]);
    (KStr "f_n", VStr "0") ].




(** ** The rest of the parsing front end *)

(** [validate_complexity]: the pair [(is_valid, error_message)]. *)
Definition validate_complexity (E : Engine) (expr_str : string) : bool * option string :=
  if orb (String.eqb expr_str "") (String.eqb (strip expr_str) "")
  then (false, Some "Expression cannot be empty")
  else
    match parse E expr_str with
    | Ok _ => (true, None)
    | Raise e => (false, Some (exn_msg e))
    end.

(** [HybridComplexityParser.parse].  The parser of the other package,
    [ComplexFunctionParser().parse], and its variable [z] are parameters. *)
Definition hybrid_parse (E : Engine) (complex_parse : string -> result Expr) (z : Expr)
  (expr_str : string) : result Expr :=
  match parse E expr_str with
  | Ok expr => Ok expr
  | Raise e =>
      if String.eqb (exn_type e) "ValueError"
      then
        try_except
          (z_expr <- complex_parse (replace_char "n" "z" expr_str) ;;
           subs E z_expr z complexity_n)
          (fun e' =>
             Raise (ValueError ("Could not parse '" ++ expr_str
                                ++ "' with any strategy: " ++ exn_msg e')))
      else Raise e
  end.

(** The [match] flag of one entry of [base_case_details]. *)
Definition detail_matches (v : pyval) : bool :=
  match v with
  | VDict d =>
      match dict_lookup (KStr "match") d with
      | Some (VBool true) => true
      | _ => false
      end
  | _ => false
  end.

(** No character of [s] is [c]. *)
Fixpoint lacks_char (c : ascii) (s : string) : bool :=
  match s with
  | EmptyString => true
  | String a s' => andb (negb (Ascii.eqb a c)) (lacks_char c s')
  end.

(** [s] does not start with a digit. *)
Definition no_leading_digit (s : string) : bool :=
  match s with
  | EmptyString => true
  | String c _ => negb (is_digit c)
  end.

(** [T(n) = T(n/1) + n]: the critical exponent [log(1, 1)] is not a
    number. *)
Definition degenerate_request : pydict :=
  [ (KStr "type", VStr "divide_conquer"); (KStr "a", VInt 1); (KStr "b", VInt 1);
    (KStr "f_n", VStr "n") ].

(** [T(n) = 2T(n/2) + n + log(n)**3] *)
Definition cubic_log_request : pydict :=
  [ (KStr "type", VStr "divide_conquer"); (KStr "f_n", VStr "n + log(n)**3") ].

(** [init_conds[T(k)]], when the key is present. *)
Fixpoint init_get (d : list (Z * Expr)) (k : Z) : option Expr :=
  match d with
  | [] => None
  | (k', v) :: d' => if k =? k' then Some v else init_get d' k
  end.

(** One turn of the loop of [get_polynomial_degree] returns the degree
    [d]: the limit of [expr / n**d] is none of the five excluded values and
    is constant. *)
Definition degree_accepted (E : Engine) (expr n : Expr) (d : pyval) : Prop :=
  exists ratio,
    limit E (Div expr (pow_num n d)) n oo = Ok ratio
    /\ expr_in ratio [Integer 0; oo; neg_oo; zoo; nan] = false
    /\ is_constant E ratio = Ok true.

(** One turn of the loop goes on to the next degree. *)
Definition degree_rejected (E : Engine) (expr n : Expr) (d : pyval) : Prop :=
  exists ratio,
    limit E (Div expr (pow_num n d)) n oo = Ok ratio
    /\ (expr_in ratio [Integer 0; oo; neg_oo; zoo; nan] = true
        \/ is_constant E ratio = Ok false).

(** ** Further expressions and requests used in the concrete runs *)

Definition n_squared : Expr := Pow n_int (Integer 2).
Definition three_n_squared : Expr := Mul (Integer 3) (Pow n_int (Integer 2)).

(** A compare request whose bound type is none of the three names. *)
Definition lower_theta_request : pydict :=
  [ (KStr "type", VStr "compare"); (KStr "f", VStr "3*n^2"); (KStr "g", VStr "n^2");
    (KStr "bound_type", VStr "theta") ].

(** Two spellings of the index 1. *)
Definition repeated_index_items : pydict := [ (KStr "1", VInt 1); (KStr "01", VInt 2) ].

(** A request whose driving term is a number, not a string. *)
Definition numeric_term_request : pydict :=
  [ (KStr "type", VStr "linear"); (KStr "f_n", VInt 5) ].

(** The answer to [mismatch_request]. *)
Definition mismatch_response : pydict :=
  response
    [ ("success", VBool true);
      ("verified_base_cases", VBool false);
      ("base_case_details",
       VDict
         [ (KInt 0, VDict (response [ ("expected", VStr "0"); ("actual", VStr "0");
                                      ("match", VBool true) ]));
           (KInt 1, VDict (response [ ("expected", VStr "1"); ("actual", VStr "1");
                                      ("match", VBool true) ]));
           (KInt 2, VDict (response [ ("expected", VStr "3"); ("actual", VStr "4");
                                      ("match", VBool false) ])) ]);
      ("complexity", VStr "O(n^2)");
      ("error", VNone) ].

(** The answer to [lower_theta_request]. *)
Definition lower_theta_response : pydict :=
  response
    [ ("success", VBool true); ("bound_type", VStr "Theta"); ("holds", VBool true);
      ("constants", VTuple [VFloat (FFin (3#2)); VFloat (FFin 6)]);
      ("comparison", VStr "f ~ g"); ("limit_ratio", VStr "3") ].

(** The text is wrapped in one of the three notations [preprocess]
    removes. *)
Definition wrapped (s : string) : bool :=
  orb (andb (startswith s "O(") (endswith s ")"))
      (orb (andb (startswith s theta_open) (endswith s ")"))
           (andb (startswith s omega_open) (endswith s ")"))).

(** [n + log(n)**3], as the library prints it. *)
Definition cubic_log_term : Expr := Add n_real (Pow (log n_real) (Integer 3)).

(** The answer to [doubling_request]. *)
Definition doubling_response : pydict :=
  response
    [ ("success", VBool true); ("closed_form", VStr "2**n");
      ("complexity", VStr "O(2^n)"); ("latex", VStr "2**n");
      ("verified", VBool true); ("error", VNone) ].


(** The float [0.3333333333333333], [6004799503160661 / 2^54]: the binary64
    value nearest to one third. *)
Definition third_double : Q := 6004799503160661 # 18014398509481984.

(** The closed form [n/3] with the base case [T(1) = 0.3333333333333333]. *)
Definition third_request : pydict :=
  [ (KStr "type", VStr "verify"); (KStr "solution", VStr "n/3");
    (KStr "base", VDict [(KStr "1", VFloat (FFin third_double))]) ].

(** A divide-and-conquer request with no field but its type. *)
Definition bare_divide_conquer_request : pydict := [ (KStr "type", VStr "divide_conquer") ].

(** * Properties *)

(** ** The error monad *)

Lemma bind_ok_inv {A B : Type} (c : result A) (k : A -> result B) (b : B) :
  bind c k = Ok b -> exists a, c = Ok a /\ k a = Ok b.
Proof.
  destruct c as [a | e]; simpl; intros H.
  - exists a. split; [reflexivity | exact H].
  - discriminate H.
Qed.

Lemma try_except_total {A : Type} (c : result A) (h : exn -> result A) :
  (forall e, exists a, h e = Ok a) -> exists a, try_except c h = Ok a.
Proof.
  intros Hh. destruct c as [a | e]; simpl.
  - exists a. reflexivity.
  - apply Hh.
Qed.

(** Reduce the binds and handlers whose first argument is known. *)
Tactic Notation "monad" := cbn [bind try_except].
Tactic Notation "monad" "in" hyp(H) := cbn [bind try_except] in H.

(** Evaluate the [get]s of a concrete request. *)
Ltac eval_gets :=
  repeat match goal with
         | |- context [dict_get ?d ?k ?v] =>
             let r := eval vm_compute in (dict_get d k v) in
             change (dict_get d k v) with r
         end.

Ltac inv_bind H :=
  let x := fresh "x" in
  let Hx := fresh "Hx" in
  apply bind_ok_inv in H; destruct H as [x [Hx H]].

(** ** Classification never raises *)

Section Classification.

Variable E : Engine.

Lemma try_candidate_total (expr n : Expr) (c : Expr * string) :
  exists r, try_candidate E expr n c = Ok r.
Proof.
  unfold try_candidate. apply try_except_total. intros e. exists None. reflexivity.
Qed.

Lemma try_candidate_label (expr n : Expr) (c : Expr * string) (label : string) :
  try_candidate E expr n c = Ok (Some label) -> label = snd c.
Proof.
  unfold try_candidate.
  destruct (simplify E (Div expr (fst c))) as [ratio | e]; monad; [| discriminate].
  destruct (limit E ratio n oo) as [lim | e]; monad; [| discriminate].
  destruct (positive_finite E lim); monad.
  - intros H. congruence.
  - destruct (expr_eqb lim (Integer 0)); monad; [discriminate |].
    destruct (expr_in lim [oo; zoo]); monad; discriminate.
Qed.

Lemma scan_candidates_total (expr n : Expr) (cs : list (Expr * string)) :
  exists r, scan_candidates E expr n cs = Ok r.
Proof.
  induction cs as [| c cs IH]; simpl.
  - exists None. reflexivity.
  - destruct (try_candidate_total expr n c) as [r Hr]. rewrite Hr. simpl.
    destruct r as [label |].
    + exists (Some label). reflexivity.
    + exact IH.
Qed.

Lemma scan_candidates_label (expr n : Expr) (cs : list (Expr * string)) (label : string) :
  scan_candidates E expr n cs = Ok (Some label) -> In label (map snd cs).
Proof.
  induction cs as [| c cs IH]; simpl.
  - discriminate.
  - destruct (try_candidate_total expr n c) as [r Hr]. rewrite Hr. simpl.
    destruct r as [l |].
    + intros H. assert (l = label) by congruence. subst l. left. symmetry.
      apply try_candidate_label with (expr := expr) (n := n). exact Hr.
    + intros H. right. apply IH. exact H.
Qed.

Lemma extract_degree_via_limit_total (expr n : Expr) :
  exists d, extract_degree_via_limit E expr n = Ok d.
Proof.
  unfold extract_degree_via_limit. apply try_except_total.
  intros e. exists None. reflexivity.
Qed.

Lemma leading_term_label_total (expr n : Expr) :
  exists label, leading_term_label E expr n = Ok label.
Proof.
  unfold leading_term_label. apply try_except_total.
  intros e. eexists. reflexivity.
Qed.

Lemma extract_complexity_returns (expr n : Expr) :
  exists label, extract_complexity E expr n = Ok label.
Proof.
  unfold extract_complexity. apply try_except_total. intros e. eexists. reflexivity.
Qed.

End Classification.

(** ** Dictionaries *)

Lemma dict_lookup_app (k k' : pykey) (v : pyval) (d : pydict) :
  dict_lookup k (d ++ [(k', v)])%list =
  match dict_lookup k d with
  | Some x => Some x
  | None => if pykey_eqb k k' then Some v else None
  end.
Proof.
  induction d as [| [k0 v0] d IH]; simpl.
  - reflexivity.
  - destruct (pykey_eqb k k0); [reflexivity | exact IH].
Qed.

Lemma pykey_eqb_eq (a b : pykey) : pykey_eqb a b = true -> a = b.
Proof.
  destruct a as [s | x], b as [t | y]; simpl; try discriminate.
  - intros H. apply String.eqb_eq in H. congruence.
  - intros H. apply Z.eqb_eq in H. congruence.
Qed.

(** A default that is added leaves [get] with that default unchanged. *)
Lemma dict_get_with_defaults (defaults : list (string * pyval)) (d : pydict)
  (k : string) (v : pyval) :
  (forall v', In (k, v') defaults -> v' = v) ->
  dict_get (with_defaults defaults d) k v = dict_get d k v.
Proof.
  revert d. induction defaults as [| [k0 v0] rest IH]; intros d Hv; simpl.
  - reflexivity.
  - rewrite IH by (intros v' Hin; apply Hv; right; exact Hin).
    destruct (dict_lookup (KStr k0) d) eqn:Hk0; [reflexivity |].
    unfold dict_get. rewrite dict_lookup_app.
    destruct (dict_lookup (KStr k) d); [reflexivity |].
    destruct (pykey_eqb (KStr k) (KStr k0)) eqn:Hkk; [| reflexivity].
    apply pykey_eqb_eq in Hkk. inversion Hkk. subst k0.
    apply Hv. left. reflexivity.
Qed.

Ltac other_key :=
  let v := fresh "v" in
  let H := fresh "H" in
  intros v H; simpl in H;
  repeat (destruct H as [H | H]; [discriminate H || (inversion H; reflexivity) |]);
  destruct H.

(** ** Defaults of the requests *)

Section Defaults.

Variable E : Engine.

Lemma solve_linear_recurrence_ignores (defaults : list (string * pyval)) (data : pydict) :
  (forall v', In ("coeffs", v') defaults -> v' = VList [VInt 1]) ->
  (forall v', In ("base", v') defaults -> v' = VDict [(KStr "0", VInt 0)]) ->
  (forall v', In ("f_n", v') defaults -> v' = VStr "0") ->
  solve_linear_recurrence E (with_defaults defaults data) = solve_linear_recurrence E data.
Proof.
  intros H1 H2 H3. unfold solve_linear_recurrence.
  rewrite !dict_get_with_defaults by assumption. reflexivity.
Qed.

Lemma solve_divide_conquer_ignores (defaults : list (string * pyval)) (data : pydict) :
  (forall v', In ("a", v') defaults -> v' = VInt 2) ->
  (forall v', In ("b", v') defaults -> v' = VInt 2) ->
  (forall v', In ("f_n", v') defaults -> v' = VStr "n") ->
  solve_divide_conquer E (with_defaults defaults data) = solve_divide_conquer E data.
Proof.
  intros H1 H2 H3. unfold solve_divide_conquer.
  rewrite !dict_get_with_defaults by assumption. reflexivity.
Qed.

End Defaults.

(** ** The base-case check of [verify_recurrence] *)

Lemma try_except_ok_inv {A : Type} (c : result A) (h : exn -> result A) (a : A) :
  try_except c h = Ok a -> c = Ok a \/ exists e, c = Raise e /\ h e = Ok a.
Proof.
  destruct c as [x | e]; simpl; intros H.
  - left. exact H.
  - right. exists e. split; [reflexivity | exact H].
Qed.

Lemma failure_not_success (msg : string) :
  dict_lookup (KStr "success") (failure msg) = Some (VBool false).
Proof. reflexivity. Qed.

Section BaseCases.

Variable E : Engine.

Lemma base_case_holds_not_fails (solution n : Expr) (kv : Z * Expr) :
  base_case_holds E solution n kv -> ~ base_case_fails E solution n kv.
Proof.
  intros [a [d [Ha [Hd Hz]]]] [a' [d' [Ha' [Hd' Hz']]]].
  rewrite Ha in Ha'. inversion Ha'. subst a'.
  rewrite Hd in Hd'. inversion Hd'. subst d'.
  rewrite Hz in Hz'. discriminate Hz'.
Qed.

Lemma check_base_cases_spec (solution n : Expr) (init_conds : list (Z * Expr)) :
  forall (base_ok : bool) (base_results : pydict) (ok : bool) (results : pydict),
    check_base_cases E solution n init_conds base_ok base_results = Ok (ok, results) ->
    (ok = true <-> base_ok = true /\ Forall (base_case_holds E solution n) init_conds)
    /\ (ok = false <-> base_ok = false \/ Exists (base_case_fails E solution n) init_conds).
Proof.
  induction init_conds as [| [idx expected] rest IH]; intros base_ok base_results ok results H.
  - simpl in H. inversion H. subst. split; split.
    + intros Hok. split; [exact Hok | constructor].
    + intros [Hok _]. exact Hok.
    + intros Hok. left. exact Hok.
    + intros [Hok | Hex]; [exact Hok | inversion Hex].
  - simpl in H.
    destruct (subs E solution n (Integer idx)) as [actual | e] eqn:Hactual;
      monad in H; [| discriminate H].
    destruct (simplify E (Sub actual expected)) as [diff | e] eqn:Hdiff;
      monad in H; [| discriminate H].
    apply IH in H. destruct H as [Htrue Hfalse].
    destruct (expr_eqb diff (Integer 0)) eqn:Hzero; simpl in Htrue, Hfalse.
    + assert (Hhere : base_case_holds E solution n (idx, expected)).
      { exists actual, diff. simpl. repeat split; assumption. }
      split; split.
      * intros Hok. apply Htrue in Hok. destruct Hok as [Hb Hall].
        split; [exact Hb | constructor; assumption].
      * intros [Hb Hall]. apply Htrue. inversion Hall as [| x l Hx Hl].
        split; assumption.
      * intros Hok. apply Hfalse in Hok. destruct Hok as [Hb | Hex].
        -- left. exact Hb.
        -- right. apply Exists_cons_tl. exact Hex.
      * intros [Hb | Hex]; apply Hfalse.
        -- left. exact Hb.
        -- inversion Hex as [x l Hx | x l Hx]; subst.
           ++ exfalso. apply (base_case_holds_not_fails _ _ _ Hhere). exact Hx.
           ++ right. exact Hx.
    + assert (Hhere : base_case_fails E solution n (idx, expected)).
      { exists actual, diff. simpl. repeat split; assumption. }
      split; split.
      * intros Hok. apply Htrue in Hok. destruct Hok as [Hb _]. discriminate Hb.
      * intros [_ Hall]. inversion Hall as [| x l Hx Hl]; subst.
        exfalso. apply (base_case_holds_not_fails _ _ _ Hx). exact Hhere.
      * intros _. right. apply Exists_cons_hd. exact Hhere.
      * intros _. apply Hfalse. left. reflexivity.
Qed.

Lemma check_base_cases_nil (solution n : Expr) (base_ok : bool) (base_results : pydict) :
  check_base_cases E solution n [] base_ok base_results = Ok (base_ok, base_results).
Proof. reflexivity. Qed.

Lemma check_base_cases_complete (solution n : Expr) (init_conds : list (Z * Expr)) :
  Forall (base_case_holds E solution n) init_conds ->
  forall (base_ok : bool) (base_results : pydict),
  exists results,
    check_base_cases E solution n init_conds base_ok base_results = Ok (base_ok, results).
Proof.
  induction 1 as [| [idx expected] rest Hhere Hrest IH]; intros base_ok base_results.
  - exists base_results. reflexivity.
  - destruct Hhere as [actual [diff [Hactual [Hdiff Hzero]]]]. simpl in Hactual, Hdiff.
    cbn [check_base_cases]. rewrite Hactual. monad. rewrite Hdiff. monad.
    rewrite Hzero. cbn [negb]. apply IH.
Qed.

Lemma holds_and_fails (solution n : Expr) (init_conds : list (Z * Expr)) :
  Forall (base_case_holds E solution n) init_conds ->
  Exists (base_case_fails E solution n) init_conds ->
  False.
Proof.
  intros Hall Hex. rewrite Forall_forall in Hall. rewrite Exists_exists in Hex.
  destruct Hex as [kv [Hin Hfails]].
  apply (base_case_holds_not_fails solution n kv (Hall kv Hin) Hfails).
Qed.

(** How a response of [verify_recurrence] was built: from a run of the
    body that reached the end, or from an exception of the body. *)
Lemma verify_recurrence_cases (data : pydict) (r : pydict) :
  verify_recurrence E data = Ok r ->
  (exists solution items init_conds base_ok base_results complexity,
      driving_term E (dict_get data "solution" (VStr "")) (Symbol "n" PositiveInteger)
      = Ok solution
      /\ py_items (dict_get data "base" (VDict [])) = Ok items
      /\ build_init_conds E items [] = Ok init_conds
      /\ check_base_cases E solution (Symbol "n" PositiveInteger) init_conds true []
         = Ok (base_ok, base_results)
      /\ r = response
               [ ("success", VBool true);
                 ("verified_base_cases", VBool base_ok);
                 ("base_case_details", VDict base_results);
                 ("complexity", VStr complexity);
                 ("error", VNone) ])
  \/ ((exists msg, r = failure msg)
      /\ forall solution items init_conds,
           driving_term E (dict_get data "solution" (VStr "")) (Symbol "n" PositiveInteger)
           = Ok solution ->
           py_items (dict_get data "base" (VDict [])) = Ok items ->
           build_init_conds E items [] = Ok init_conds ->
           forall ok results,
             check_base_cases E solution (Symbol "n" PositiveInteger) init_conds true []
             <> Ok (ok, results)).
Proof.
  intros H. unfold verify_recurrence in H.
  apply try_except_ok_inv in H. destruct H as [H | [e [H Hr]]].
  - left. unfold driving_term.
    destruct (parse_complexity E (dict_get data "solution" (VStr ""))) as [parsed | e];
      monad in H; [| discriminate H].
    destruct (subs E parsed complexity_n (Symbol "n" PositiveInteger)) as [solution | e]
      eqn:Hsol; monad in H; [| discriminate H].
    destruct (py_items (dict_get data "base" (VDict []))) as [items | e] eqn:Hitems;
      monad in H; [| discriminate H].
    destruct (build_init_conds E items []) as [init_conds | e] eqn:Hinit;
      monad in H; [| discriminate H].
    destruct (check_base_cases E solution (Symbol "n" PositiveInteger) init_conds true [])
      as [[base_ok base_results] | e] eqn:Hcheck; monad in H; [| discriminate H].
    destruct (extract_complexity E solution (Symbol "n" PositiveInteger))
      as [complexity | e]; monad in H; [| discriminate H].
    exists solution, items, init_conds, base_ok, base_results, complexity.
    monad. rewrite Hsol. inversion H.
    split; [reflexivity |]. split; [reflexivity |]. split; [exact Hinit |].
    split; [exact Hcheck | reflexivity].
  - right. split.
    + exists (exn_msg e). inversion Hr. reflexivity.
    + intros solution items init_conds Hsol Hitems Hinit ok results Hcheck.
      unfold driving_term in Hsol.
      destruct (parse_complexity E (dict_get data "solution" (VStr ""))) as [parsed | e'];
        monad in Hsol; [| discriminate Hsol].
      monad in H. rewrite Hsol in H. monad in H.
      rewrite Hitems in H. monad in H. rewrite Hinit in H. monad in H.
      rewrite Hcheck in H. monad in H.
      destruct (extract_complexity_returns E solution (Symbol "n" PositiveInteger))
        as [label Hlabel].
      rewrite Hlabel in H. monad in H. discriminate H.
Qed.

(** What a successful response of [verify_recurrence] was built from. *)
Lemma verify_recurrence_success (data : pydict) (r : pydict) :
  verify_recurrence E data = Ok r ->
  dict_lookup (KStr "success") r = Some (VBool true) ->
  exists solution items init_conds base_ok base_results complexity,
    driving_term E (dict_get data "solution" (VStr "")) (Symbol "n" PositiveInteger)
    = Ok solution
    /\ py_items (dict_get data "base" (VDict [])) = Ok items
    /\ build_init_conds E items [] = Ok init_conds
    /\ check_base_cases E solution (Symbol "n" PositiveInteger) init_conds true []
       = Ok (base_ok, base_results)
    /\ r = response
             [ ("success", VBool true);
               ("verified_base_cases", VBool base_ok);
               ("base_case_details", VDict base_results);
               ("complexity", VStr complexity);
               ("error", VNone) ].
Proof.
  intros H Hsuccess.
  destruct (verify_recurrence_cases data r H) as [Hbuilt | [[msg Hmsg] _]].
  - exact Hbuilt.
  - subst r. rewrite failure_not_success in Hsuccess. discriminate Hsuccess.
Qed.

Lemma verify_recurrence_total (data : pydict) :
  exists r, verify_recurrence E data = Ok r.
Proof.
  unfold verify_recurrence. apply try_except_total. intros e. eexists. reflexivity.
Qed.

(** C6, as amended.  Every verify request is answered, and
    [verified_base_cases] is true if and only if the candidate closed form
    and the base cases are read and every declared base case holds of the
    closed form: substituting the index, subtracting the declared value and
    simplifying gives zero, as the library computes that difference (in
    exact arithmetic for whole and rational values, in floating point when
    a value is a float).  A single base case that fails keeps the flag from
    being true. *)
Theorem verified_base_cases_iff (data : pydict) :
  exists r,
    verify_recurrence E data = Ok r
    /\ (dict_lookup (KStr "verified_base_cases") r = Some (VBool true)
        <-> exists solution items init_conds,
              driving_term E (dict_get data "solution" (VStr ""))
                (Symbol "n" PositiveInteger) = Ok solution
              /\ py_items (dict_get data "base" (VDict [])) = Ok items
              /\ build_init_conds E items [] = Ok init_conds
              /\ Forall (base_case_holds E solution (Symbol "n" PositiveInteger)) init_conds)
    /\ (forall solution items init_conds,
          driving_term E (dict_get data "solution" (VStr ""))
            (Symbol "n" PositiveInteger) = Ok solution ->
          py_items (dict_get data "base" (VDict [])) = Ok items ->
          build_init_conds E items [] = Ok init_conds ->
          Exists (base_case_fails E solution (Symbol "n" PositiveInteger)) init_conds ->
          dict_lookup (KStr "verified_base_cases") r <> Some (VBool true)).
Proof.
  destruct (verify_recurrence_total data) as [r Hrun].
  exists r. split; [exact Hrun |].
  assert (Hiff : dict_lookup (KStr "verified_base_cases") r = Some (VBool true)
                 <-> exists solution items init_conds,
                       driving_term E (dict_get data "solution" (VStr ""))
                         (Symbol "n" PositiveInteger) = Ok solution
                       /\ py_items (dict_get data "base" (VDict [])) = Ok items
                       /\ build_init_conds E items [] = Ok init_conds
                       /\ Forall (base_case_holds E solution (Symbol "n" PositiveInteger))
                            init_conds).
  { destruct (verify_recurrence_cases data r Hrun)
      as [[solution [items [init_conds [base_ok [base_results [complexity
            [Hsol [Hitems [Hinit [Hcheck Hr]]]]]]]]]] | [[msg Hmsg] Hraised]].
    - apply check_base_cases_spec in Hcheck. destruct Hcheck as [Hyes _].
      subst r. simpl. split.
      + intros Hflag. exists solution, items, init_conds.
        repeat (split; [assumption |]).
        apply Hyes. congruence.
      + intros [solution' [items' [init_conds' [Hsol' [Hitems' [Hinit' Hall]]]]]].
        rewrite Hsol in Hsol'. inversion Hsol'. subst solution'.
        rewrite Hitems in Hitems'. inversion Hitems'. subst items'.
        rewrite Hinit in Hinit'. inversion Hinit'. subst init_conds'.
        f_equal. f_equal. apply Hyes. split; [reflexivity | exact Hall].
    - subst r. split; [discriminate |].
      intros [solution [items [init_conds [Hsol [Hitems [Hinit Hall]]]]]].
      exfalso.
      destruct (check_base_cases_complete solution (Symbol "n" PositiveInteger)
                  init_conds Hall true []) as [results Hcheck].
      apply (Hraised solution items init_conds Hsol Hitems Hinit true results Hcheck). }
  split; [exact Hiff |].
  intros solution items init_conds Hsol Hitems Hinit Hex Hflag.
  apply Hiff in Hflag.
  destruct Hflag as [solution' [items' [init_conds' [Hsol' [Hitems' [Hinit' Hall]]]]]].
  rewrite Hsol in Hsol'. inversion Hsol'. subst solution'.
  rewrite Hitems in Hitems'. inversion Hitems'. subst items'.
  rewrite Hinit in Hinit'. inversion Hinit'. subst init_conds'.
  apply (holds_and_fails solution (Symbol "n" PositiveInteger) init_conds Hall Hex).
Qed.

(** C7, as amended.  A verify request whose base-case mapping is empty and
    that is answered with success reports [verified_base_cases = true],
    with no per-index detail: the flag starts true and there is no base
    case to clear it. *)
Theorem empty_base_verifies (data : pydict) (r : pydict) :
  dict_get data "base" (VDict []) = VDict [] ->
  verify_recurrence E data = Ok r ->
  dict_lookup (KStr "success") r = Some (VBool true) ->
  dict_lookup (KStr "verified_base_cases") r = Some (VBool true)
  /\ dict_lookup (KStr "base_case_details") r = Some (VDict []).
Proof.
  intros Hbase H Hsuccess.
  destruct (verify_recurrence_success data r H Hsuccess)
    as [solution [items [init_conds [base_ok [base_results [complexity
         [Hsol [Hitems [Hinit [Hcheck Hr]]]]]]]]]].
  rewrite Hbase in Hitems. simpl in Hitems. inversion Hitems. subst items.
  simpl in Hinit. inversion Hinit. subst init_conds.
  rewrite check_base_cases_nil in Hcheck. inversion Hcheck. subst base_ok base_results.
  subst r. split; reflexivity.
Qed.

(** [verify_recurrence] and [compare_complexities] run wholly inside their
    [try]: they answer every request. *)
Lemma compare_complexities_total (data : pydict) :
  exists r, compare_complexities E data = Ok r.
Proof.
  unfold compare_complexities. apply try_except_total. intros e. eexists. reflexivity.
Qed.

End BaseCases.

(** ** The numeric check of a closed form *)

Section NumericCheck.

Variable E : Engine.

Lemma range_nine (order : Z) :
  range (order + 1) (order + 10)
  = [order + 1; order + 2; order + 3; order + 4; order + 5;
     order + 6; order + 7; order + 8; order + 9].
Proof.
  unfold range. replace (order + 10 - (order + 1)) with 9 by lia.
  simpl. repeat (f_equal; try lia).
Qed.

Lemma all_trials_pass_iff (solution n recurrence_eq : Expr) (order : Z) (trials : list Z) :
  all_trials_pass E solution n recurrence_eq order trials = Ok true
  <-> Forall (fun t => trial_passes E solution n recurrence_eq order t = Ok true) trials.
Proof.
  induction trials as [| t rest IH]; simpl.
  - split; [constructor | reflexivity].
  - destruct (trial_passes E solution n recurrence_eq order t) as [[|] | e] eqn:Ht; monad.
    + rewrite IH. split.
      * intros Hrest. constructor; [exact Ht | exact Hrest].
      * intros Hall. inversion Hall. assumption.
    + split; [discriminate |]. intros Hall. inversion Hall. congruence.
    + split; [discriminate |]. intros Hall. inversion Hall. congruence.
Qed.

Lemma trial_passes_iff (solution n recurrence_eq : Expr) (order t : Z) :
  trial_passes E solution n recurrence_eq order t = Ok true
  <-> exists r,
        residual E solution n recurrence_eq order t = Ok r
        /\ (expr_eqb r (Integer 0) = true
            \/ exists v, abs_complex_N E r = Ok v /\ flt tolerance v = false).
Proof.
  unfold trial_passes.
  destruct (residual E solution n recurrence_eq order t) as [r | e] eqn:Hres; monad.
  - destruct (expr_eqb r (Integer 0)) eqn:Hzero; cbn [negb].
    + split; [| reflexivity]. intros _. exists r. split; [reflexivity |]. left. exact Hzero.
    + destruct (abs_complex_N E r) as [v | e] eqn:Habs; monad.
      * destruct (flt tolerance v) eqn:Hv.
        -- split; [discriminate |].
           intros [r' [Hr [Hz | [v' [Hv' Hflt]]]]]; inversion Hr; subst r'; congruence.
        -- split; [| reflexivity]. intros _. exists r. split; [reflexivity |].
           right. exists v. split; assumption.
      * split; [discriminate |].
        intros [r' [Hr [Hz | [v' [Hv' _]]]]]; inversion Hr; subst r'; congruence.
  - split; [discriminate |]. intros [r [Hr _]]. discriminate Hr.
Qed.

Lemma verify_solution_numerically_total
  (solution n recurrence_eq : Expr) (init_conds : list (Z * Expr)) :
  exists b, verify_solution_numerically E solution n recurrence_eq init_conds = Ok b.
Proof.
  unfold verify_solution_numerically. apply try_except_total.
  intros e. exists false. reflexivity.
Qed.

(** X29. The numeric check substitutes the closed form into the
    recurrence at exactly the nine trial indices [order + 1] to
    [order + 9], where [order] is the number of declared base cases (the
    length of the initial conditions).  It always answers; it answers true
    exactly when, at every trial index, the residual is evaluated and is
    the expression zero or has a magnitude that does not exceed
    [1e-10]. *)
Theorem numeric_check_trials
  (solution n recurrence_eq : Expr) (init_conds : list (Z * Expr)) :
  trial_indices init_conds
  = map (fun k => Z.of_nat (List.length init_conds) + k) [1; 2; 3; 4; 5; 6; 7; 8; 9]
  /\ (exists b, verify_solution_numerically E solution n recurrence_eq init_conds = Ok b)
  /\ (verify_solution_numerically E solution n recurrence_eq init_conds = Ok true
      <-> Forall
            (fun t =>
               exists r,
                 residual E solution n recurrence_eq (Z.of_nat (List.length init_conds)) t
                 = Ok r
                 /\ (expr_eqb r (Integer 0) = true
                     \/ exists v, abs_complex_N E r = Ok v /\ flt tolerance v = false))
            (trial_indices init_conds)).
Proof.
  split; [| split].
  - unfold trial_indices. apply range_nine.
  - apply verify_solution_numerically_total.
  - unfold verify_solution_numerically.
    set (order := Z.of_nat (List.length init_conds)).
    rewrite Forall_forall.
    assert (Hall := all_trials_pass_iff solution n recurrence_eq order
                      (trial_indices init_conds)).
    rewrite Forall_forall in Hall.
    destruct (all_trials_pass E solution n recurrence_eq order (trial_indices init_conds))
      as [[|] | e]; monad.
    + split; [| reflexivity]. intros _ t Ht.
      apply trial_passes_iff. apply Hall; [reflexivity | exact Ht].
    + split; [discriminate |]. intros Hres. apply Hall.
      intros t Ht. apply trial_passes_iff. apply Hres. exact Ht.
    + split; [discriminate |]. intros Hres.
      assert (Hbad : @Raise bool e = Ok true); [| discriminate Hbad].
      apply Hall. intros t Ht. apply trial_passes_iff. apply Hres. exact Ht.
Qed.

(** The check answers false as soon as one residual exceeds the tolerance. *)
Lemma numeric_check_fails_on_residual
  (solution n recurrence_eq : Expr) (init_conds : list (Z * Expr)) (t : Z) (r : Expr)
  (v : pyfloat) :
  In t (trial_indices init_conds) ->
  residual E solution n recurrence_eq (Z.of_nat (List.length init_conds)) t = Ok r ->
  expr_eqb r (Integer 0) = false ->
  abs_complex_N E r = Ok v ->
  flt tolerance v = true ->
  verify_solution_numerically E solution n recurrence_eq init_conds = Ok false.
Proof.
  intros Hin Hres Hzero Hv Hflt.
  destruct (verify_solution_numerically_total solution n recurrence_eq init_conds)
    as [b Hb].
  destruct b; [| exact Hb].
  exfalso. unfold verify_solution_numerically in Hb.
  apply try_except_ok_inv in Hb. destruct Hb as [Hb | [e [_ Hb]]]; [| discriminate Hb].
  apply all_trials_pass_iff in Hb. rewrite Forall_forall in Hb.
  apply Hb in Hin. apply trial_passes_iff in Hin.
  destruct Hin as [r' [Hr' [Hz | [v' [Hv' Hflt']]]]].
  - rewrite Hres in Hr'. inversion Hr'. subst r'. rewrite Hzero in Hz. discriminate Hz.
  - rewrite Hres in Hr'. inversion Hr'. subst r'.
    rewrite Hv in Hv'. inversion Hv'. subst v'. rewrite Hflt in Hflt'. discriminate Hflt'.
Qed.

End NumericCheck.

(** ** The divide-and-conquer analysis *)

Section MasterTheorem.

Variable E : Engine.

Lemma get_log_power_total (expr n : Expr) : exists k, get_log_power E expr n = Ok k.
Proof.
  unfold get_log_power. apply try_except_total. intros e. exists 0. reflexivity.
Qed.

(** What [get_log_power] reads: nothing without a logarithm, the digits
    after the first [log(n)**] that digits follow, one for a [log(n)]
    without them. *)
Lemma get_log_power_reads_text (expr n : Expr) :
  get_log_power E expr n
  = Ok (if negb (has_log expr) then 0
        else
          match (if contains "log(n)**" (str E expr)
                 then search_log_power (str E expr) else None) with
          | Some k => k
          | None => if contains "log(n)" (str E expr) then 1 else 0
          end).
Proof.
  unfold get_log_power. destruct (has_log expr); cbn [negb]; [| reflexivity].
  destruct (if contains "log(n)**" (str E expr)
            then search_log_power (str E expr) else None); [reflexivity |].
  destruct (contains "log(n)" (str E expr)); reflexivity.
Qed.

Lemma get_polynomial_degree_total (expr n : Expr) :
  exists d, get_polynomial_degree E expr n = Ok d.
Proof.
  unfold get_polynomial_degree. apply try_except_total. intros e. exists None. reflexivity.
Qed.

(** C4. For a divide-and-conquer request whose driving term has no degree
    ([get_polynomial_degree] answers [None]), the result is the simplified
    estimate: class [n^p] with [p] the float of [log_b(a)] printed to four
    decimals, [verified = False], no closed form, and the marker
    [akra_bazzi].  No other call of the library is made: the response is
    determined by the critical exponent alone. *)
Theorem akra_bazzi_fallback (data : pydict) (f_n critical_exp : Expr) (p : pyfloat) :
  driving_term E (dict_get data "f_n" (VStr "n")) (Symbol "n" PositiveReal) = Ok f_n ->
  sym_log E (dict_get data "a" (VInt 2)) (dict_get data "b" (VInt 2)) = Ok critical_exp ->
  evalf_float E critical_exp = Ok p ->
  get_polynomial_degree E f_n (Symbol "n" PositiveReal) = Ok None ->
  solve_divide_conquer E data = Ok (akra_bazzi_response E p critical_exp)
  /\ dict_lookup (KStr "complexity") (akra_bazzi_response E p critical_exp)
     = Some (VStr ("O(n^" ++ format_float E 4 p ++ ")"))
  /\ dict_lookup (KStr "verified") (akra_bazzi_response E p critical_exp)
     = Some (VBool false)
  /\ dict_lookup (KStr "closed_form") (akra_bazzi_response E p critical_exp) = Some VNone.
Proof.
  intros Hf Hlog Hfloat Hdeg.
  unfold solve_divide_conquer. rewrite Hf, Hlog. monad. rewrite Hfloat. monad.
  rewrite Hdeg. monad.
  split; [reflexivity |]. split; [reflexivity |]. split; reflexivity.
Qed.

End MasterTheorem.

(** ** Errors that leave the request *)

Section RequestBoundary.

Variable E : Engine.

Lemma build_init_conds_bad_key (v : pyval) :
  exists e, build_init_conds E [(KStr "x", v)] [] = Raise e.
Proof.
  simpl. destruct (sympify E v) as [value | e]; monad.
  - eexists. reflexivity.
  - exists e. reflexivity.
Qed.

(** C9, the failing input.  A linear request whose base-case mapping has a
    key that is not a number is not answered with a failure response: the
    conversion [int(k)] is made outside every [try] of
    [solve_linear_recurrence], and the exception leaves [main]. *)
Theorem bad_base_key_escapes (f_n : Expr) :
  driving_term E (VStr "0") (Symbol "n" PositiveInteger) = Ok f_n ->
  exists e, main E (Json (VDict bad_base_key_request)) = Uncaught e.
Proof.
  intros Hf. unfold main, dispatch, bad_base_key_request. simpl py_get. monad.
  simpl is_str. cbn iota. unfold solve_linear_recurrence, as_dict.
  eval_gets. rewrite Hf. simpl py_iter. monad. simpl subtract_terms. monad.
  simpl py_items. monad.
  destruct (build_init_conds_bad_key (VInt 0)) as [e He]. rewrite He. monad.
  exists e. reflexivity.
Qed.

(** The same mapping sent to [verify_recurrence], which converts the keys
    inside its [try], is answered with a failure response. *)
Lemma bad_base_key_caught_by_verify :
  exists msg, main E (Json (VDict bad_base_key_verify_request)) = Printed (failure msg) 0.
Proof.
  unfold main, dispatch, bad_base_key_verify_request. simpl py_get. monad.
  simpl is_str. cbn iota. unfold verify_recurrence, as_dict.
  eval_gets.
  destruct (parse_complexity E (VStr "n")) as [parsed | e]; monad;
    [| eexists; reflexivity].
  destruct (subs E parsed complexity_n (Symbol "n" PositiveInteger)) as [solution | e];
    monad; [| eexists; reflexivity].
  simpl py_items. monad.
  destruct (build_init_conds_bad_key (VInt 0)) as [e He]. rewrite He. monad.
  eexists. reflexivity.
Qed.

(** Past the statements that stand outside its [try] blocks, each of the
    two solvers answers: only those statements can raise. *)
Lemma solve_linear_recurrence_answers (data : pydict) (coeff_list : list pyval)
  (items : pydict) :
  py_iter (dict_get data "coeffs" (VList [VInt 1])) = Ok coeff_list ->
  (forall eq, exists eq', subtract_terms (Symbol "n" PositiveInteger) eq 0 coeff_list = Ok eq') ->
  py_items (dict_get data "base" (VDict [(KStr "0", VInt 0)])) = Ok items ->
  (exists init_conds, build_init_conds E items [] = Ok init_conds) ->
  exists r, solve_linear_recurrence E data = Ok r.
Proof.
  intros Hiter Hterms Hitems [init_conds Hinit]. unfold solve_linear_recurrence.
  destruct (driving_term E (dict_get data "f_n" (VStr "0")) (Symbol "n" PositiveInteger))
    as [f_n | e]; [| eexists; reflexivity].
  rewrite Hiter. monad.
  destruct (Hterms (Sub (T_app (Symbol "n" PositiveInteger)) f_n)) as [eq' Heq].
  rewrite Heq. monad. rewrite Hitems. monad. rewrite Hinit. monad.
  apply try_except_total. intros e. eexists. reflexivity.
Qed.

Lemma solve_divide_conquer_answers (data : pydict) (critical_exp : Expr) (p : pyfloat) :
  sym_log E (dict_get data "a" (VInt 2)) (dict_get data "b" (VInt 2)) = Ok critical_exp ->
  evalf_float E critical_exp = Ok p ->
  exists r, solve_divide_conquer E data = Ok r.
Proof.
  intros Hlog Hfloat. unfold solve_divide_conquer.
  destruct (driving_term E (dict_get data "f_n" (VStr "n")) (Symbol "n" PositiveReal))
    as [f_n | e]; [| eexists; reflexivity].
  rewrite Hlog. monad. rewrite Hfloat. monad.
  destruct (get_polynomial_degree E f_n (Symbol "n" PositiveReal)) as [degree | e] eqn:Hdeg.
  - monad. apply try_except_total. intros e. eexists. reflexivity.
  - exfalso. unfold get_polynomial_degree in Hdeg.
    destruct (try_except_total
                (poly <- is_polynomial E f_n (Symbol "n" PositiveReal) ;;
                 if poly
                 then d <- poly_degree E f_n (Symbol "n" PositiveReal) ;; Ok (Some (VFloat d))
                 else scan_degrees E f_n (Symbol "n" PositiveReal) degree_table)
                (fun _ => Ok None)) as [d Hd].
    + intros e'. exists None. reflexivity.
    + rewrite Hd in Hdeg. discriminate Hdeg.
Qed.

(** A failure response has the flag and the message, and nothing else. *)
Lemma failure_fields (msg : string) :
  failure msg = [(KStr "success", VBool false); (KStr "error", VStr msg)].
Proof. reflexivity. Qed.

End RequestBoundary.

(** ** The growth ladder *)

Ltac split_index k j :=
  lazymatch k with
  | O => exfalso; lia
  | S ?k' =>
      let j' := fresh "j" in
      destruct j as [| j']; [try (exfalso; lia) | split_index k' j']
  end.

(** One goal for each index below sixteen that the hypotheses allow. *)
Ltac each_index j := split_index 16%nat j.

Section Ladder.

Variable E : Engine.
Variable n : Expr.

Lemma try_candidate_diverges (expr : Expr) (c : Expr * string) :
  is_finite E oo = false ->
  ratio_limit E n expr (fst c) = Ok oo ->
  try_candidate E expr n c = Ok None.
Proof.
  intros Hfin H. unfold try_candidate. unfold ratio_limit in H.
  destruct (simplify E (Div expr (fst c))) as [ratio | e]; monad in H; [| discriminate H].
  monad. rewrite H. monad. unfold positive_finite. rewrite Hfin.
  rewrite andb_false_r. reflexivity.
Qed.

Lemma try_candidate_matches (expr : Expr) (c : Expr * string) (lim : Expr) :
  ratio_limit E n expr (fst c) = Ok lim ->
  positive_finite E lim = true ->
  try_candidate E expr n c = Ok (Some (snd c)).
Proof.
  intros H Hpos. unfold try_candidate. unfold ratio_limit in H.
  destruct (simplify E (Div expr (fst c))) as [ratio | e]; monad in H; [| discriminate H].
  monad. rewrite H. monad. rewrite Hpos. reflexivity.
Qed.

Lemma scan_candidates_skips (expr : Expr) (pre rest : list (Expr * string)) :
  is_finite E oo = false ->
  Forall (fun c => ratio_limit E n expr (fst c) = Ok oo) pre ->
  scan_candidates E expr n (pre ++ rest)%list = scan_candidates E expr n rest.
Proof.
  intros Hfin Hpre. induction Hpre as [| c pre Hc Hpre IH]; simpl.
  - reflexivity.
  - rewrite (try_candidate_diverges expr c Hfin Hc). monad. exact IH.
Qed.

Lemma Forall_firstn_nth {A : Type} (P : A -> Prop) (d : A) (l : list A) :
  forall j, (j <= List.length l)%nat ->
            (forall i, (i < j)%nat -> P (nth i l d)) ->
            Forall P (firstn j l).
Proof.
  induction l as [| a l IH]; intros j Hj Hall.
  - destruct j; simpl; constructor.
  - destruct j as [| j]; simpl; constructor.
    + apply (Hall 0%nat). lia.
    + apply IH.
      * simpl in Hj. lia.
      * intros i Hi. apply (Hall (S i)). lia.
Qed.

Lemma skipn_nth {A : Type} (d : A) (l : list A) :
  forall j, (j < List.length l)%nat -> skipn j l = nth j l d :: skipn (S j) l.
Proof.
  induction l as [| a l IH]; intros j Hj.
  - simpl in Hj. lia.
  - destruct j as [| j].
    + reflexivity.
    + simpl skipn at 1. simpl nth. rewrite IH by (simpl in Hj; lia). reflexivity.
Qed.

Lemma candidate_label (j : nat) :
  (j < 16)%nat -> snd (nth j (candidates n) (nan, "")) = rung_label n j.
Proof.
  intros Hj. each_index j; reflexivity.
Qed.

Lemma labels_distinct (i j : nat) :
  (i < j < 16)%nat -> rung_label n j <> rung_label n i.
Proof.
  intros H. each_index j; each_index i; cbn; discriminate.
Qed.

Lemma lower_label_in (i : nat) :
  (i < 13)%nat -> In (rung_label n i) (map snd (firstn 13 (ladder n))).
Proof.
  intros H. each_index i; cbn; tauto.
Qed.

Lemma upper_label_distinct (i : nat) (label : string) :
  (i < 13)%nat ->
  In label (map snd (skipn 13 (candidates n))) ->
  label <> rung_label n i.
Proof.
  intros Hi Hin. cbn in Hin.
  destruct Hin as [H | [H | [H | []]]]; subst label; each_index i; cbn; discriminate.
Qed.

Hypothesis contract : ladder_contract E n.

Lemma scan_reaches_rung (j : nat) :
  (j < 16)%nat ->
  scan_candidates E (rung n j) n (candidates n)
  = scan_candidates E (rung n j) n (skipn j (candidates n)).
Proof.
  intros Hj.
  rewrite <- (firstn_skipn j (candidates n)) at 1.
  apply scan_candidates_skips.
  - apply (oo_not_finite E n contract).
  - apply Forall_firstn_nth with (d := (nan, "")).
    + simpl. lia.
    + intros i Hi. apply (faster_diverges E n contract). lia.
Qed.

(** Every rung of the ladder that the table holds is classified as itself. *)
Lemma classify_rung (j : nat) :
  (1 <= j < 16)%nat -> j <> 13%nat ->
  extract_complexity E (rung n j) n = Ok (rung_label n j).
Proof.
  intros Hj H13. unfold extract_complexity.
  rewrite (rung_not_constant E n contract j Hj). monad.
  rewrite scan_reaches_rung by lia.
  rewrite (skipn_nth (nan, "")) by (simpl; lia). cbn [scan_candidates].
  destruct (own_rung E n contract j) as [c [Hc Hpos]]; [lia | exact H13 |].
  rewrite (try_candidate_matches _ _ c Hc Hpos). monad.
  rewrite candidate_label by lia. reflexivity.
Qed.

(** The power [golden^n] is never given the label of a lower rung. *)
Lemma classify_golden_power (i : nat) :
  (i < 13)%nat -> extract_complexity E (rung n 13) n <> Ok (rung_label n i).
Proof.
  intros Hi. unfold extract_complexity.
  rewrite (rung_not_constant E n contract 13) by lia. monad.
  rewrite scan_reaches_rung by lia.
  destruct (scan_candidates_total E (rung n 13) n (skipn 13 (candidates n)))
    as [found Hfound].
  rewrite Hfound. monad.
  destruct found as [label |]; cbn iota; monad.
  - intros Heq. apply (upper_label_distinct i label Hi).
    + apply scan_candidates_label with (E := E) (expr := rung n 13) (n := n). exact Hfound.
    + congruence.
  - change (rung n 13) with (Pow golden n).
    unfold extract_degree_via_limit.
    destruct (golden_degree E n contract) as [lr [Hlr Hlim]].
    rewrite Hlr. monad. rewrite Hlim. monad.
    rewrite (oo_not_finite E n contract). rewrite andb_false_r. monad.
    unfold leading_term_label.
    destruct (golden_leading E n contract) as [e He]. rewrite He. monad.
    intros Heq. apply (golden_printed E n contract).
    assert (Hl : "O(" ++ str E (Pow golden n) ++ ")" = rung_label n i) by congruence.
    rewrite Hl. apply lower_label_in. exact Hi.
Qed.

(** C2. For every pair of rungs [R1 < R2] of the ladder, classifying [R2]
    never gives the label of [R1], the Theta check of [R1] against [R2]
    does not hold, and the O check holds. *)
Theorem ladder_rungs_separated (i j : nat) :
  (i < j < 16)%nat ->
  extract_complexity E (rung n j) n <> Ok (rung_label n i)
  /\ verify_big_theta E (rung n i) (rung n j) n = Ok (false, None)
  /\ verify_big_o E (rung n i) (rung n j) n = Ok (true, Some (FFin 0)).
Proof.
  intros Hij.
  assert (Hzero := slower_vanishes E n contract i j Hij).
  unfold ratio_limit in Hzero.
  split; [| split].
  - destruct (Nat.eq_dec j 13) as [H13 | H13].
    + subst j. apply classify_golden_power. lia.
    + rewrite classify_rung by lia.
      intros Heq. apply (labels_distinct i j Hij). congruence.
  - unfold verify_big_theta.
    destruct (simplify E (Div (rung n i) (rung n j))) as [ratio | e];
      monad in Hzero; [| discriminate Hzero].
    monad. rewrite Hzero. monad.
    unfold positive_finite. rewrite (zero_not_positive E n contract).
    rewrite andb_false_r. reflexivity.
  - unfold verify_big_o.
    destruct (simplify E (Div (rung n i) (rung n j))) as [ratio | e];
      monad in Hzero; [| discriminate Hzero].
    monad. rewrite Hzero. monad.
    rewrite (zero_is_number E n contract), (zero_is_finite E n contract),
      (zero_is_nonnegative E n contract).
    reflexivity.
Qed.

End Ladder.

(** ** The Fibonacci recurrence *)

Section Fibonacci.

Variable E : Engine.

Lemma try_candidate_vanishes (expr n : Expr) (c : Expr * string) :
  is_positive E (Integer 0) = false ->
  ratio_limit E n expr (fst c) = Ok (Integer 0) ->
  try_candidate E expr n c = Ok None.
Proof.
  intros Hpos H. unfold try_candidate. unfold ratio_limit in H.
  destruct (simplify E (Div expr (fst c))) as [ratio | e]; monad in H; [| discriminate H].
  monad. rewrite H. monad. unfold positive_finite. rewrite Hpos.
  rewrite andb_false_r. reflexivity.
Qed.

Lemma scan_candidates_none (expr n : Expr) (cs : list (Expr * string)) :
  is_positive E (Integer 0) = false ->
  Forall (fun c => ratio_limit E n expr (fst c) = Ok (Integer 0)) cs ->
  scan_candidates E expr n cs = Ok None.
Proof.
  intros Hpos Hcs. induction Hcs as [| c cs Hc Hcs IH]; simpl.
  - reflexivity.
  - rewrite (try_candidate_vanishes expr n c Hpos Hc). monad. exact IH.
Qed.

(** An unmatched expression is labelled with its own text. *)
Lemma extract_complexity_unmatched (n s : Expr) :
  unmatched E n s -> extract_complexity E s n = Ok ("O(" ++ str E s ++ ")").
Proof.
  intros U. unfold extract_complexity.
  rewrite (um_not_constant E n s U). monad.
  rewrite <- (firstn_skipn 14 (candidates n)).
  rewrite (scan_candidates_skips E n s _ _ (um_oo_not_finite E n s U) (um_outgrows E n s U)).
  rewrite (scan_candidates_none s n _ (um_zero_not_positive E n s U) (um_outgrown E n s U)).
  monad. unfold extract_degree_via_limit.
  destruct (um_degree E n s U) as [lr [Hlr Hlim]].
  rewrite Hlr. monad. rewrite Hlim. monad.
  rewrite (um_oo_not_finite E n s U). rewrite andb_false_r. monad.
  unfold leading_term_label.
  destruct (um_leading E n s U) as [e He]. rewrite He. reflexivity.
Qed.

Lemma int_of_key_digit_0 : int_of_key (KStr "0") = Ok 0.
Proof. reflexivity. Qed.

Lemma int_of_key_digit_1 : int_of_key (KStr "1") = Ok 1.
Proof. reflexivity. Qed.

(** C1, the failing input.  On the Fibonacci request the solver succeeds
    and returns the closed form the library found, but the class it
    reports is not [O(phi^n)]: the entry of the table under that label is
    the constant golden ratio, which the closed form outgrows like every
    entry before it, so the scan accepts no entry and the class is the
    text of the closed form. *)
Theorem fibonacci_class_is_not_phi (f_n v0 v1 raw s : Expr) :
  fibonacci_contract E f_n v0 v1 raw s ->
  exists verified,
    solve_linear_recurrence E fib_request
    = Ok (response
            [ ("success", VBool true);
              ("closed_form", VStr (str E s));
              ("complexity", VStr ("O(" ++ str E s ++ ")"));
              ("latex", VStr (latex E s));
              ("verified", VBool verified);
              ("error", VNone) ])
    /\ "O(" ++ str E s ++ ")" <> "O(phi^n)".
Proof.
  intros C.
  destruct (verify_solution_numerically_total E s n_int (fib_equation f_n)
              [(0, v0); (1, v1)]) as [verified Hverified].
  exists verified. split.
  - unfold solve_linear_recurrence, fib_request. eval_gets.
    change (Symbol "n" PositiveInteger) with n_int.
    rewrite (fib_driving E f_n v0 v1 raw s C).
    cbn [py_iter]. monad.
    change (subtract_terms n_int (Sub (T_app n_int) f_n) 0 [VInt 1; VInt 1])
      with (Ok (fib_equation f_n)).
    monad. cbn [py_items]. monad. cbn [build_init_conds].
    rewrite (fib_base0 E f_n v0 v1 raw s C). monad.
    rewrite int_of_key_digit_0. monad.
    rewrite (fib_base1 E f_n v0 v1 raw s C). monad.
    rewrite int_of_key_digit_1. monad.
    change (init_set (init_set [] 0 v0) 1 v1) with [(0, v0); (1, v1)].
    rewrite (fib_rsolve E f_n v0 v1 raw s C). monad.
    rewrite (fib_simplify E f_n v0 v1 raw s C). monad.
    rewrite (extract_complexity_unmatched n_int s (fib_unmatched E f_n v0 v1 raw s C)).
    monad. rewrite Hverified. reflexivity.
  - intros Heq. apply (fib_printed E f_n v0 v1 raw s C).
    inversion Heq as [Hbody].
    assert (Hrev : forall a b : string, a ++ ")" = b ++ ")" -> a = b).
    { induction a as [| x a IH]; destruct b as [| y b]; simpl; intros Hab.
      - reflexivity.
      - inversion Hab. destruct b; discriminate.
      - inversion Hab. destruct a; discriminate.
      - inversion Hab. f_equal. apply IH. assumption. }
    apply Hrev. exact Hbody.
Qed.

End Fibonacci.

(** ** Runs against the reference engine *)

Ltac compute_all :=
  repeat first [ apply Forall_nil | apply Forall_cons; [vm_compute; reflexivity |] ].

Lemma reference_fib_unmatched : unmatched reference_engine n_int fib_closed_form.
Proof.
  constructor.
  - vm_compute. reflexivity.
  - compute_all.
  - compute_all.
  - vm_compute. reflexivity.
  - vm_compute. reflexivity.
  - exists (Div (log (Abs fib_closed_form)) (log n_int)).
    split; vm_compute; reflexivity.
  - eexists. vm_compute. reflexivity.
Qed.

Lemma reference_fibonacci_contract :
  fibonacci_contract reference_engine (Integer 0) (Integer 0) (Integer 1)
    fib_closed_form fib_closed_form.
Proof.
  constructor.
  - vm_compute. reflexivity.
  - vm_compute. reflexivity.
  - vm_compute. reflexivity.
  - vm_compute. reflexivity.
  - vm_compute. reflexivity.
  - exact reference_fib_unmatched.
  - vm_compute. discriminate.
Qed.

(** C1, a run.  The reference engine solves the Fibonacci request and the
    class reported is the text of the closed form. *)
Lemma fibonacci_class_is_not_phi_reference :
  exists verified,
    solve_linear_recurrence reference_engine fib_request
    = Ok (response
            [ ("success", VBool true);
              ("closed_form", VStr (str reference_engine fib_closed_form));
              ("complexity", VStr ("O(" ++ str reference_engine fib_closed_form ++ ")"));
              ("latex", VStr (latex reference_engine fib_closed_form));
              ("verified", VBool verified);
              ("error", VNone) ])
    /\ "O(" ++ str reference_engine fib_closed_form ++ ")" <> "O(phi^n)".
Proof.
  exact (fibonacci_class_is_not_phi reference_engine _ _ _ _ _ reference_fibonacci_contract).
Defined.

(** The closed form takes the values 0, 1, 1, 2, 3, 5, 8 at 0, ..., 6. *)
Lemma fibonacci_closed_form_values :
  map (fun k => a <- subs reference_engine fib_closed_form n_int (Integer k) ;;
                simplify reference_engine a)
      [0; 1; 2; 3; 4; 5; 6]
  = map (fun v => Ok (Integer v)) [0; 1; 1; 2; 3; 5; 8].
Proof. vm_compute. reflexivity. Qed.

(** Against the power [golden^n] the closed form has a positive finite
    limit: an entry [(golden**n, "O(phi^n)")] would accept it. *)
Lemma golden_power_accepts_fibonacci :
  try_candidate reference_engine fib_closed_form n_int (Pow golden n_int, "O(phi^n)")
  = Ok (Some "O(phi^n)").
Proof. vm_compute. reflexivity. Qed.

(** The ladder is the table but for the rung of the golden ratio. *)
Lemma ladder_is_table_but_golden (n : Expr) (j : nat) :
  j <> 13%nat -> nth j (ladder n) (nan, "") = nth j (candidates n) (nan, "").
Proof.
  intros H13.
  do 16 (destruct j as [| j]; [try reflexivity; exfalso; apply H13; reflexivity |]).
  destruct j; reflexivity.
Qed.

(** The entry of the table under [O(phi^n)] does not mention [n]. *)
Lemma golden_entry_is_constant (n : Expr) :
  nth 13 (candidates n) (nan, "") = (golden, "O(phi^n)")
  /\ Reference.has_symbol golden = false.
Proof. split; reflexivity. Qed.

Lemma reference_ladder_contract : ladder_contract reference_engine n_int.
Proof.
  constructor.
  - vm_compute. reflexivity.
  - vm_compute. reflexivity.
  - vm_compute. reflexivity.
  - vm_compute. reflexivity.
  - vm_compute. reflexivity.
  - intros j Hj. each_index j; vm_compute; reflexivity.
  - intros i j Hij. each_index j; each_index i; vm_compute; reflexivity.
  - intros i j Hij. each_index j; each_index i; vm_compute; reflexivity.
  - intros j Hj H13. each_index j; try (exfalso; apply H13; reflexivity);
      eexists; (split; [vm_compute; reflexivity |]); vm_compute; reflexivity.
  - exists (Div (log (Abs (Pow golden n_int))) (log n_int)).
    split; vm_compute; reflexivity.
  - eexists. vm_compute. reflexivity.
  - vm_compute. intuition discriminate.
Qed.

(** C2, a run: the rungs [1.5^n] and [golden^n]. *)
Lemma ladder_rungs_separated_reference :
  extract_complexity reference_engine (rung n_int 13) n_int <> Ok (rung_label n_int 12)
  /\ verify_big_theta reference_engine (rung n_int 12) (rung n_int 13) n_int
     = Ok (false, None)
  /\ verify_big_o reference_engine (rung n_int 12) (rung n_int 13) n_int
     = Ok (true, Some (FFin 0)).
Proof.
  apply (ladder_rungs_separated reference_engine n_int reference_ladder_contract 12 13).
  lia.
Defined.

(** C4, a run: the driving term [n*log(n)] has no degree, and the answer
    is the estimate [n^1.0000], not verified. *)
Lemma akra_bazzi_fallback_reference :
  solve_divide_conquer reference_engine linearithmic_work_request
  = Ok (akra_bazzi_response reference_engine (FFin 1) (Integer 1))
  /\ dict_lookup (KStr "complexity") (akra_bazzi_response reference_engine (FFin 1) (Integer 1))
     = Some (VStr "O(n^1.0000)").
Proof.
  destruct (akra_bazzi_fallback reference_engine linearithmic_work_request
              (Mul n_real (log n_real)) (Integer 1) (FFin 1))
    as [Hrun [Hclass _]]; [vm_compute; reflexivity .. |].
  split; [exact Hrun | exact Hclass].
Defined.

(** C6, as amended, a run: the closed form [n**2] meets [T(0) = 0] and
    [T(1) = 1] and
    misses [T(2) = 3]; the one miss keeps the flag from being true. *)
Lemma verified_base_cases_iff_reference :
  exists r,
    verify_recurrence reference_engine mismatch_request = Ok r
    /\ dict_lookup (KStr "verified_base_cases") r <> Some (VBool true).
Proof.
  destruct (verified_base_cases_iff reference_engine mismatch_request)
    as [r [Hrun [_ Hmiss]]].
  exists r. split; [exact Hrun |].
  apply (Hmiss (Pow n_int (Integer 2))
           [(KStr "0", VInt 0); (KStr "1", VInt 1); (KStr "2", VInt 3)]
           [(0, Integer 0); (1, Integer 1); (2, Integer 3)]).
  - vm_compute. reflexivity.
  - vm_compute. reflexivity.
  - vm_compute. reflexivity.
  - apply Exists_cons_tl. apply Exists_cons_tl. apply Exists_cons_hd.
    eexists. eexists. split; [vm_compute; reflexivity |].
    split; vm_compute; reflexivity.
Defined.

(** The response to the same request. *)
Lemma mismatch_reported :
  exists details,
    verify_recurrence reference_engine mismatch_request
    = Ok (response
            [ ("success", VBool true);
              ("verified_base_cases", VBool false);
              ("base_case_details", VDict details);
              ("complexity", VStr "O(n^2)");
              ("error", VNone) ]).
Proof. eexists. vm_compute. reflexivity. Qed.

(** C7, as amended, a run: the request with the empty mapping. *)
Lemma empty_base_verifies_reference :
  exists r,
    verify_recurrence reference_engine empty_base_request = Ok r
    /\ dict_lookup (KStr "verified_base_cases") r = Some (VBool true)
    /\ dict_lookup (KStr "base_case_details") r = Some (VDict []).
Proof.
  destruct (verify_recurrence reference_engine empty_base_request) as [r | e] eqn:Hrun;
    [| vm_compute in Hrun; discriminate Hrun].
  exists r. split; [reflexivity |].
  apply (empty_base_verifies reference_engine empty_base_request r).
  - reflexivity.
  - exact Hrun.
  - vm_compute in Hrun. inversion Hrun. reflexivity.
Defined.

(** C7, the counterexample.  A verify request with an empty base-case
    mapping is answered with success and [verified_base_cases = true]. *)
Lemma empty_base_reported_verified :
  dict_get empty_base_request "base" (VDict []) = VDict []
  /\ verify_recurrence reference_engine empty_base_request
     = Ok (response
             [ ("success", VBool true);
               ("verified_base_cases", VBool true);
               ("base_case_details", VDict []);
               ("complexity", VStr "O(n)");
               ("error", VNone) ]).
Proof. split; vm_compute; reflexivity. Qed.

(** C8, the failing input.  For the request [T(n) = 2T(n-1)] with the
    base cases [T(0) = 1] and [T(1) = 2] the closed form is found and
    verified.  The recurrence has order one, so the trial indices
    [order + 1] to [order + 9] are 2 to 10; the indices the check takes are
    3 to 11, because it takes the number of base cases, two, for the
    order. *)
Lemma trial_indices_follow_base_cases :
  solve_linear_recurrence reference_engine doubling_request
  = Ok (response
          [ ("success", VBool true);
            ("closed_form", VStr "2**n");
            ("complexity", VStr "O(2^n)");
            ("latex", VStr "2**n");
            ("verified", VBool true);
            ("error", VNone) ])
  /\ recurrence_order [VInt 2] = 1
  /\ build_init_conds reference_engine [(KStr "0", VInt 1); (KStr "1", VInt 2)] []
     = Ok [(0, Integer 1); (1, Integer 2)]
  /\ trial_indices [(0, Integer 1); (1, Integer 2)] = [3; 4; 5; 6; 7; 8; 9; 10; 11]
  /\ trial_indices [(0, Integer 1); (1, Integer 2)]
     <> range (recurrence_order [VInt 2] + 1) (recurrence_order [VInt 2] + 10).
Proof.
  split; [vm_compute; reflexivity |].
  split; [reflexivity |].
  split; [vm_compute; reflexivity |].
  split; [reflexivity |].
  vm_compute. discriminate.
Qed.

(** C9, a run: the exception that leaves [main] is the [ValueError] of
    [int]. *)
Lemma bad_base_key_escapes_reference :
  exists e, main reference_engine (Json (VDict bad_base_key_request)) = Uncaught e.
Proof.
  apply (bad_base_key_escapes reference_engine (Integer 0)).
  vm_compute. reflexivity.
Defined.

Lemma bad_base_key_value_error :
  main reference_engine (Json (VDict bad_base_key_request))
  = Uncaught (ValueError "invalid literal for int() with base 10: 'x'").
Proof. vm_compute. reflexivity. Qed.


(** The square root has the degree one half: a driving term need not be a
    polynomial in the strict sense to take the Master Theorem branch. *)
Lemma square_root_has_degree :
  get_polynomial_degree reference_engine (sqrt n_real) n_real
  = Ok (Some (VFloat (FFin (1#2)))).
Proof. vm_compute. reflexivity. Qed.

(** The entry of the table under [O(phi^n)], taken as a rung: it is
    classified as a constant, and the rung [1.5^n] below it is not O of
    it. *)
Lemma golden_entry_out_of_order :
  extract_complexity reference_engine (candidate n_int 13) n_int = Ok "O(1)"
  /\ verify_big_o reference_engine (candidate n_int 12) (candidate n_int 13) n_int
     = Ok (false, None).
Proof. split; vm_compute; reflexivity. Qed.

(** The closed form [n**2] with the two base cases it meets. *)
Lemma matching_base_cases_reported :
  verify_recurrence reference_engine
    [ (KStr "type", VStr "verify");
      (KStr "solution", VStr "n**2");
      (KStr "base", VDict [(KStr "0", VInt 0); (KStr "1", VInt 1)]) ]
  = Ok (response
          [ ("success", VBool true);
            ("verified_base_cases", VBool true);
            ("base_case_details",
             VDict
               [ (KInt 0, VDict (response [ ("expected", VStr "0"); ("actual", VStr "0");
                                            ("match", VBool true) ]));
                 (KInt 1, VDict (response [ ("expected", VStr "1"); ("actual", VStr "1");
                                            ("match", VBool true) ])) ]);
            ("complexity", VStr "O(n^2)");
            ("error", VNone) ]).
Proof. vm_compute. reflexivity. Qed.

(** A compare request: [n*log(n)] is O of [n^2] and not Theta of it. *)
Lemma compare_request_run :
  compare_complexities reference_engine
    [ (KStr "type", VStr "compare"); (KStr "f", VStr "n*log(n)"); (KStr "g", VStr "n^2");
      (KStr "bound_type", VStr "O") ]
  = Ok (response
          [ ("success", VBool true); ("bound_type", VStr "O"); ("holds", VBool true);
            ("constant", VFloat (FFin 0)); ("comparison", VStr "f < g");
            ("limit_ratio", VStr "0") ])
  /\ compare_complexities reference_engine
       [ (KStr "type", VStr "compare"); (KStr "f", VStr "n*log(n)"); (KStr "g", VStr "n^2") ]
     = Ok (response
             [ ("success", VBool true); ("bound_type", VStr "Theta"); ("holds", VBool false);
               ("constants", VNone); ("comparison", VStr "f < g");
               ("limit_ratio", VStr "0") ]).
Proof. split; vm_compute; reflexivity. Qed.

(** A malformed expression is answered with a failure response. *)
Lemma malformed_expression_fails :
  exists msg,
    main reference_engine
      (Json (VDict [ (KStr "type", VStr "compare"); (KStr "f", VStr "(n");
                     (KStr "g", VStr "") ]))
    = Printed (failure msg) 0
    /\ msg <> "".
Proof. eexists. split; [vm_compute; reflexivity | discriminate]. Qed.

(** * Further properties *)

(** ** The scan over the table *)

Section Scan.

Variable E : Engine.

Lemma try_candidate_accepts (expr n : Expr) (c : Expr * string) (label : string) :
  try_candidate E expr n c = Ok (Some label) ->
  exists lim, ratio_limit E n expr (fst c) = Ok lim /\ positive_finite E lim = true.
Proof.
  unfold try_candidate, ratio_limit.
  destruct (simplify E (Div expr (fst c))) as [ratio | e]; monad; [| discriminate].
  destruct (limit E ratio n oo) as [lim | e]; monad; [| discriminate].
  destruct (positive_finite E lim) eqn:Hpos; monad.
  - intros _. exists lim. split; [reflexivity | exact Hpos].
  - destruct (expr_eqb lim (Integer 0)); monad; [discriminate |].
    destruct (expr_in lim [oo; zoo]); monad; discriminate.
Qed.

Lemma scan_candidates_split (expr n : Expr) (cs : list (Expr * string)) (label : string) :
  scan_candidates E expr n cs = Ok (Some label) ->
  exists pre c post,
    cs = (pre ++ c :: post)%list
    /\ snd c = label
    /\ try_candidate E expr n c = Ok (Some label)
    /\ Forall (fun c' => try_candidate E expr n c' = Ok None) pre.
Proof.
  induction cs as [| c cs IH]; simpl.
  - discriminate.
  - destruct (try_candidate E expr n c) as [[l |] | e] eqn:Hc; monad.
    + intros H. assert (l = label) by congruence. subst l.
      exists [], c, cs. split; [reflexivity |].
      split; [symmetry; apply (try_candidate_label E expr n c label Hc) |].
      split; [exact Hc | constructor].
    + intros H. destruct (IH H) as [pre [c' [post [Hcs [Hl [Hc' Hpre]]]]]].
      exists (c :: pre), c', post. subst cs.
      split; [reflexivity |]. split; [exact Hl |]. split; [exact Hc' |].
      constructor; assumption.
    + discriminate.
Qed.

Lemma scan_candidates_join (expr n : Expr) (pre post : list (Expr * string))
  (c : Expr * string) :
  Forall (fun c' => try_candidate E expr n c' = Ok None) pre ->
  try_candidate E expr n c = Ok (Some (snd c)) ->
  scan_candidates E expr n (pre ++ c :: post)%list = Ok (Some (snd c)).
Proof.
  intros Hpre Hc. induction Hpre as [| c' pre Hc' Hpre IH]; simpl.
  - rewrite Hc. reflexivity.
  - rewrite Hc'. monad. exact IH.
Qed.

(** X1. The scan returns the label of the first entry of the table that
    is accepted, and only that: it returns [label] if and only if the
    table splits into entries that are all passed over, an accepted entry
    carrying [label], and a rest that is never consulted. *)
Theorem scan_returns_first_accepted (expr n : Expr) (cs : list (Expr * string))
  (label : string) :
  scan_candidates E expr n cs = Ok (Some label)
  <-> exists pre c post,
        cs = (pre ++ c :: post)%list
        /\ snd c = label
        /\ try_candidate E expr n c = Ok (Some label)
        /\ Forall (fun c' => try_candidate E expr n c' = Ok None) pre.
Proof.
  split.
  - apply scan_candidates_split.
  - intros [pre [c [post [Hcs [Hl [Hc Hpre]]]]]]. subst cs label.
    apply scan_candidates_join; assumption.
Qed.

Lemma golden_label_entry (n : Expr) (c : Expr * string) :
  In c (candidates n) -> snd c = "O(phi^n)" -> fst c = golden.
Proof.
  intros Hin Hl. unfold candidates in Hin. simpl in Hin.
  repeat (destruct Hin as [Hin | Hin];
          [subst c; simpl in Hl; first [discriminate Hl | reflexivity] |]).
  destruct Hin.
Qed.

(** X2. The label [O(phi^n)] is out of reach of the scan.  Its entry is
    the constant [(1 + sqrt(5))/2]; provided an expression with a positive
    finite limit against that constant has one against [1] as well, the
    scan never returns [O(phi^n)], because the entry [1] is consulted
    first and carries [O(1)]. *)
Theorem golden_label_unreachable (expr n : Expr) :
  (forall lim,
      ratio_limit E n expr golden = Ok lim ->
      positive_finite E lim = true ->
      exists lim1,
        ratio_limit E n expr (Integer 1) = Ok lim1 /\ positive_finite E lim1 = true) ->
  scan_candidates E expr n (candidates n) <> Ok (Some "O(phi^n)").
Proof.
  intros Hone Hscan.
  destruct (scan_candidates_split expr n (candidates n) "O(phi^n)" Hscan)
    as [pre [c [post [Hcs [Hl [Hc _]]]]]].
  assert (Hin : In c (candidates n)).
  { rewrite Hcs. apply in_or_app. right. left. reflexivity. }
  assert (Hfst : fst c = golden) by (apply (golden_label_entry n c Hin Hl)).
  destruct (try_candidate_accepts expr n c "O(phi^n)" Hc) as [lim [Hlim Hpos]].
  rewrite Hfst in Hlim.
  destruct (Hone lim Hlim Hpos) as [lim1 [Hlim1 Hpos1]].
  assert (Hfirst : try_candidate E expr n (Integer 1, "O(1)") = Ok (Some "O(1)")).
  { apply (try_candidate_matches E n expr (Integer 1, "O(1)") lim1 Hlim1 Hpos1). }
  unfold candidates in Hscan. cbn [scan_candidates] in Hscan.
  rewrite Hfirst in Hscan. monad in Hscan. discriminate Hscan.
Qed.

End Scan.

(** A run: the constant 3 has the limit [3/golden] against the entry
    and the limit 3 against [1]; it is labelled by neither, being caught
    before the scan, and the scan itself stops at [O(1)]. *)
Lemma golden_label_unreachable_reference :
  scan_candidates reference_engine (Integer 3) n_int (candidates n_int)
  <> Ok (Some "O(phi^n)").
Proof.
  apply (golden_label_unreachable reference_engine (Integer 3) n_int).
  intros lim Hlim Hpos. exists (Integer 3). split; vm_compute; reflexivity.
Defined.

(** ** The three bound checks *)

Section Bounds.

Variable E : Engine.

Lemma verify_big_theta_unfold (f g n : Expr) :
  verify_big_theta E f g n
  = match ratio_limit E n f g with
    | Ok lim =>
        if positive_finite E lim
        then match float_of E lim with
             | Ok c => Ok (true, Some (fscale c (1#2), fscale c 2))
             | Raise _ => Ok (false, None)
             end
        else Ok (false, None)
    | Raise _ => Ok (false, None)
    end.
Proof.
  unfold verify_big_theta, ratio_limit.
  destruct (simplify E (Div f g)) as [ratio | e]; monad; [| reflexivity].
  destruct (limit E ratio n oo) as [lim | e]; monad; [| reflexivity].
  destruct (positive_finite E lim); [| reflexivity].
  destruct (float_of E lim); reflexivity.
Qed.

Lemma verify_big_omega_unfold (f g n : Expr) :
  verify_big_omega E f g n
  = match ratio_limit E n f g with
    | Ok lim =>
        if expr_in lim [oo; zoo] then Ok (true, Some FInf)
        else if andb (is_number E lim) (is_positive E lim)
             then match float_of E lim with
                  | Ok c => Ok (true, Some c)
                  | Raise _ => Ok (false, None)
                  end
             else Ok (false, None)
    | Raise _ => Ok (false, None)
    end.
Proof.
  unfold verify_big_omega, ratio_limit.
  destruct (simplify E (Div f g)) as [ratio | e]; monad; [| reflexivity].
  destruct (limit E ratio n oo) as [lim | e]; monad; [| reflexivity].
  destruct (expr_in lim [oo; zoo]); [reflexivity |].
  destruct (andb (is_number E lim) (is_positive E lim)); [| reflexivity].
  destruct (float_of E lim); reflexivity.
Qed.

Lemma verify_big_o_unfold (f g n : Expr) :
  verify_big_o E f g n
  = match ratio_limit E n f g with
    | Ok lim =>
        if andb (andb (is_number E lim) (is_finite E lim)) (is_nonnegative E lim)
        then
          if negb (expr_eqb lim (Integer 0))
          then match float_of E lim with
               | Ok c => Ok (true, Some c)
               | Raise _ => Ok (false, None)
               end
          else Ok (true, Some (FFin 0))
        else if expr_eqb lim (Integer 0) then Ok (true, Some (FFin 0))
        else Ok (false, None)
    | Raise _ => Ok (false, None)
    end.
Proof.
  unfold verify_big_o, ratio_limit.
  destruct (simplify E (Div f g)) as [ratio | e]; monad; [| reflexivity].
  destruct (limit E ratio n oo) as [lim | e]; monad; [| reflexivity].
  destruct (andb (andb (is_number E lim) (is_finite E lim)) (is_nonnegative E lim)).
  - destruct (negb (expr_eqb lim (Integer 0))); [| reflexivity].
    destruct (float_of E lim); reflexivity.
  - destruct (expr_eqb lim (Integer 0)); reflexivity.
Qed.

Ltac settle_bound :=
  eexists; eexists; split; [reflexivity |]; split; intros H; congruence.

(** X3. Each of the three bound checks always answers, and reports a
    constant exactly when the bound holds: [(True, c)] or [(False, None)],
    also when the library raises or the limit cannot be turned into a
    float. *)
Theorem bound_holds_iff_constant (f g n : Expr) :
  (exists holds c, verify_big_o E f g n = Ok (holds, c) /\ (holds = true <-> c <> None))
  /\ (exists holds c,
         verify_big_omega E f g n = Ok (holds, c) /\ (holds = true <-> c <> None))
  /\ (exists holds c,
         verify_big_theta E f g n = Ok (holds, c) /\ (holds = true <-> c <> None)).
Proof.
  split; [| split].
  - rewrite verify_big_o_unfold.
    destruct (ratio_limit E n f g) as [lim | e]; [| settle_bound].
    destruct (andb (andb (is_number E lim) (is_finite E lim)) (is_nonnegative E lim)).
    + destruct (negb (expr_eqb lim (Integer 0))); [| settle_bound].
      destruct (float_of E lim); settle_bound.
    + destruct (expr_eqb lim (Integer 0)); settle_bound.
  - rewrite verify_big_omega_unfold.
    destruct (ratio_limit E n f g) as [lim | e]; [| settle_bound].
    destruct (expr_in lim [oo; zoo]); [settle_bound |].
    destruct (andb (is_number E lim) (is_positive E lim)); [| settle_bound].
    destruct (float_of E lim); settle_bound.
  - rewrite verify_big_theta_unfold.
    destruct (ratio_limit E n f g) as [lim | e]; [| settle_bound].
    destruct (positive_finite E lim); [| settle_bound].
    destruct (float_of E lim); settle_bound.
Qed.

Lemma theta_holds_inv (f g n : Expr) (cs : option (pyfloat * pyfloat)) :
  verify_big_theta E f g n = Ok (true, cs) ->
  exists lim c,
    ratio_limit E n f g = Ok lim
    /\ positive_finite E lim = true
    /\ float_of E lim = Ok c
    /\ cs = Some (fscale c (1#2), fscale c 2).
Proof.
  rewrite verify_big_theta_unfold.
  destruct (ratio_limit E n f g) as [lim | e]; [| discriminate].
  destruct (positive_finite E lim) eqn:Hpos; [| discriminate].
  destruct (float_of E lim) as [c | e] eqn:Hc; [| discriminate].
  intros H. exists lim, c. repeat split; congruence.
Qed.

(** X4. Theta implies O and Omega: when the Theta check holds, the Omega
    check holds, and the O check holds as well provided the library never
    calls an expression positive without calling it non-negative. *)
Theorem theta_implies_o_and_omega (f g n : Expr) (cs : option (pyfloat * pyfloat)) :
  (forall e, is_positive E e = true -> is_nonnegative E e = true) ->
  verify_big_theta E f g n = Ok (true, cs) ->
  (exists c, verify_big_o E f g n = Ok (true, Some c))
  /\ (exists c, verify_big_omega E f g n = Ok (true, Some c)).
Proof.
  intros Hsign Htheta.
  destruct (theta_holds_inv f g n cs Htheta) as [lim [c [Hlim [Hpos [Hc _]]]]].
  unfold positive_finite in Hpos.
  apply andb_prop in Hpos. destruct Hpos as [Hpos Hfinite].
  apply andb_prop in Hpos. destruct Hpos as [Hnumber Hpositive].
  split.
  - rewrite verify_big_o_unfold, Hlim.
    rewrite Hnumber, Hfinite, (Hsign lim Hpositive). cbn [andb].
    destruct (negb (expr_eqb lim (Integer 0))).
    + rewrite Hc. exists c. reflexivity.
    + exists (FFin 0). reflexivity.
  - rewrite verify_big_omega_unfold, Hlim.
    destruct (expr_in lim [oo; zoo]).
    + exists FInf. reflexivity.
    + rewrite Hnumber, Hpositive. cbn [andb]. rewrite Hc. exists c. reflexivity.
Qed.


Lemma expr_eqb_zero (e : Expr) : expr_eqb e (Integer 0) = true -> e = Integer 0.
Proof.
  destruct e; simpl; try discriminate.
  intros H. apply Z.eqb_eq in H. congruence.
Qed.

Lemma expr_in_infinities (e : Expr) :
  expr_in e [oo; zoo; neg_oo] = true -> e = oo \/ e = zoo \/ e = neg_oo.
Proof.
  destruct e; simpl; try discriminate; intros _; tauto.
Qed.

(** X6. The Theta check and the qualitative relation agree.  When zero is
    not called positive and the infinities are not called finite, a Theta
    check that holds comes with the relation [f ~ g]; and the relation
    [f ~ g] is only ever reported for a limit that is a positive finite
    number. *)
Theorem theta_agrees_with_relation (f g n : Expr) :
  is_positive E (Integer 0) = false ->
  is_finite E oo = false ->
  is_finite E zoo = false ->
  is_finite E neg_oo = false ->
  (forall cs, verify_big_theta E f g n = Ok (true, cs) ->
              compare_asymptotic E f g n = Ok "f ~ g")
  /\ (compare_asymptotic E f g n = Ok "f ~ g" ->
      exists lim, ratio_limit E n f g = Ok lim /\ positive_finite E lim = true).
Proof.
  intros Hzero Hoo Hzoo Hneg. split.
  - intros cs Htheta.
    destruct (theta_holds_inv f g n cs Htheta) as [lim [c [Hlim [Hpos _]]]].
    unfold compare_asymptotic. unfold ratio_limit in Hlim.
    destruct (simplify E (Div f g)) as [ratio | e]; monad in Hlim; [| discriminate Hlim].
    monad. rewrite Hlim. monad.
    destruct (expr_eqb lim (Integer 0)) eqn:Hz.
    + apply expr_eqb_zero in Hz. subst lim.
      unfold positive_finite in Hpos. rewrite Hzero in Hpos.
      rewrite andb_false_r in Hpos. discriminate Hpos.
    + destruct (expr_in lim [oo; zoo; neg_oo]) eqn:Hinf.
      * apply expr_in_infinities in Hinf. unfold positive_finite in Hpos.
        destruct Hinf as [H | [H | H]]; subst lim;
          rewrite ?Hoo, ?Hzoo, ?Hneg, andb_false_r in Hpos; discriminate Hpos.
      * rewrite Hpos. reflexivity.
  - unfold compare_asymptotic, ratio_limit.
    destruct (simplify E (Div f g)) as [ratio | e]; monad; [| discriminate].
    destruct (limit E ratio n oo) as [lim | e]; monad; [| discriminate].
    destruct (expr_eqb lim (Integer 0)); monad; [discriminate |].
    destruct (expr_in lim [oo; zoo; neg_oo]); monad; [discriminate |].
    destruct (positive_finite E lim) eqn:Hpos; monad.
    + intros _. exists lim. split; [reflexivity | exact Hpos].
    + destruct (simplify E (Div g f)) as [inv_ratio | e]; monad; [| discriminate].
      destruct (limit E inv_ratio n oo) as [inv_lim | e]; monad; [| discriminate].
      destruct (expr_eqb inv_lim (Integer 0)); monad; [discriminate |].
      destruct (expr_in inv_lim [oo; zoo]); monad; discriminate.
Qed.

(** X7. Every [bound_type] other than ["O"] and ["Omega"] is handled as
    Theta: a successful answer to such a compare request says
    [bound_type: Theta] and carries the verdict and the constants of the
    Theta check of the two parsed expressions. *)
Theorem other_bound_types_are_theta (data r : pydict) :
  is_str (dict_get data "bound_type" (VStr "Theta")) "O" = false ->
  is_str (dict_get data "bound_type" (VStr "Theta")) "Omega" = false ->
  compare_complexities E data = Ok r ->
  dict_lookup (KStr "success") r = Some (VBool true) ->
  exists f g holds constants,
    driving_term E (dict_get data "f" (VStr "n")) (Symbol "n" PositiveInteger) = Ok f
    /\ driving_term E (dict_get data "g" (VStr "n")) (Symbol "n" PositiveInteger) = Ok g
    /\ verify_big_theta E f g (Symbol "n" PositiveInteger) = Ok (holds, constants)
    /\ dict_lookup (KStr "bound_type") r = Some (VStr "Theta")
    /\ dict_lookup (KStr "holds") r = Some (VBool holds)
    /\ dict_lookup (KStr "constants") r = Some (opt_float_pair constants).
Proof.
  intros HO HOmega Hr Hsuccess. unfold compare_complexities in Hr.
  rewrite HO, HOmega in Hr.
  destruct (parse_complexity E (dict_get data "f" (VStr "n"))) as [pf | e] eqn:Hpf;
    monad in Hr; [| inversion Hr; subst r; discriminate Hsuccess].
  destruct (subs E pf complexity_n (Symbol "n" PositiveInteger)) as [f | e] eqn:Hf;
    monad in Hr; [| inversion Hr; subst r; discriminate Hsuccess].
  destruct (parse_complexity E (dict_get data "g" (VStr "n"))) as [pg | e] eqn:Hpg;
    monad in Hr; [| inversion Hr; subst r; discriminate Hsuccess].
  destruct (subs E pg complexity_n (Symbol "n" PositiveInteger)) as [g | e] eqn:Hg;
    monad in Hr; [| inversion Hr; subst r; discriminate Hsuccess].
  destruct (compare_asymptotic E f g (Symbol "n" PositiveInteger)) as [comparison | e];
    monad in Hr; [| inversion Hr; subst r; discriminate Hsuccess].
  destruct (verify_big_theta E f g (Symbol "n" PositiveInteger))
    as [[holds constants] | e] eqn:Htheta;
    monad in Hr; [| inversion Hr; subst r; discriminate Hsuccess].
  destruct (limit E (Div f g) (Symbol "n" PositiveInteger) oo) as [lim | e];
    monad in Hr; [| inversion Hr; subst r; discriminate Hsuccess].
  injection Hr as Hr'. subst r.
  exists f, g, holds, constants. unfold driving_term.
  rewrite Hpf, Hpg. monad. rewrite Hf, Hg.
  repeat split; first [reflexivity | exact Htheta].
Qed.

End Bounds.

(** The sign queries of the reference engine are read off one sign. *)
Lemma reference_positive_is_nonnegative (e : Expr) :
  is_positive reference_engine e = true -> is_nonnegative reference_engine e = true.
Proof.
  cbn [is_positive is_nonnegative reference_engine].
  unfold Reference.is_positive, Reference.is_nonnegative, Reference.sign_is.
  destruct e; try discriminate;
    destruct (Reference.const_value _); try discriminate;
    intros H; apply Z.ltb_lt in H; apply Z.leb_le; lia.
Qed.

Lemma theta_implies_o_and_omega_reference :
  (exists c, verify_big_o reference_engine three_n_squared n_squared n_int
             = Ok (true, Some c))
  /\ (exists c, verify_big_omega reference_engine three_n_squared n_squared n_int
                = Ok (true, Some c)).
Proof.
  apply (theta_implies_o_and_omega reference_engine three_n_squared n_squared n_int
           (Some (FFin (3#2), FFin 6))).
  - exact reference_positive_is_nonnegative.
  - vm_compute. reflexivity.
Defined.


Lemma theta_agrees_with_relation_reference :
  (forall cs, verify_big_theta reference_engine three_n_squared n_squared n_int
              = Ok (true, cs) ->
              compare_asymptotic reference_engine three_n_squared n_squared n_int
              = Ok "f ~ g")
  /\ (compare_asymptotic reference_engine three_n_squared n_squared n_int = Ok "f ~ g" ->
      exists lim,
        ratio_limit reference_engine n_int three_n_squared n_squared = Ok lim
        /\ positive_finite reference_engine lim = true).
Proof.
  apply (theta_agrees_with_relation reference_engine three_n_squared n_squared n_int);
    vm_compute; reflexivity.
Defined.

Lemma other_bound_types_are_theta_reference :
  exists f g holds constants,
    driving_term reference_engine (dict_get lower_theta_request "f" (VStr "n"))
      (Symbol "n" PositiveInteger) = Ok f
    /\ driving_term reference_engine (dict_get lower_theta_request "g" (VStr "n"))
         (Symbol "n" PositiveInteger) = Ok g
    /\ verify_big_theta reference_engine f g (Symbol "n" PositiveInteger)
       = Ok (holds, constants)
    /\ dict_lookup (KStr "bound_type") lower_theta_response = Some (VStr "Theta")
    /\ dict_lookup (KStr "holds") lower_theta_response = Some (VBool holds)
    /\ dict_lookup (KStr "constants") lower_theta_response
       = Some (opt_float_pair constants).
Proof.
  apply (other_bound_types_are_theta reference_engine lower_theta_request
           lower_theta_response);
    vm_compute; reflexivity.
Defined.

(** ** The entry point *)

Section EntryPoint.

Variable E : Engine.

(** X8. A request that is a JSON object and whose type is neither
    [linear] nor [divide_conquer] is always answered: [main] prints a
    response and ends with status 0.  For a type that is none of the four,
    the response is the failure [Unknown type: ...]. *)
Theorem other_requests_are_answered (d : pydict) :
  is_str (dict_get d "type" (VStr "linear")) "linear" = false ->
  is_str (dict_get d "type" (VStr "linear")) "divide_conquer" = false ->
  (exists r, main E (Json (VDict d)) = Printed r 0)
  /\ (is_str (dict_get d "type" (VStr "linear")) "verify" = false ->
      is_str (dict_get d "type" (VStr "linear")) "compare" = false ->
      main E (Json (VDict d))
      = Printed (failure ("Unknown type: "
                          ++ format_val E (dict_get d "type" (VStr "linear")))) 0).
Proof.
  intros Hlinear Hdivide. unfold main, dispatch, py_get. monad.
  rewrite Hlinear, Hdivide. cbn [as_dict]. split.
  - destruct (is_str (dict_get d "type" (VStr "linear")) "verify").
    + destruct (verify_recurrence_total E d) as [r Hr]. rewrite Hr. exists r. reflexivity.
    + destruct (is_str (dict_get d "type" (VStr "linear")) "compare").
      * destruct (compare_complexities_total E d) as [r Hr]. rewrite Hr.
        exists r. reflexivity.
      * eexists. reflexivity.
  - intros Hverify Hcompare. rewrite Hverify, Hcompare. reflexivity.
Qed.

(** X9. A JSON value that is not an object (a list, a number, a string,
    [null]) is not answered: the lookup of its type raises
    [AttributeError], which nothing catches. *)
Theorem non_object_input_escapes (v : pyval) :
  (forall d, v <> VDict d) ->
  exists e, main E (Json v) = Uncaught e /\ exn_type e = "AttributeError".
Proof.
  intros Hv. unfold main, dispatch, py_get.
  destruct v; try (eexists; split; reflexivity).
  exfalso. apply (Hv d). reflexivity.
Qed.

End EntryPoint.

Lemma other_requests_are_answered_reference :
  (exists r, main reference_engine (Json (VDict mismatch_request)) = Printed r 0)
  /\ (is_str (dict_get mismatch_request "type" (VStr "linear")) "verify" = false ->
      is_str (dict_get mismatch_request "type" (VStr "linear")) "compare" = false ->
      main reference_engine (Json (VDict mismatch_request))
      = Printed (failure ("Unknown type: "
                          ++ format_val reference_engine
                               (dict_get mismatch_request "type" (VStr "linear")))) 0).
Proof.
  apply (other_requests_are_answered reference_engine mismatch_request);
    vm_compute; reflexivity.
Defined.

Lemma non_object_input_escapes_reference :
  exists e,
    main reference_engine (Json (VList [VInt 1; VInt 2])) = Uncaught e
    /\ exn_type e = "AttributeError".
Proof.
  apply (non_object_input_escapes reference_engine (VList [VInt 1; VInt 2])).
  intros d H. discriminate H.
Defined.

(** ** The initial conditions *)

Lemma init_set_in (d : list (Z * Expr)) (k : Z) (v : Expr) (j : Z) :
  In j (map fst (init_set d k v)) <-> j = k \/ In j (map fst d).
Proof.
  induction d as [| [k' v'] d IH]; simpl.
  - intuition congruence.
  - destruct (k =? k') eqn:Hk; simpl.
    + apply Z.eqb_eq in Hk. subst k'. intuition congruence.
    + rewrite IH. intuition congruence.
Qed.

Lemma init_set_nodup (d : list (Z * Expr)) (k : Z) (v : Expr) :
  NoDup (map fst d) -> NoDup (map fst (init_set d k v)).
Proof.
  induction d as [| [k' v'] d IH]; simpl; intros Hd.
  - constructor; [intros [] | constructor].
  - inversion Hd as [| x l Hnotin Hrest]; subst.
    destruct (k =? k') eqn:Hk; simpl.
    + constructor; assumption.
    + constructor; [| apply IH; exact Hrest].
      rewrite init_set_in. intros [Heq | Hin]; [| exact (Hnotin Hin)].
      subst k'. rewrite Z.eqb_refl in Hk. discriminate Hk.
Qed.

Lemma init_set_length (d : list (Z * Expr)) (k : Z) (v : Expr) :
  (List.length (init_set d k v) <= S (List.length d))%nat.
Proof.
  induction d as [| [k' v'] d IH]; simpl; [lia |].
  destruct (k =? k'); simpl; lia.
Qed.

Lemma init_get_set_same (d : list (Z * Expr)) (k : Z) (v : Expr) :
  init_get (init_set d k v) k = Some v.
Proof.
  induction d as [| [k' v'] d IH]; simpl.
  - rewrite Z.eqb_refl. reflexivity.
  - destruct (k =? k') eqn:Hk; simpl; rewrite Hk; [reflexivity | exact IH].
Qed.

Lemma init_get_set_other (d : list (Z * Expr)) (k : Z) (v : Expr) (j : Z) :
  j <> k -> init_get (init_set d k v) j = init_get d j.
Proof.
  intros Hj. induction d as [| [k' v'] d IH]; simpl.
  - destruct (j =? k) eqn:H; [apply Z.eqb_eq in H; contradiction | reflexivity].
  - destruct (k =? k') eqn:Hk; simpl.
    + apply Z.eqb_eq in Hk. subst k'.
      destruct (j =? k) eqn:H; [apply Z.eqb_eq in H; contradiction | reflexivity].
    + rewrite IH. reflexivity.
Qed.

Section InitialConditions.

Variable E : Engine.

Lemma build_init_conds_keys (items : pydict) :
  forall (acc ic : list (Z * Expr)),
    build_init_conds E items acc = Ok ic ->
    NoDup (map fst acc) ->
    NoDup (map fst ic)
    /\ (List.length ic <= List.length acc + List.length items)%nat
    /\ (forall j,
           In j (map fst ic)
           <-> In j (map fst acc)
               \/ exists key v, In (key, v) items /\ int_of_key key = Ok j).
Proof.
  induction items as [| [key v] items IH]; intros acc ic H Hacc.
  - simpl in H. injection H as H. subst ic.
    split; [exact Hacc |]. split; [simpl; lia |].
    intros j. split; [tauto |]. intros [Hin | [key [v [[] _]]]]. exact Hin.
  - simpl in H.
    destruct (sympify E v) as [value | e]; monad in H; [| discriminate H].
    destruct (int_of_key key) as [index | e] eqn:Hkey; monad in H; [| discriminate H].
    destruct (IH _ _ H (init_set_nodup acc index value Hacc)) as [Hnodup [Hlen Hin]].
    split; [exact Hnodup |]. split.
    + pose proof (init_set_length acc index value). simpl. lia.
    + intros j. rewrite Hin, init_set_in. split.
      * intros [[Hj | Hj] | [key' [v' [Hitem Hkey']]]].
        -- right. exists key, v. subst j. split; [left; reflexivity | exact Hkey].
        -- left. exact Hj.
        -- right. exists key', v'. split; [right; exact Hitem | exact Hkey'].
      * intros [Hj | [key' [v' [[Hitem | Hitem] Hkey']]]].
        -- left. right. exact Hj.
        -- injection Hitem as Hk Hv. subst key' v'. left. left. congruence.
        -- right. exists key', v'. split; assumption.
Qed.

(** X10. The initial conditions built from the base cases have one entry
    for each index, however often and in whatever spelling the index is
    declared: the indices are distinct, they are exactly the keys read as
    integers, and there are at most as many conditions as base cases. *)
Theorem initial_conditions_by_index (items : pydict) (init_conds : list (Z * Expr)) :
  build_init_conds E items [] = Ok init_conds ->
  NoDup (map fst init_conds)
  /\ (List.length init_conds <= List.length items)%nat
  /\ (forall j,
         In j (map fst init_conds)
         <-> exists key v, In (key, v) items /\ int_of_key key = Ok j).
Proof.
  intros H.
  destruct (build_init_conds_keys items [] init_conds H (NoDup_nil Z))
    as [Hnodup [Hlen Hin]].
  split; [exact Hnodup |]. split; [exact Hlen |].
  intros j. rewrite Hin. simpl. tauto.
Qed.

Lemma build_init_conds_app (pre post : pydict) (acc : list (Z * Expr)) :
  build_init_conds E (pre ++ post)%list acc
  = (mid <- build_init_conds E pre acc ;; build_init_conds E post mid).
Proof.
  revert acc. induction pre as [| [key v] pre IH]; intros acc; simpl.
  - reflexivity.
  - destruct (sympify E v) as [value | e]; monad; [| reflexivity].
    destruct (int_of_key key) as [index | e]; monad; [| reflexivity].
    apply IH.
Qed.

Lemma build_init_conds_keeps (post : pydict) (j : Z) :
  (forall key v, In (key, v) post -> int_of_key key <> Ok j) ->
  forall acc ic,
    build_init_conds E post acc = Ok ic -> init_get ic j = init_get acc j.
Proof.
  induction post as [| [key v] post IH]; intros Hpost acc ic H; simpl in H.
  - injection H as H. subst ic. reflexivity.
  - destruct (sympify E v) as [value | e]; monad in H; [| discriminate H].
    destruct (int_of_key key) as [index | e] eqn:Hkey; monad in H; [| discriminate H].
    rewrite (IH (fun key' v' Hin => Hpost key' v' (or_intror Hin)) _ _ H).
    apply init_get_set_other. intros Hj. subst index.
    apply (Hpost key v (or_introl eq_refl)). exact Hkey.
Qed.

(** X11. When an index is declared more than once, the last declaration
    wins: the condition at index [j] is the value of the last base case
    whose key reads as [j]. *)
Theorem last_declaration_wins (pre post : pydict) (key : pykey) (v : pyval) (j : Z)
  (init_conds : list (Z * Expr)) :
  int_of_key key = Ok j ->
  (forall key' v', In (key', v') post -> int_of_key key' <> Ok j) ->
  build_init_conds E (pre ++ (key, v) :: post)%list [] = Ok init_conds ->
  exists value, sympify E v = Ok value /\ init_get init_conds j = Some value.
Proof.
  intros Hkey Hpost H. rewrite build_init_conds_app in H.
  destruct (build_init_conds E pre []) as [mid | e]; monad in H; [| discriminate H].
  simpl in H.
  destruct (sympify E v) as [value | e]; monad in H; [| discriminate H].
  rewrite Hkey in H. monad in H.
  exists value. split; [reflexivity |].
  rewrite (build_init_conds_keeps post j Hpost _ _ H).
  apply init_get_set_same.
Qed.

(** X12. The numeric check of a closed form does not look at the values
    of the initial conditions, only at how many there are. *)
Theorem numeric_check_ignores_values
  (solution n recurrence_eq : Expr) (init_conds1 init_conds2 : list (Z * Expr)) :
  List.length init_conds1 = List.length init_conds2 ->
  verify_solution_numerically E solution n recurrence_eq init_conds1
  = verify_solution_numerically E solution n recurrence_eq init_conds2.
Proof.
  intros Hlen. unfold verify_solution_numerically, trial_indices.
  rewrite Hlen. reflexivity.
Qed.

End InitialConditions.

Lemma initial_conditions_by_index_reference :
  NoDup (map fst [(1, Integer 2)])
  /\ (List.length [(1, Integer 2)] <= List.length repeated_index_items)%nat
  /\ (forall j,
         In j (map fst [(1, Integer 2)])
         <-> exists key v, In (key, v) repeated_index_items /\ int_of_key key = Ok j).
Proof.
  apply (initial_conditions_by_index reference_engine repeated_index_items
           [(1, Integer 2)]).
  vm_compute. reflexivity.
Defined.

Lemma last_declaration_wins_reference :
  exists value,
    sympify reference_engine (VInt 2) = Ok value
    /\ init_get [(1, Integer 2)] 1 = Some value.
Proof.
  apply (last_declaration_wins reference_engine
           [(KStr "1", VInt 1)] [] (KStr "01") (VInt 2) 1 [(1, Integer 2)]).
  - vm_compute. reflexivity.
  - intros key' v' [].
  - vm_compute. reflexivity.
Defined.

Lemma numeric_check_ignores_values_reference :
  verify_solution_numerically reference_engine n_squared n_int
    (fib_equation (Integer 0)) [(0, Integer 0); (1, Integer 1)]
  = verify_solution_numerically reference_engine n_squared n_int
      (fib_equation (Integer 0)) [(3, Integer 7); (5, Integer 9)].
Proof.
  apply (numeric_check_ignores_values reference_engine). reflexivity.
Defined.

(** ** The report on the base cases *)

Lemma dict_set_fresh (d : pydict) (k : pykey) (v : pyval) :
  dict_lookup k d = None -> dict_set d k v = (d ++ [(k, v)])%list.
Proof.
  induction d as [| [k' v'] d IH]; simpl; [reflexivity |].
  destruct (pykey_eqb k k'); [discriminate |].
  intros H. rewrite (IH H). reflexivity.
Qed.

Lemma NoDup_map_KInt (l : list Z) : NoDup l -> NoDup (map KInt l).
Proof.
  induction 1 as [| x l Hnotin Hl IH]; simpl; constructor; [| exact IH].
  intros Hin. apply in_map_iff in Hin. destruct Hin as [y [Hy Hin]].
  injection Hy as Hy. subst y. exact (Hnotin Hin).
Qed.

Section BaseCaseReport.

Variable E : Engine.

Lemma check_base_cases_details (solution n : Expr) (init_conds : list (Z * Expr)) :
  forall (base_ok : bool) (base_results : pydict) (ok : bool) (results : pydict),
    NoDup (map fst init_conds) ->
    (forall kv, In kv init_conds -> dict_lookup (KInt (fst kv)) base_results = None) ->
    check_base_cases E solution n init_conds base_ok base_results = Ok (ok, results) ->
    exists added,
      results = (base_results ++ added)%list
      /\ map fst added = map (fun kv => KInt (fst kv)) init_conds
      /\ ok = andb base_ok (forallb detail_matches (map snd added)).
Proof.
  induction init_conds as [| [idx expected] rest IH];
    intros base_ok base_results ok results Hnodup Hfresh H; simpl in H.
  - injection H as Hok Hres. subst ok results. exists [].
    rewrite app_nil_r, andb_true_r. repeat split; reflexivity.
  - destruct (subs E solution n (Integer idx)) as [actual | e]; monad in H;
      [| discriminate H].
    destruct (simplify E (Sub actual expected)) as [diff | e]; monad in H;
      [| discriminate H].
    rewrite (dict_set_fresh base_results (KInt idx)) in H
      by (apply (Hfresh (idx, expected)); left; reflexivity).
    inversion Hnodup as [| x l Hnotin Hrest]; subst.
    apply IH in H; [| exact Hrest |].
    + destruct H as [added [Hres [Hkeys Hok]]].
      eexists. split; [rewrite Hres, <- app_assoc; reflexivity |].
      split; [simpl; rewrite Hkeys; reflexivity |].
      rewrite Hok. simpl.
      destruct (expr_eqb diff (Integer 0)); destruct base_ok; reflexivity.
    + intros kv Hin. rewrite dict_lookup_app.
      rewrite (Hfresh kv (or_intror Hin)). simpl.
      destruct (fst kv =? idx) eqn:Hk; [| reflexivity].
      apply Z.eqb_eq in Hk. exfalso. apply Hnotin. rewrite <- Hk.
      apply in_map. exact Hin.
Qed.

(** X13. In a successful answer to a verify request the flag
    [verified_base_cases] is the conjunction of the [match] flags of
    [base_case_details], and the details have one entry for each index. *)
Theorem verified_flag_sums_up_details (data r : pydict) :
  verify_recurrence E data = Ok r ->
  dict_lookup (KStr "success") r = Some (VBool true) ->
  exists details,
    dict_lookup (KStr "base_case_details") r = Some (VDict details)
    /\ dict_lookup (KStr "verified_base_cases") r
       = Some (VBool (forallb detail_matches (map snd details)))
    /\ NoDup (map fst details).
Proof.
  intros Hr Hsuccess.
  destruct (verify_recurrence_success E data r Hr Hsuccess)
    as [solution [items [init_conds [base_ok [base_results [complexity
         [_ [_ [Hbuild [Hcheck Hresp]]]]]]]]]].
  destruct (build_init_conds_keys E items [] init_conds Hbuild (NoDup_nil Z))
    as [Hnodup _].
  destruct (check_base_cases_details solution (Symbol "n" PositiveInteger) init_conds
              true [] base_ok base_results Hnodup (fun _ _ => eq_refl) Hcheck)
    as [added [Hres [Hkeys Hok]]].
  simpl in Hres, Hok. subst base_results base_ok r.
  exists added. split; [reflexivity |]. split; [reflexivity |].
  rewrite Hkeys, <- map_map. apply NoDup_map_KInt. exact Hnodup.
Qed.

End BaseCaseReport.

Lemma verified_flag_sums_up_details_reference :
  exists details,
    dict_lookup (KStr "base_case_details") mismatch_response = Some (VDict details)
    /\ dict_lookup (KStr "verified_base_cases") mismatch_response
       = Some (VBool (forallb detail_matches (map snd details)))
    /\ NoDup (map fst details).
Proof.
  apply (verified_flag_sums_up_details reference_engine mismatch_request
           mismatch_response);
    vm_compute; reflexivity.
Defined.

(** ** The degree and the power of the logarithm *)

Section Degree.

Variable E : Engine.

Lemma scan_degrees_split (expr n : Expr) (ds : list pyval) (d : pyval) :
  scan_degrees E expr n ds = Ok (Some d) ->
  exists pre post,
    ds = (pre ++ d :: post)%list
    /\ degree_accepted E expr n d
    /\ Forall (degree_rejected E expr n) pre.
Proof.
  induction ds as [| d0 ds IH]; cbn [scan_degrees]; [discriminate |].
  destruct (limit E (Div expr (pow_num n d0)) n oo) as [ratio | e] eqn:Hlim; monad;
    [| discriminate].
  destruct (expr_in ratio [Integer 0; oo; neg_oo; zoo; nan]) eqn:Hin; cbn [negb].
  - intros H. destruct (IH H) as [pre [post [Hds [Hacc Hpre]]]].
    exists (d0 :: pre), post. subst ds. split; [reflexivity |]. split; [exact Hacc |].
    constructor; [| exact Hpre]. exists ratio. split; [exact Hlim | left; exact Hin].
  - destruct (is_constant E ratio) as [[|] | e] eqn:Hconst; monad; [| | discriminate].
    + intros H. injection H as H. subst d0.
      exists [], ds. split; [reflexivity |]. split; [| constructor].
      exists ratio. repeat split; assumption.
    + intros H. destruct (IH H) as [pre [post [Hds [Hacc Hpre]]]].
      exists (d0 :: pre), post. subst ds. split; [reflexivity |]. split; [exact Hacc |].
      constructor; [| exact Hpre]. exists ratio. split; [exact Hlim | right; exact Hconst].
Qed.

(** X14. What [get_polynomial_degree] returns.  For a polynomial it is
    the degree the library reports, as a float.  Otherwise it is the first
    degree of the table [0, 0.5, 1, ..., 5] against whose power the
    expression has a constant limit that is none of [0], the infinities
    and [nan]; every smaller degree of the table was tried and passed
    over. *)
Theorem polynomial_degree_is_first_accepted (expr n : Expr) (d : pyval) :
  get_polynomial_degree E expr n = Ok (Some d) ->
  (is_polynomial E expr n = Ok true
   /\ exists f, poly_degree E expr n = Ok f /\ d = VFloat f)
  \/ (is_polynomial E expr n = Ok false
      /\ exists pre post,
           degree_table = (pre ++ d :: post)%list
           /\ degree_accepted E expr n d
           /\ Forall (degree_rejected E expr n) pre).
Proof.
  unfold get_polynomial_degree.
  destruct (is_polynomial E expr n) as [[|] | e]; monad; [| | discriminate].
  - destruct (poly_degree E expr n) as [f | e]; monad; [| discriminate].
    intros H. injection H as H. left. split; [reflexivity |].
    exists f. split; [reflexivity | congruence].
  - destruct (scan_degrees E expr n degree_table) as [found | e] eqn:Hscan; monad;
      [| discriminate].
    intros H. injection H as H. subst found. right. split; [reflexivity |].
    apply scan_degrees_split. exact Hscan.
Qed.

Lemma take_digits_nonneg (s : string) :
  forall (acc : Z) (k : nat), 0 <= acc -> 0 <= fst (take_digits s acc k).
Proof.
  induction s as [| c s IH]; intros acc k Hacc; cbn [take_digits]; [exact Hacc |].
  destruct (is_digit c); [| exact Hacc].
  apply IH. unfold digit_val. lia.
Qed.

Lemma search_log_power_nonneg (s : string) (v : Z) :
  search_log_power s = Some v -> 0 <= v.
Proof.
  induction s as [| c s IH].
  - simpl. discriminate.
  - cbn [search_log_power].
    destruct (strip_prefix "log(n)**" (String c s)) as [rest |].
    + pose proof (take_digits_nonneg rest 0 0 (Z.le_refl 0)) as Hnonneg.
      destruct (take_digits rest 0 0) as [w [| m]]; simpl in Hnonneg.
      * exact IH.
      * intros H. injection H as H. subst v. exact Hnonneg.
    + exact IH.
Qed.

(** X15. The power of the logarithm is never negative and the call never
    raises; for an expression without a logarithm it is zero, whatever the
    text of the expression. *)
Theorem log_power_never_negative (expr n : Expr) :
  exists k,
    get_log_power E expr n = Ok k
    /\ 0 <= k
    /\ (has_log expr = false -> k = 0).
Proof.
  rewrite get_log_power_reads_text. eexists. split; [reflexivity |].
  destruct (has_log expr); cbn [negb].
  - split; [| discriminate].
    destruct (contains "log(n)**" (str E expr)).
    + destruct (search_log_power (str E expr)) as [k |] eqn:Hsearch.
      * apply (search_log_power_nonneg _ _ Hsearch).
      * destruct (contains "log(n)" (str E expr)); lia.
    + destruct (contains "log(n)" (str E expr)); lia.
  - split; [lia | reflexivity].
Qed.

(** X16. A critical exponent that is not a number sends a polynomial
    driving term to the third case: neither comparison with [nan] holds,
    and the class reported is the driving term itself. *)
Theorem undefined_exponent_is_case_three (data : pydict) (f_n critical_exp : Expr)
  (degree : pyval) :
  driving_term E (dict_get data "f_n" (VStr "n")) (Symbol "n" PositiveReal) = Ok f_n ->
  sym_log E (dict_get data "a" (VInt 2)) (dict_get data "b" (VInt 2)) = Ok critical_exp ->
  evalf_float E critical_exp = Ok FNan ->
  get_polynomial_degree E f_n (Symbol "n" PositiveReal) = Ok (Some degree) ->
  solve_divide_conquer E data
  = Ok (master_response E ("O(" ++ str E f_n ++ ")") 3 critical_exp degree).
Proof.
  intros Hf Hlog Hfloat Hdegree. unfold solve_divide_conquer.
  rewrite Hf, Hlog. monad. rewrite Hfloat. monad. rewrite Hdegree. monad.
  assert (Hlt : flt (float_of_num degree) (fsub FNan epsilon) = false)
    by (destruct (float_of_num degree); reflexivity).
  assert (Hnear : flt (fabs (fsub (float_of_num degree) FNan)) epsilon = false)
    by (destruct (float_of_num degree); reflexivity).
  rewrite Hlt, Hnear. reflexivity.
Qed.

End Degree.

Lemma polynomial_degree_is_first_accepted_reference :
  (is_polynomial reference_engine (sqrt n_real) n_real = Ok true
   /\ exists f, poly_degree reference_engine (sqrt n_real) n_real = Ok f
                /\ VFloat (FFin (1#2)) = VFloat f)
  \/ (is_polynomial reference_engine (sqrt n_real) n_real = Ok false
      /\ exists pre post,
           degree_table = (pre ++ VFloat (FFin (1#2)) :: post)%list
           /\ degree_accepted reference_engine (sqrt n_real) n_real (VFloat (FFin (1#2)))
           /\ Forall (degree_rejected reference_engine (sqrt n_real) n_real) pre).
Proof.
  apply (polynomial_degree_is_first_accepted reference_engine (sqrt n_real) n_real
           (VFloat (FFin (1#2)))).
  vm_compute. reflexivity.
Defined.

Lemma undefined_exponent_is_case_three_reference :
  solve_divide_conquer reference_engine degenerate_request
  = Ok (master_response reference_engine ("O(" ++ str reference_engine n_real ++ ")") 3
          nan (VFloat (FFin 1))).
Proof.
  apply (undefined_exponent_is_case_three reference_engine degenerate_request n_real nan
           (VFloat (FFin 1)));
    vm_compute; reflexivity.
Defined.

(** ** The relation and the labels *)

Section Answers.

Variable E : Engine.

Ltac settle_relation := eexists; split; [reflexivity | simpl; tauto].

(** X17. The qualitative comparison never raises, and its answer is one
    of the four relations [f < g], [f ~ g], [f > g] and [?]. *)
Theorem compare_asymptotic_answers (f g n : Expr) :
  exists relation,
    compare_asymptotic E f g n = Ok relation
    /\ In relation ["f < g"; "f ~ g"; "f > g"; "?"].
Proof.
  unfold compare_asymptotic.
  destruct (simplify E (Div f g)) as [ratio | e]; monad; [| settle_relation].
  destruct (limit E ratio n oo) as [lim | e]; monad; [| settle_relation].
  destruct (expr_eqb lim (Integer 0)); monad; [settle_relation |].
  destruct (expr_in lim [oo; zoo; neg_oo]); monad; [settle_relation |].
  destruct (positive_finite E lim); monad; [settle_relation |].
  destruct (simplify E (Div g f)) as [inv_ratio | e]; monad; [| settle_relation].
  destruct (limit E inv_ratio n oo) as [inv_lim | e]; monad; [| settle_relation].
  destruct (expr_eqb inv_lim (Integer 0)); monad; [settle_relation |].
  destruct (expr_in inv_lim [oo; zoo]); monad; settle_relation.
Qed.

Ltac settle_label :=
  match goal with
  | |- exists body, Ok ?l = Ok _ => exists (slice_inner 2 l); reflexivity
  end.

(** X18. Every label [extract_complexity] returns is written [O(...)]. *)
Theorem every_label_is_big_o (expr n : Expr) :
  exists body, extract_complexity E expr n = Ok ("O(" ++ body ++ ")").
Proof.
  unfold extract_complexity.
  destruct (is_constant E expr) as [[|] | e]; monad;
    [exists "1"; reflexivity | | exists "?"; reflexivity].
  destruct (scan_candidates E expr n (candidates n)) as [[label |] | e] eqn:Hscan; monad;
    [| | exists "?"; reflexivity].
  - apply scan_candidates_label in Hscan. unfold candidates in Hscan. simpl in Hscan.
    repeat (destruct Hscan as [Hscan | Hscan]; [subst label; settle_label |]).
    destruct Hscan.
  - destruct (extract_degree_via_limit_total E expr n) as [[d |] Hd]; rewrite Hd; monad.
    + unfold degree_label.
      destruct (int_of_float d) as [k | e]; monad; [| exists "?"; reflexivity].
      destruct (float_eq_int d k).
      * exists ("n^" ++ string_of_Z k). reflexivity.
      * exists ("n^" ++ format_float E 2 d). reflexivity.
    + unfold leading_term_label.
      destruct (LT E expr n) as [leading | e]; monad.
      * exists (str E leading). reflexivity.
      * exists (str E expr). reflexivity.
Qed.

(** X19. A driving term that is not a string (a JSON number, a list,
    [null]) is reported by both solvers as an invalid [f(n)]; it does not
    raise. *)
Theorem non_string_term_is_reported (data : pydict) (v : pyval) :
  dict_lookup (KStr "f_n") data = Some v ->
  (forall s, v <> VStr s) ->
  (exists msg, solve_linear_recurrence E data = Ok (failure ("Invalid f(n): " ++ msg)))
  /\ (exists msg, solve_divide_conquer E data = Ok (failure ("Invalid f(n): " ++ msg))).
Proof.
  intros Hget Hv.
  assert (Hraise : forall default n,
             exists e, driving_term E (dict_get data "f_n" default) n = Raise e).
  { intros default n. unfold dict_get. rewrite Hget. unfold driving_term, parse_complexity.
    destruct v; try (eexists; reflexivity).
    exfalso. apply (Hv s). reflexivity. }
  split.
  - unfold solve_linear_recurrence.
    destruct (Hraise (VStr "0") (Symbol "n" PositiveInteger)) as [e He]. rewrite He.
    exists (exn_msg e). reflexivity.
  - unfold solve_divide_conquer.
    destruct (Hraise (VStr "n") (Symbol "n" PositiveReal)) as [e He]. rewrite He.
    exists (exn_msg e). reflexivity.
Qed.

End Answers.

Lemma non_string_term_is_reported_reference :
  (exists msg,
      solve_linear_recurrence reference_engine numeric_term_request
      = Ok (failure ("Invalid f(n): " ++ msg)))
  /\ (exists msg,
         solve_divide_conquer reference_engine numeric_term_request
         = Ok (failure ("Invalid f(n): " ++ msg))).
Proof.
  apply (non_string_term_is_reported reference_engine numeric_term_request (VInt 5)).
  - reflexivity.
  - intros s H. discriminate H.
Defined.

(** ** The parsing front end *)

Lemma rev_string_app (a b acc : string) :
  rev_string (a ++ b) acc = rev_string b (rev_string a acc).
Proof.
  revert acc. induction a as [| c a IH]; intros acc; simpl; [reflexivity | apply IH].
Qed.

Lemma rev_string_rev (x : string) :
  forall acc acc', rev_string (rev_string x acc) acc' = rev_string acc (x ++ acc').
Proof.
  induction x as [| c x IH]; intros acc acc'; simpl; [reflexivity |].
  rewrite IH. reflexivity.
Qed.

Lemma length_app (a b : string) :
  String.length (a ++ b) = (String.length a + String.length b)%nat.
Proof.
  induction a as [| c a IH]; simpl; [reflexivity | rewrite IH; reflexivity].
Qed.

Lemma substring_prefix (x y : string) : String.substring 0 (String.length x) (x ++ y) = x.
Proof.
  induction x as [| c x IH]; simpl.
  - destruct y; reflexivity.
  - rewrite IH. reflexivity.
Qed.

Lemma lstrip_with_keeps (sp1 : ascii -> bool) (sp2 : ascii -> ascii -> bool)
  (sp3 : ascii -> ascii -> ascii -> bool) (a : ascii) (r : string) :
  sp1 a = false ->
  (forall b, sp2 a b = false) ->
  (forall b c, sp3 a b c = false) ->
  lstrip_with sp1 sp2 sp3 (String a r) = String a r.
Proof.
  intros Ha H2 H3. cbn [lstrip_with]. rewrite Ha.
  destruct r as [| b r]; [reflexivity |]. rewrite H2.
  destruct r as [| c r]; [reflexivity |]. rewrite H3. reflexivity.
Qed.

(** No white-space character ends with the byte of [")"]. *)
Lemma closing_ends_no_space :
  is_space ")" = false
  /\ (forall b, is_space2 b ")" = false)
  /\ (forall b c, is_space3 c b ")" = false).
Proof.
  split; [reflexivity |]. split.
  - intros b. unfold is_space2. apply andb_false_r.
  - intros b c. unfold is_space3.
    change (nat_of_ascii ")") with 41%nat. cbn [Nat.eqb Nat.leb].
    rewrite !andb_false_r. reflexivity.
Qed.

(** A text that starts with a byte no white-space character starts with
    and ends with [")"] is left as it is. *)
Lemma strip_wrapped (c : ascii) (x : string) :
  is_space c = false ->
  (forall b, is_space2 c b = false) ->
  (forall b b', is_space3 c b b' = false) ->
  strip (String c (x ++ ")")) = String c (x ++ ")").
Proof.
  intros Hc H2 H3. destruct closing_ends_no_space as [Hd [Hd2 Hd3]].
  unfold strip, strip_with, lstrip, lstrip_reversed.
  rewrite (lstrip_with_keeps _ _ _ c _ Hc H2 H3).
  cbn [rev_string]. rewrite rev_string_app. cbn [rev_string].
  rewrite (lstrip_with_keeps _ _ _ ")" _ Hd Hd2 Hd3).
  cbn [rev_string]. rewrite rev_string_rev. reflexivity.
Qed.

Lemma endswith_closing (p x : string) : endswith (p ++ x ++ ")") ")" = true.
Proof.
  unfold endswith. rewrite !rev_string_app. reflexivity.
Qed.

Lemma slice_inner_wrapped (p x : string) :
  slice_inner (String.length p) (p ++ x ++ ")") = x.
Proof.
  unfold slice_inner. rewrite !length_app. cbn [String.length].
  replace (String.length p + (String.length x + 1) - String.length p - 1)%nat
    with (String.length x) by lia.
  induction p as [| c p IH]; cbn [String.length append String.substring].
  - apply substring_prefix.
  - exact IH.
Qed.

Section FrontEnd.

Variable E : Engine.

(** X20. [preprocess] removes one wrapper [O(...)], [Theta(...)] or
    [Omega(...)] (the last two written with the Greek capitals): the
    wrapped text is preprocessed like the text inside, when that has no
    white space at its ends and is not itself wrapped. *)
Theorem preprocess_removes_one_wrapper (x : string) :
  strip x = x ->
  wrapped x = false ->
  preprocess E ("O(" ++ x ++ ")") = preprocess E x
  /\ preprocess E (theta_open ++ x ++ ")") = preprocess E x
  /\ preprocess E (omega_open ++ x ++ ")") = preprocess E x.
Proof.
  intros Hstrip Hwrapped. unfold wrapped in Hwrapped.
  apply orb_false_elim in Hwrapped. destruct Hwrapped as [HO Hwrapped].
  apply orb_false_elim in Hwrapped. destruct Hwrapped as [Htheta Homega].
  assert (Hx : preprocess E x
               = re_sub E "n\s*\*\s*log" "n*log"
                   (re_sub E "log\^(\d+)\(n\)" "log(n)**\1"
                      (re_sub E "(\d)([a-zA-Z])(?!\*\*)" "\1*\2"
                         (re_sub E "\bceil\b" "ceiling"
                            (re_sub E "\|([^|]+)\|" "Abs(\1)"
                               (re_sub E "\blog2\b" "log"
                                  (re_sub E "\bln\b" "log"
                                     (replace_char "^" "**" x)))))))).
  { unfold preprocess. rewrite Hstrip, HO, Htheta, Homega. reflexivity. }
  rewrite Hx. split; [| split].
  - assert (Hs : strip ("O(" ++ x ++ ")") = "O(" ++ x ++ ")")
      by exact (strip_wrapped "O" ("(" ++ x) eq_refl (fun _ => eq_refl)
                  (fun _ _ => eq_refl)).
    assert (Hinner : slice_inner 2 ("O(" ++ x ++ ")") = x)
      by exact (slice_inner_wrapped "O(" x).
    unfold preprocess. rewrite Hs, endswith_closing, Hinner. reflexivity.
  - assert (Hs : strip (theta_open ++ x ++ ")") = theta_open ++ x ++ ")")
      by exact (strip_wrapped (ascii_of_nat 206)
                  (String (ascii_of_nat 152) "(" ++ x) eq_refl (fun _ => eq_refl)
                  (fun _ _ => eq_refl)).
    assert (Hinner : slice_inner 3 (theta_open ++ x ++ ")") = x)
      by exact (slice_inner_wrapped theta_open x).
    unfold preprocess. rewrite Hs, endswith_closing, Hinner. reflexivity.
  - assert (Hs : strip (omega_open ++ x ++ ")") = omega_open ++ x ++ ")")
      by exact (strip_wrapped (ascii_of_nat 206)
                  (String (ascii_of_nat 169) "(" ++ x) eq_refl (fun _ => eq_refl)
                  (fun _ _ => eq_refl)).
    assert (Hinner : slice_inner 3 (omega_open ++ x ++ ")") = x)
      by exact (slice_inner_wrapped omega_open x).
    unfold preprocess. rewrite Hs, endswith_closing, Hinner. reflexivity.
Qed.

(** X21. [parse] raises only [ValueError], and only when each of its
    three attempts raises; otherwise it returns what the first attempt
    that succeeds returns. *)
Theorem parse_raises_only_value_error (expr_str : string) :
  match parse E expr_str with
  | Ok expr =>
      sympify_locals E (preprocess E expr_str) = Ok expr
      \/ ((exists e1, sympify_locals E (preprocess E expr_str) = Raise e1)
          /\ parse_expr E (preprocess E expr_str) = Ok expr)
      \/ ((exists e1, sympify_locals E (preprocess E expr_str) = Raise e1)
          /\ (exists e2, parse_expr E (preprocess E expr_str) = Raise e2)
          /\ sympify_locals E (replace_char "^" "**" expr_str) = Ok expr)
  | Raise e =>
      exn_type e = "ValueError"
      /\ (exists e1, sympify_locals E (preprocess E expr_str) = Raise e1)
      /\ (exists e2, parse_expr E (preprocess E expr_str) = Raise e2)
      /\ (exists e3, sympify_locals E (replace_char "^" "**" expr_str) = Raise e3)
  end.
Proof.
  unfold parse.
  destruct (sympify_locals E (preprocess E expr_str)) as [x | e1]; [left; reflexivity |].
  destruct (parse_expr E (preprocess E expr_str)) as [x | e2].
  - right. left. split; [exists e1; reflexivity | reflexivity].
  - destruct (sympify_locals E (replace_char "^" "**" expr_str)) as [x | e3].
    + right. right. split; [exists e1; reflexivity |].
      split; [exists e2; reflexivity | reflexivity].
    + split; [reflexivity |]. split; [exists e1; reflexivity |].
      split; [exists e2; reflexivity | exists e3; reflexivity].
Qed.

Lemma parse_raises_value_error (expr_str : string) (e : exn) :
  parse E expr_str = Raise e -> exn_type e = "ValueError".
Proof.
  unfold parse.
  destruct (sympify_locals E (preprocess E expr_str)); [discriminate |].
  destruct (parse_expr E (preprocess E expr_str)); [discriminate |].
  destruct (sympify_locals E (replace_char "^" "**" expr_str)); [discriminate |].
  intros H. injection H as H. subst e. reflexivity.
Qed.

(** X22. [validate_complexity] accepts a text exactly when it is not
    blank and [parse] reads it, and gives a message exactly when it
    rejects. *)
Theorem validate_complexity_verdict (expr_str : string) :
  (fst (validate_complexity E expr_str) = true
   <-> strip expr_str <> "" /\ exists expr, parse E expr_str = Ok expr)
  /\ (snd (validate_complexity E expr_str) = None
      <-> fst (validate_complexity E expr_str) = true).
Proof.
  unfold validate_complexity.
  destruct (String.eqb expr_str "") eqn:Hempty; cbn [orb].
  - apply String.eqb_eq in Hempty. subst expr_str. simpl. split; split.
    + discriminate.
    + intros [H _]. exfalso. apply H. reflexivity.
    + discriminate.
    + discriminate.
  - destruct (String.eqb (strip expr_str) "") eqn:Hblank.
    + apply String.eqb_eq in Hblank. simpl. split; split.
      * discriminate.
      * intros [H _]. contradiction.
      * discriminate.
      * discriminate.
    + apply String.eqb_neq in Hblank.
      destruct (parse E expr_str) as [expr | e]; simpl; split; split.
      * intros _. split; [exact Hblank | exists expr; reflexivity].
      * reflexivity.
      * reflexivity.
      * reflexivity.
      * discriminate.
      * intros [_ [expr H]]. discriminate H.
      * discriminate.
      * discriminate.
Qed.

(** X23. The hybrid parser agrees with [parse] wherever [parse] succeeds,
    and consults the other parser only after a failure of [parse].  What
    it raises is always a [ValueError] that says no strategy worked. *)
Theorem hybrid_parse_extends_parse (complex_parse : string -> result Expr) (z : Expr)
  (expr_str : string) :
  (forall expr, parse E expr_str = Ok expr ->
                hybrid_parse E complex_parse z expr_str = Ok expr)
  /\ (forall e, hybrid_parse E complex_parse z expr_str = Raise e ->
                (exists e0, parse E expr_str = Raise e0)
                /\ exn_type e = "ValueError"
                /\ exists e', exn_msg e = "Could not parse '" ++ expr_str
                                          ++ "' with any strategy: " ++ exn_msg e')
  /\ (forall e0 z_expr,
         parse E expr_str = Raise e0 ->
         complex_parse (replace_char "n" "z" expr_str) = Ok z_expr ->
         forall expr, subs E z_expr z complexity_n = Ok expr ->
                      hybrid_parse E complex_parse z expr_str = Ok expr).
Proof.
  unfold hybrid_parse. split; [| split].
  - intros expr H. rewrite H. reflexivity.
  - intros e. destruct (parse E expr_str) as [expr | e0] eqn:Hparse; [discriminate |].
    rewrite (parse_raises_value_error expr_str e0 Hparse). cbn [String.eqb Ascii.eqb].
    change (String.eqb "ValueError" "ValueError") with true. cbv iota.
    destruct (complex_parse (replace_char "n" "z" expr_str)) as [z_expr | e']; monad.
    + destruct (subs E z_expr z complexity_n) as [expr | e']; monad; [discriminate |].
      intros H. injection H as H. subst e.
      split; [exists e0; reflexivity |]. split; [reflexivity |]. exists e'. reflexivity.
    + intros H. injection H as H. subst e.
      split; [exists e0; reflexivity |]. split; [reflexivity |]. exists e'. reflexivity.
  - intros e0 z_expr Hparse Hcomplex expr Hsubs. rewrite Hparse.
    rewrite (parse_raises_value_error expr_str e0 Hparse).
    change (String.eqb "ValueError" "ValueError") with true. cbv iota.
    rewrite Hcomplex. monad. rewrite Hsubs. reflexivity.
Qed.

End FrontEnd.

Lemma preprocess_removes_one_wrapper_reference :
  preprocess reference_engine ("O(" ++ "n^2" ++ ")") = preprocess reference_engine "n^2"
  /\ preprocess reference_engine (theta_open ++ "n^2" ++ ")")
     = preprocess reference_engine "n^2"
  /\ preprocess reference_engine (omega_open ++ "n^2" ++ ")")
     = preprocess reference_engine "n^2".
Proof.
  apply (preprocess_removes_one_wrapper reference_engine "n^2"); reflexivity.
Defined.

(** ** Reading the power of the logarithm back from the text *)

(** The number a numeral denotes, read from the left as [take_digits]
    reads it. *)
Lemma take_digits_numeral (d : Decimal.uint) (b : string) :
  forall (acc : positive) (k : nat),
  exists m,
    take_digits (NilEmpty.string_of_uint d ++ b) (Z.pos acc) k
    = take_digits b (Z.pos (Pos.of_uint_acc d acc)) m
    /\ (k <= m)%nat.
Proof.
  induction d as [| d IH | d IH | d IH | d IH | d IH | d IH | d IH | d IH | d IH | d IH];
    intros acc k;
    [exists k; split; [reflexivity | lia] | ..];
    cbn [NilEmpty.string_of_uint append take_digits];
    match goal with
    | |- context [is_digit ?c] => change (is_digit c) with true; cbv iota
    end;
    match goal with
    | |- context [take_digits _ (10 * Z.pos acc + digit_val ?c) _] =>
        let v := eval vm_compute in (digit_val c) in
        change (digit_val c) with v
    end;
    cbn [Pos.of_uint_acc];
    match goal with
    | |- context [Pos.of_uint_acc d ?acc'] =>
        destruct (IH acc' (S k)) as [m [Hm Hk]]
    end;
    exists m; (split; [| lia]); rewrite <- Hm; f_equal; lia.
Qed.

Lemma take_digits_numeral_zero (d : Decimal.uint) (b : string) :
  forall k : nat,
  exists m,
    take_digits (NilEmpty.string_of_uint d ++ b) 0 k
    = take_digits b (Z.of_N (Pos.of_uint d)) m
    /\ (k <= m)%nat
    /\ (d <> Decimal.Nil -> (k < m)%nat).
Proof.
  induction d as [| d IH | d IH | d IH | d IH | d IH | d IH | d IH | d IH | d IH | d IH];
    intros k;
    [exists k; split; [reflexivity | split; [lia | congruence]] | ..];
    cbn [NilEmpty.string_of_uint append take_digits];
    match goal with
    | |- context [is_digit ?c] => change (is_digit c) with true; cbv iota
    end;
    match goal with
    | |- context [take_digits _ (10 * 0 + digit_val ?c) _] =>
        let v := eval vm_compute in (10 * 0 + digit_val c) in
        change (10 * 0 + digit_val c) with v
    end;
    cbn [Pos.of_uint];
    [ destruct (IH (S k)) as [m [Hm [Hk _]]];
      exists m; split; [exact Hm | split; [lia | intros _; lia]]
    | match goal with
      | |- context [take_digits _ (Z.pos ?acc) _] =>
          destruct (take_digits_numeral d b acc (S k)) as [m [Hm Hk]]
      end;
      exists m; split; [exact Hm | split; [lia | intros _; lia]] .. ].
Qed.

Lemma take_digits_stop (b : string) (acc : Z) (k : nat) :
  no_leading_digit b = true -> take_digits b acc k = (acc, k).
Proof.
  destruct b as [| c b]; cbn [no_leading_digit take_digits]; [reflexivity |].
  destruct (is_digit c); [discriminate | reflexivity].
Qed.

Lemma take_digits_string_of_Z (k : Z) (b : string) :
  0 <= k ->
  no_leading_digit b = true ->
  exists m, take_digits (string_of_Z k ++ b) 0 0 = (k, S m).
Proof.
  intros Hk Hb. destruct k as [| p | p]; [| | lia].
  - exists 0%nat. change (string_of_Z 0 ++ b) with (String "0" b).
    cbn [take_digits]. change (is_digit "0") with true. cbv iota.
    apply take_digits_stop. exact Hb.
  - unfold string_of_Z. cbn [Z.to_int NilZero.string_of_int].
    pose proof (DecimalPos.Unsigned.of_to p) as Hp.
    assert (Hnil : Pos.to_uint p <> Decimal.Nil).
    { intros H. rewrite H in Hp. discriminate Hp. }
    assert (Hstr : NilZero.string_of_uint (Pos.to_uint p)
                   = NilEmpty.string_of_uint (Pos.to_uint p)).
    { destruct (Pos.to_uint p); [congruence | reflexivity ..]. }
    rewrite Hstr.
    destruct (take_digits_numeral_zero (Pos.to_uint p) b 0) as [m [Hm [_ Hpos]]].
    specialize (Hpos Hnil). rewrite Hm, Hp. cbn [Z.of_N].
    rewrite (take_digits_stop b _ _ Hb).
    destruct m as [| m]; [lia |]. exists m. reflexivity.
Qed.

Lemma strip_prefix_app (p s : string) : strip_prefix p (p ++ s) = Some s.
Proof.
  induction p as [| c p IH]; cbn [append strip_prefix].
  - destruct s; reflexivity.
  - rewrite Ascii.eqb_refl. exact IH.
Qed.

Lemma contains_unfold (p s : string) :
  contains p s
  = if startswith s p then true
    else match s with
         | EmptyString => false
         | String _ s' => contains p s'
         end.
Proof. destruct s; reflexivity. Qed.

Lemma contains_app (p a s : string) : contains p (a ++ p ++ s) = true.
Proof.
  induction a as [| c a IH]; rewrite contains_unfold; cbn [append].
  - unfold startswith. rewrite strip_prefix_app. reflexivity.
  - destruct (startswith (String c (a ++ p ++ s)) p); [reflexivity | exact IH].
Qed.

Lemma search_log_power_unfold (s : string) :
  search_log_power s
  = match
      match strip_prefix "log(n)**" s with
      | Some rest =>
          match take_digits rest 0 0 with
          | (_, O) => None
          | (v, S _) => Some v
          end
      | None => None
      end
    with
    | Some v => Some v
    | None =>
        match s with
        | EmptyString => None
        | String _ s' => search_log_power s'
        end
    end.
Proof. destruct s; reflexivity. Qed.

Lemma search_log_power_skip (a rest : string) :
  lacks_char "l" a = true ->
  search_log_power (a ++ rest) = search_log_power rest.
Proof.
  induction a as [| c a IH]; cbn [lacks_char append]; intros Ha; [reflexivity |].
  apply andb_prop in Ha. destruct Ha as [Hc Ha].
  rewrite search_log_power_unfold. cbn [strip_prefix].
  destruct (Ascii.eqb "l" c) eqn:Hl.
  - apply Ascii.eqb_eq in Hl. subst c. discriminate Hc.
  - apply IH. exact Ha.
Qed.

Lemma search_log_power_here (k : Z) (b : string) :
  0 <= k ->
  no_leading_digit b = true ->
  search_log_power ("log(n)**" ++ string_of_Z k ++ b) = Some k.
Proof.
  intros Hk Hb. rewrite search_log_power_unfold, strip_prefix_app.
  destruct (take_digits_string_of_Z k b Hk Hb) as [m Hm]. rewrite Hm. reflexivity.
Qed.

(** X24. The power of the logarithm is read back from the text of the
    expression.  When the expression has a logarithm and prints as
    [a log(n)**k b], with no letter [l] in [a], the decimal numeral of a
    natural number [k], and no digit at the start of [b], the power
    returned is [k]. *)
Theorem log_power_is_read_back (E : Engine) (expr n : Expr) (a b : string) (k : Z) :
  has_log expr = true ->
  str E expr = a ++ "log(n)**" ++ string_of_Z k ++ b ->
  lacks_char "l" a = true ->
  0 <= k ->
  no_leading_digit b = true ->
  get_log_power E expr n = Ok k.
Proof.
  intros Hlog Hstr Ha Hk Hb.
  rewrite get_log_power_reads_text, Hlog, Hstr. cbn [negb].
  rewrite contains_app, (search_log_power_skip a _ Ha), (search_log_power_here k b Hk Hb).
  reflexivity.
Qed.

Lemma log_power_is_read_back_reference :
  get_log_power reference_engine cubic_log_term n_real = Ok 3.
Proof.
  apply (log_power_is_read_back reference_engine cubic_log_term n_real "n + " "" 3).
  - reflexivity.
  - vm_compute. reflexivity.
  - reflexivity.
  - lia.
  - reflexivity.
Defined.

(** ** What leaves the two solvers *)

Lemma dict_lookup_set_other (d : pydict) (k k' : pykey) (v : pyval) :
  pykey_eqb k' k = false -> dict_lookup k' (dict_set d k v) = dict_lookup k' d.
Proof.
  intros Hk. induction d as [| [k0 v0] d IH]; simpl.
  - rewrite Hk. reflexivity.
  - destruct (pykey_eqb k k0) eqn:Hk0; simpl.
    + apply pykey_eqb_eq in Hk0. subst k0. rewrite Hk. reflexivity.
    + rewrite IH. reflexivity.
Qed.

Section Escapes.

Variable E : Engine.

Local Abbreviation n_pos := (Symbol "n" PositiveInteger).

Ltac never_raises H :=
  match type of H with
  | try_except ?c ?h = Raise _ =>
      let a := fresh "a" in
      let Ha := fresh "Ha" in
      destruct (try_except_total c h) as [a Ha];
      [intros ?; eexists; reflexivity | rewrite Ha in H; discriminate H]
  end.

(** X26. An exception leaves [solve_divide_conquer] exactly when the
    driving term is read and the critical exponent cannot be computed or
    cannot be turned into a float. *)
Theorem divide_conquer_escapes_at_exponent (data : pydict) (e : exn) :
  solve_divide_conquer E data = Raise e
  <-> exists f_n,
        driving_term E (dict_get data "f_n" (VStr "n")) (Symbol "n" PositiveReal) = Ok f_n
        /\ (sym_log E (dict_get data "a" (VInt 2)) (dict_get data "b" (VInt 2)) = Raise e
            \/ exists critical_exp,
                 sym_log E (dict_get data "a" (VInt 2)) (dict_get data "b" (VInt 2))
                 = Ok critical_exp
                 /\ evalf_float E critical_exp = Raise e).
Proof.
  split.
  - intros H. unfold solve_divide_conquer in H.
    destruct (driving_term E (dict_get data "f_n" (VStr "n")) (Symbol "n" PositiveReal))
      as [f_n | e0]; [| discriminate H].
    exists f_n. split; [reflexivity |].
    destruct (sym_log E (dict_get data "a" (VInt 2)) (dict_get data "b" (VInt 2)))
      as [critical_exp | e0]; monad in H; [| left; injection H as H; subst e0; reflexivity].
    right. exists critical_exp. split; [reflexivity |].
    destruct (evalf_float E critical_exp) as [p | e0]; monad in H;
      [| injection H as H; subst e0; reflexivity].
    destruct (get_polynomial_degree_total E f_n (Symbol "n" PositiveReal)) as [d Hd].
    rewrite Hd in H. monad in H.
    never_raises H.
  - intros [f_n [Hf Hstep]]. unfold solve_divide_conquer. rewrite Hf.
    destruct Hstep as [H | [critical_exp [Hlog H]]]; [rewrite H; reflexivity |].
    rewrite Hlog. monad. rewrite H. reflexivity.
Qed.

Ltac reported_failure H Hsuccess :=
  monad in H; injection H as H; subst;
  rewrite failure_not_success in Hsuccess; discriminate Hsuccess.

(** X27. A successful answer of [solve_linear_recurrence] reports the
    solution [rsolve] found, simplified: the closed form and the LaTeX are
    its text, the class is the class of the simplified solution, and
    [verified] is the numeric check of the simplified solution against the
    equation that was solved. *)
Theorem linear_success_reports_solution (data r : pydict) :
  solve_linear_recurrence E data = Ok r ->
  dict_lookup (KStr "success") r = Some (VBool true) ->
  exists f_n coeff_list recurrence_eq items init_conds solution simplified complexity
         verified,
    driving_term E (dict_get data "f_n" (VStr "0")) n_pos = Ok f_n
    /\ py_iter (dict_get data "coeffs" (VList [VInt 1])) = Ok coeff_list
    /\ subtract_terms n_pos (Sub (T_app n_pos) f_n) 0 coeff_list = Ok recurrence_eq
    /\ py_items (dict_get data "base" (VDict [(KStr "0", VInt 0)])) = Ok items
    /\ build_init_conds E items [] = Ok init_conds
    /\ rsolve E recurrence_eq (T_app n_pos) init_conds = Ok (Some solution)
    /\ simplify E solution = Ok simplified
    /\ extract_complexity E simplified n_pos = Ok complexity
    /\ verify_solution_numerically E simplified n_pos recurrence_eq init_conds
       = Ok verified
    /\ r = response
             [ ("success", VBool true);
               ("closed_form", VStr (str E simplified));
               ("complexity", VStr complexity);
               ("latex", VStr (latex E simplified));
               ("verified", VBool verified);
               ("error", VNone) ].
Proof.
  intros H Hsuccess. unfold solve_linear_recurrence in H.
  destruct (driving_term E (dict_get data "f_n" (VStr "0")) n_pos) as [f_n | e0] eqn:Hf;
    [| reported_failure H Hsuccess].
  destruct (py_iter (dict_get data "coeffs" (VList [VInt 1]))) as [coeff_list | e0]
    eqn:Hcoeffs; monad in H; [| discriminate H].
  destruct (subtract_terms n_pos (Sub (T_app n_pos) f_n) 0 coeff_list)
    as [recurrence_eq | e0] eqn:Heq; monad in H; [| discriminate H].
  destruct (py_items (dict_get data "base" (VDict [(KStr "0", VInt 0)])))
    as [items | e0] eqn:Hitems; monad in H; [| discriminate H].
  destruct (build_init_conds E items []) as [init_conds | e0] eqn:Hbuild; monad in H;
    [| discriminate H].
  destruct (rsolve E recurrence_eq (T_app n_pos) init_conds) as [[solution |] | e0]
    eqn:Hsolve; [| reported_failure H Hsuccess | reported_failure H Hsuccess].
  monad in H.
  destruct (simplify E solution) as [simplified | e0] eqn:Hsimplified;
    [| reported_failure H Hsuccess].
  monad in H.
  destruct (extract_complexity E simplified n_pos) as [complexity | e0] eqn:Hclass;
    [| reported_failure H Hsuccess].
  monad in H.
  destruct (verify_solution_numerically E simplified n_pos recurrence_eq init_conds)
    as [verified | e0] eqn:Hverified; [| reported_failure H Hsuccess].
  monad in H. injection H as H.
  exists f_n, coeff_list, recurrence_eq, items, init_conds, solution, simplified,
    complexity, verified.
  repeat (split; [first [assumption | reflexivity] |]). symmetry. exact H.
Qed.

(** X28. A verify request is answered without reading its [recurrence]:
    only the proposed solution and the base cases are used, and the answer
    is the same whatever recurrence the request states. *)
Theorem verify_never_reads_recurrence (data : pydict) (recurrence : pyval) :
  verify_recurrence E (dict_set data (KStr "recurrence") recurrence)
  = verify_recurrence E data.
Proof.
  unfold verify_recurrence, dict_get.
  rewrite !dict_lookup_set_other by reflexivity. reflexivity.
Qed.

End Escapes.

Lemma linear_success_reports_solution_reference :
  exists f_n coeff_list recurrence_eq items init_conds solution simplified complexity
         verified,
    driving_term reference_engine (dict_get doubling_request "f_n" (VStr "0"))
      (Symbol "n" PositiveInteger) = Ok f_n
    /\ py_iter (dict_get doubling_request "coeffs" (VList [VInt 1])) = Ok coeff_list
    /\ subtract_terms (Symbol "n" PositiveInteger)
         (Sub (T_app (Symbol "n" PositiveInteger)) f_n) 0 coeff_list = Ok recurrence_eq
    /\ py_items (dict_get doubling_request "base" (VDict [(KStr "0", VInt 0)])) = Ok items
    /\ build_init_conds reference_engine items [] = Ok init_conds
    /\ rsolve reference_engine recurrence_eq (T_app (Symbol "n" PositiveInteger)) init_conds
       = Ok (Some solution)
    /\ simplify reference_engine solution = Ok simplified
    /\ extract_complexity reference_engine simplified (Symbol "n" PositiveInteger)
       = Ok complexity
    /\ verify_solution_numerically reference_engine simplified (Symbol "n" PositiveInteger)
         recurrence_eq init_conds = Ok verified
    /\ doubling_response
       = response
           [ ("success", VBool true);
             ("closed_form", VStr (str reference_engine simplified));
             ("complexity", VStr complexity);
             ("latex", VStr (latex reference_engine simplified));
             ("verified", VBool verified);
             ("error", VNone) ].
Proof.
  apply (linear_success_reports_solution reference_engine doubling_request
           doubling_response);
    vm_compute; reflexivity.
Defined.

(** * Rounding to binary64 *)

Section Rounding.

Local Open Scope Q_scope.

























End Rounding.

(** * The three cases of the Master Theorem *)


Section Cases.

Variable E : Engine.



End Cases.


(** At the edge of the tolerance the rounded difference decides: for the
    degree 0 and the critical exponent [0.01] the difference [p - epsilon]
    is [0.0], and for the degree 1 and the exponent [1.01] it is [1.0];
    neither test of the code holds and the branch taken is the third. *)
Lemma exponent_at_tolerance :
  flt (FFin 0) (fsub epsilon epsilon) = false
  /\ flt (fabs (fsub (FFin 0) epsilon)) epsilon = false
  /\ double_round (101 # 100) = FFin (4548635623644201 # 4503599627370496)
  /\ flt (FFin 1) (fsub (FFin (4548635623644201 # 4503599627370496)) epsilon) = false
  /\ flt (fabs (fsub (FFin 1) (FFin (4548635623644201 # 4503599627370496)))) epsilon = false.
Proof. repeat split; vm_compute; reflexivity. Qed.

(** * The chain of the classification *)

Section Chain.

Variable E : Engine.




End Chain.

(** * Requests that leave fields out *)

Section Accepted.

Variable E : Engine.

(** C10. Omitted fields take fixed defaults, and the request is accepted.
    A linear request is handled as the same request with [coeffs = [1]],
    [base = {"0": 0}] and [f_n = "0"] written out for the fields it lacks,
    a divide-and-conquer request as the same request with [a = 2], [b = 2]
    and [f_n = "n"] written out, and a request with no [type] field is
    handled by [solve_linear_recurrence].  A linear request that names none
    of its three fields is answered with success and the closed form of
    [T(n) = T(n-1)], [T(0) = 0], whenever the library solves that
    recurrence; a divide-and-conquer request that names none of its three
    fields is answered with success and the critical exponent [log_2(2)],
    whenever the library reads [n] and evaluates that logarithm. *)
Theorem omitted_fields_take_defaults (data : pydict) :
  solve_linear_recurrence E data
  = solve_linear_recurrence E (with_defaults linear_defaults data)
  /\ solve_divide_conquer E data
     = solve_divide_conquer E (with_defaults divide_conquer_defaults data)
  /\ (dict_lookup (KStr "type") data = None ->
      main E (Json (VDict data))
      = match solve_linear_recurrence E data with
        | Ok r => Printed r 0
        | Raise e => Uncaught e
        end)
  /\ (dict_lookup (KStr "coeffs") data = None ->
      dict_lookup (KStr "base") data = None ->
      dict_lookup (KStr "f_n") data = None ->
      forall f_n zero solution simplified : Expr,
        driving_term E (VStr "0") (Symbol "n" PositiveInteger) = Ok f_n ->
        sympify E (VInt 0) = Ok zero ->
        rsolve E
          (Sub (Sub (T_app (Symbol "n" PositiveInteger)) f_n)
               (Mul (Integer 1)
                    (T_app (Add (Symbol "n" PositiveInteger) (Integer (-1))))))
          (T_app (Symbol "n" PositiveInteger)) [(0, zero)]
        = Ok (Some solution) ->
        simplify E solution = Ok simplified ->
        exists complexity verified,
          solve_linear_recurrence E data
          = Ok (response
                  [ ("success", VBool true);
                    ("closed_form", VStr (str E simplified));
                    ("complexity", VStr complexity);
                    ("latex", VStr (latex E simplified));
                    ("verified", VBool verified);
                    ("error", VNone) ]))
  /\ (dict_lookup (KStr "a") data = None ->
      dict_lookup (KStr "b") data = None ->
      dict_lookup (KStr "f_n") data = None ->
      forall (f_n critical_exp : Expr) (p : pyfloat),
        driving_term E (VStr "n") (Symbol "n" PositiveReal) = Ok f_n ->
        sym_log E (VInt 2) (VInt 2) = Ok critical_exp ->
        evalf_float E critical_exp = Ok p ->
        exists r,
          solve_divide_conquer E data = Ok r
          /\ dict_lookup (KStr "success") r = Some (VBool true)
          /\ dict_lookup (KStr "critical_exponent") r = Some (VStr (str E critical_exp))
          /\ dict_lookup (KStr "error") r = Some VNone).
Proof.
  split; [| split; [| split; [| split]]].
  - symmetry. apply solve_linear_recurrence_ignores; other_key.
  - symmetry. apply solve_divide_conquer_ignores; other_key.
  - intros Htype. unfold main, dispatch, py_get, dict_get.
    rewrite Htype. reflexivity.
  - intros Hcoeffs Hbase Hfn f_n zero solution simplified Hterm Hzero Hsolve Hsimplify.
    unfold solve_linear_recurrence, dict_get.
    rewrite Hcoeffs, Hbase, Hfn, Hterm.
    cbn [py_iter py_items bind subtract_terms py_mul build_init_conds].
    rewrite Hzero. monad.
    change (int_of_key (KStr "0")) with (@Ok Z 0). monad.
    change (sub_int (Symbol "n" PositiveInteger) (1 + 0))
      with (Add (Symbol "n" PositiveInteger) (Integer (-1))).
    change (init_set [] 0 zero) with [(0, zero)].
    rewrite Hsolve. monad. rewrite Hsimplify. monad.
    destruct (extract_complexity_returns E simplified (Symbol "n" PositiveInteger))
      as [complexity Hcomplexity].
    rewrite Hcomplexity. monad.
    destruct (verify_solution_numerically_total E simplified (Symbol "n" PositiveInteger)
                (Sub (Sub (T_app (Symbol "n" PositiveInteger)) f_n)
                     (Mul (Integer 1)
                          (T_app (Add (Symbol "n" PositiveInteger) (Integer (-1))))))
                [(0, zero)]) as [verified Hverified].
    rewrite Hverified. monad.
    exists complexity, verified. reflexivity.
  - intros Ha Hb Hfn f_n critical_exp p Hterm Hlog Hfloat.
    unfold solve_divide_conquer, dict_get.
    rewrite Ha, Hb, Hfn, Hterm, Hlog. monad. rewrite Hfloat. monad.
    destruct (get_polynomial_degree_total E f_n (Symbol "n" PositiveReal))
      as [[degree |] Hdegree]; rewrite Hdegree; monad.
    + destruct (flt (float_of_num degree) (fsub p epsilon)).
      * eexists. split; [reflexivity |]. repeat split.
      * destruct (flt (fabs (fsub (float_of_num degree) p)) epsilon).
        -- destruct (get_log_power_total E f_n (Symbol "n" PositiveReal)) as [k Hk].
           rewrite Hk. monad.
           destruct (k =? 0); eexists; (split; [reflexivity |]); repeat split.
        -- eexists. split; [reflexivity |]. repeat split.
    + eexists. split; [reflexivity |]. repeat split.
Qed.

End Accepted.

(** C10, two runs: the empty request is answered as the linear request
    [T(n) = T(n-1)], [T(0) = 0], with the closed form [0], and the
    divide-and-conquer request that names no field as merge sort. *)
Lemma omitted_fields_take_defaults_reference :
  main reference_engine (Json (VDict []))
  = Printed (response
               [ ("success", VBool true);
                 ("closed_form", VStr "0");
                 ("complexity", VStr "O(1)");
                 ("latex", VStr "0");
                 ("verified", VBool true);
                 ("error", VNone) ]) 0
  /\ (exists complexity verified,
         solve_linear_recurrence reference_engine []
         = Ok (response
                 [ ("success", VBool true);
                   ("closed_form", VStr "0");
                   ("complexity", VStr complexity);
                   ("latex", VStr "0");
                   ("verified", VBool verified);
                   ("error", VNone) ]))
  /\ (exists r,
         solve_divide_conquer reference_engine bare_divide_conquer_request = Ok r
         /\ dict_lookup (KStr "success") r = Some (VBool true)
         /\ dict_lookup (KStr "critical_exponent") r = Some (VStr "1")
         /\ dict_lookup (KStr "error") r = Some VNone)
  /\ solve_divide_conquer reference_engine bare_divide_conquer_request
     = solve_divide_conquer reference_engine merge_sort_request.
Proof.
  destruct (omitted_fields_take_defaults reference_engine [])
    as [_ [_ [Hmain [Hlinear _]]]].
  destruct (omitted_fields_take_defaults reference_engine bare_divide_conquer_request)
    as [_ [Hdefaults [_ [_ Hdivide]]]].
  split; [| split; [| split]].
  - rewrite (Hmain eq_refl). vm_compute. reflexivity.
  - apply (Hlinear eq_refl eq_refl eq_refl (Integer 0) (Integer 0)
             (Mul (Integer 0) (Pow (Integer 1) (Symbol "n" PositiveInteger)))
             (Integer 0)); vm_compute; reflexivity.
  - apply (Hdivide eq_refl eq_refl eq_refl (Symbol "n" PositiveReal) (Integer 1) (FFin 1));
      vm_compute; reflexivity.
  - rewrite Hdefaults. vm_compute. reflexivity.
Defined.

(** The answer to the divide-and-conquer request that names no field. *)
Lemma bare_divide_conquer_accepted :
  main reference_engine (Json (VDict bare_divide_conquer_request))
  = Printed (master_response reference_engine "O(n^1 * log(n))" 2 (Integer 1)
               (VFloat (FFin 1))) 0.
Proof. vm_compute. reflexivity. Qed.

(** C6, the counterexample.  The closed form [n/3] takes the value [1/3]
    at the index 1.  The declared base value [0.3333333333333333] is the
    binary64 number nearest to one third, [6004799503160661 / 2^54], and is
    not one third.  The difference of the two is computed in floating
    point, where it is zero, and the base case is reported as verified. *)
Lemma float_base_case_matches :
  driving_term reference_engine (dict_get third_request "solution" (VStr "")) n_int
  = Ok (Mul n_int (Pow (Integer 3) (Integer (-1))))
  /\ subs reference_engine (Mul n_int (Pow (Integer 3) (Integer (-1)))) n_int (Integer 1)
     = Ok (Rational (1#3))
  /\ build_init_conds reference_engine [(KStr "1", VFloat (FFin third_double))] []
     = Ok [(1, Float third_double)]
  /\ double_round (1#3) = FFin third_double
  /\ ~ (third_double == 1#3)%Q
  /\ exists details,
       verify_recurrence reference_engine third_request
       = Ok (response
               [ ("success", VBool true);
                 ("verified_base_cases", VBool true);
                 ("base_case_details", VDict details);
                 ("complexity", VStr "O(n)");
                 ("error", VNone) ]).
Proof.
  split; [vm_compute; reflexivity |].
  split; [vm_compute; reflexivity |].
  split; [vm_compute; reflexivity |].
  split; [vm_compute; reflexivity |].
  split; [intros H; vm_compute in H; discriminate H |].
  eexists. vm_compute. reflexivity.
Qed.
